(** * The AUR package updater (update_aur_packages.py)

    A shallow embedding of the script that mirrors OpenLyst releases into
    AUR package repositories, and the properties of its specification.

    Layout: the Python values and string operations the script relies on,
    hashlib's SHA-256, a small monad for the script's effects (external
    actions are recorded in a trace, exceptions are passed on), the
    script itself, and then the theorems. Logging is left out: it writes
    to the log only and decides nothing. *)

From Stdlib Require Import ZArith List Bool Ascii String Strings.Byte Lia.
From Stdlib Require Import DecimalString.
Import ListNotations.

Local Open Scope string_scope.

(* ================================================================== *)
(** ** Python strings and values *)
(* ================================================================== *)

Module Py.

(** A Python [str] is a Rocq string whose characters are code points
    below 256. *)

Definition chr (n : nat) : string := String (ascii_of_nat n) "".

Definition nl : string := chr 10.
Definition cr : string := chr 13.
Definition tab : string := chr 9.
Definition dq : string := chr 34.
Definition backslash : string := chr 92.

Definition LF : ascii := ascii_of_nat 10.
Definition CR : ascii := ascii_of_nat 13.

(** [Q s] is [s] between double quotes. *)
Definition Q (s : string) : string := dq ++ s ++ dq.

Definition is_empty (s : string) : bool :=
  match s with EmptyString => true | String _ _ => false end.

(** [sep.join(l)] *)
Fixpoint join (sep : string) (l : list string) : string :=
  match l with
  | [] => ""
  | [x] => x
  | x :: r => x ++ sep ++ join sep r
  end.

(** [s.startswith(p)] *)
Fixpoint startswith (p s : string) : bool :=
  match p with
  | EmptyString => true
  | String a p' =>
      match s with
      | EmptyString => false
      | String b s' => Ascii.eqb a b && startswith p' s'
      end
  end.

(** [s[n:]] *)
Fixpoint drop (n : nat) (s : string) : string :=
  match n with
  | O => s
  | S n' => match s with EmptyString => "" | String _ r => drop n' r end
  end.

(** [s.replace(old, new)] for a non-empty [old]: occurrences are replaced
    from the left and do not overlap. [skip] counts the characters of a
    matched occurrence that are still to be passed over. *)
Fixpoint replace_from (skip : nat) (old new s : string) : string :=
  match s with
  | EmptyString => ""
  | String c r =>
      match skip with
      | S k => replace_from k old new r
      | O =>
          if startswith old s
          then new ++ replace_from (String.length old - 1) old new r
          else String c (replace_from 0 old new r)
      end
  end.

Definition replace (old new s : string) : string := replace_from 0 old new s.

(** Case mapping of ASCII letters; other characters are left as they are. *)
Definition upper_char (c : ascii) : ascii :=
  let n := nat_of_ascii c in
  if (97 <=? n)%nat && (n <=? 122)%nat then ascii_of_nat (n - 32) else c.

Definition lower_char (c : ascii) : ascii :=
  let n := nat_of_ascii c in
  if (65 <=? n)%nat && (n <=? 90)%nat then ascii_of_nat (n + 32) else c.

Fixpoint map_chars (f : ascii -> ascii) (s : string) : string :=
  match s with
  | EmptyString => ""
  | String c r => String (f c) (map_chars f r)
  end.

(** [s.upper()] *)
Definition upper (s : string) : string := map_chars upper_char s.

(** [s.capitalize()]: first character upper case, the rest lower case. *)
Definition capitalize (s : string) : string :=
  match s with
  | EmptyString => ""
  | String c r => String (upper_char c) (map_chars lower_char r)
  end.

(** The characters [str.strip()] removes: those for which [isspace] holds. *)
Definition isspace (c : ascii) : bool :=
  let n := nat_of_ascii c in
  ((9 <=? n)%nat && (n <=? 13)%nat) || ((28 <=? n)%nat && (n <=? 32)%nat)
  || (n =? 133)%nat || (n =? 160)%nat.

Fixpoint lstrip (s : string) : string :=
  match s with
  | EmptyString => ""
  | String c r => if isspace c then lstrip r else s
  end.

Fixpoint rstrip (s : string) : string :=
  match s with
  | EmptyString => ""
  | String c r =>
      let r' := rstrip r in
      if isspace c && is_empty r' then "" else String c r'
  end.

(** [s.strip()] *)
Definition strip (s : string) : string := rstrip (lstrip s).

(** [s.split(sep)] for a one-character separator. *)
Fixpoint split (sep : ascii) (s : string) : list string :=
  match s with
  | EmptyString => [""]
  | String c r =>
      if Ascii.eqb c sep then "" :: split sep r
      else match split sep r with
           | [] => [String c ""]
           | h :: t => String c h :: t
           end
  end.

(** The lines of a text, each with its line feed, as iterating over a text
    file gives them. *)
Fixpoint lines (s : string) : list string :=
  match s with
  | EmptyString => []
  | String c r =>
      if Ascii.eqb c LF then nl :: lines r
      else match lines r with
           | [] => [String c ""]
           | l :: ls => String c l :: ls
           end
  end.

(** Reading a file in text mode translates ['\r\n'] and ['\r'] to ['\n']. *)
Fixpoint universal_newlines (s : string) : string :=
  match s with
  | EmptyString => ""
  | String c r =>
      if Ascii.eqb c CR then
        match r with
        | String d r' =>
            if Ascii.eqb d LF then String LF (universal_newlines r')
            else String LF (universal_newlines r)
        | EmptyString => nl
        end
      else String c (universal_newlines r)
  end.

(** [needle in s] *)
Fixpoint contains (needle s : string) : bool :=
  startswith needle s ||
  match s with
  | EmptyString => false
  | String _ r => contains needle r
  end.

Fixpoint all_chars (f : ascii -> bool) (s : string) : bool :=
  match s with
  | EmptyString => true
  | String c r => f c && all_chars f r
  end.

Definition has_char (c : ascii) (s : string) : bool :=
  negb (all_chars (fun d => negb (Ascii.eqb d c)) s).

(** Values as [json.loads] produces them (numbers with a fraction are left
    out); a dict is an association list with distinct keys. *)
#[warnings="-register-all"]
Inductive value : Type :=
| JNull
| JBool (b : bool)
| JNum (n : Z)
| JStr (s : string)
| JList (l : list value)
| JDict (d : list (string * value)).

(** Truth value of an object, as [not x] and [if x] test it. *)
Definition truthy (v : value) : bool :=
  match v with
  | JNull => false
  | JBool b => b
  | JNum n => negb (n =? 0)%Z
  | JStr s => negb (is_empty s)
  | JList l => match l with [] => false | _ => true end
  | JDict d => match d with [] => false | _ => true end
  end.

Fixpoint lookup (k : string) (d : list (string * value)) : option value :=
  match d with
  | [] => None
  | (k', v) :: r => if String.eqb k k' then Some v else lookup k r
  end.

Definition hexdigit (n : Z) : ascii :=
  match String.get (Z.to_nat n) "0123456789abcdef" with
  | Some c => c
  | None => "0"%char
  end.

(** Two lower-case hexadecimal digits of a byte. *)
Definition hex2 (b : Z) : string :=
  String (hexdigit (b / 16 mod 16)) (String (hexdigit (b mod 16)) "").

Definition printable (n : nat) : bool :=
  ((32 <=? n)%nat && (n <=? 126)%nat)
  || ((161 <=? n)%nat && negb (n =? 173)%nat).

(** One character of [repr] of a string quoted with [quote]. *)
Definition repr_char (quote : ascii) (c : ascii) : string :=
  let n := nat_of_ascii c in
  if Ascii.eqb c quote || (n =? 92)%nat then backslash ++ String c ""
  else if (n =? 9)%nat then backslash ++ "t"
  else if (n =? 10)%nat then backslash ++ "n"
  else if (n =? 13)%nat then backslash ++ "r"
  else if printable n then String c ""
  else backslash ++ "x" ++ hex2 (Z.of_nat n).

Fixpoint repr_chars (quote : ascii) (s : string) : string :=
  match s with
  | EmptyString => ""
  | String c r => repr_char quote c ++ repr_chars quote r
  end.

(** [repr(s)] of a string: single quotes, unless the string has a single
    quote and no double quote. *)
Definition repr_str (s : string) : string :=
  let single := ascii_of_nat 39 in
  let double := ascii_of_nat 34 in
  let quote := if has_char single s && negb (has_char double s)
               then double else single in
  String quote (repr_chars quote s) ++ String quote "".

Definition str_of_Z (n : Z) : string := NilEmpty.string_of_int (Z.to_int n).

(** [repr(v)] *)
Fixpoint repr (v : value) : string :=
  match v with
  | JNull => "None"
  | JBool true => "True"
  | JBool false => "False"
  | JNum n => str_of_Z n
  | JStr s => repr_str s
  | JList l => "[" ++ join ", " (map repr l) ++ "]"
  | JDict d =>
      "{" ++ join ", "
        (map (fun kv => match kv with
                        | (k, x) => repr_str k ++ ": " ++ repr x
                        end) d) ++ "}"
  end.

(** [str(v)], which is what an f-string field [{v}] renders. *)
Definition str (v : value) : string :=
  match v with
  | JStr s => s
  | _ => repr v
  end.

(** [a == b] between an optional string ([None] or a [str]) and a value. *)
Definition eq_optstr (a : option string) (b : value) : bool :=
  match a, b with
  | Some s, JStr t => String.eqb s t
  | None, JNull => true
  | _, _ => false
  end.

End Py.

(* ================================================================== *)
(** ** hashlib.sha256 *)
(* ================================================================== *)

Module Sha256.

Local Open Scope list_scope.
Local Open Scope Z_scope.

(** 32-bit words are integers reduced modulo 2^32. *)
Definition w32 (x : Z) : Z := x mod 4294967296.

Definition add32 (x y : Z) : Z := w32 (x + y).

Definition rotr (n x : Z) : Z :=
  Z.lor (Z.shiftr x n) (w32 (Z.shiftl x (32 - n))).

Definition not32 (x : Z) : Z := 4294967295 - x.

Definition Ch (x y z : Z) : Z := Z.lxor (Z.land x y) (Z.land (not32 x) z).
Definition Maj (x y z : Z) : Z :=
  Z.lxor (Z.lxor (Z.land x y) (Z.land x z)) (Z.land y z).
Definition Sigma0 (x : Z) : Z :=
  Z.lxor (Z.lxor (rotr 2 x) (rotr 13 x)) (rotr 22 x).
Definition Sigma1 (x : Z) : Z :=
  Z.lxor (Z.lxor (rotr 6 x) (rotr 11 x)) (rotr 25 x).
Definition sigma0 (x : Z) : Z :=
  Z.lxor (Z.lxor (rotr 7 x) (rotr 18 x)) (Z.shiftr x 3).
Definition sigma1 (x : Z) : Z :=
  Z.lxor (Z.lxor (rotr 17 x) (rotr 19 x)) (Z.shiftr x 10).

(** The round constants: the first 32 bits of the fractional parts of the
    cube roots of the first 64 primes. *)
Definition K : list Z :=
  [
    1116352408; 1899447441; 3049323471; 3921009573;
    961987163; 1508970993; 2453635748; 2870763221;
    3624381080; 310598401; 607225278; 1426881987;
    1925078388; 2162078206; 2614888103; 3248222580;
    3835390401; 4022224774; 264347078; 604807628;
    770255983; 1249150122; 1555081692; 1996064986;
    2554220882; 2821834349; 2952996808; 3210313671;
    3336571891; 3584528711; 113926993; 338241895;
    666307205; 773529912; 1294757372; 1396182291;
    1695183700; 1986661051; 2177026350; 2456956037;
    2730485921; 2820302411; 3259730800; 3345764771;
    3516065817; 3600352804; 4094571909; 275423344;
    430227734; 506948616; 659060556; 883997877;
    958139571; 1322822218; 1537002063; 1747873779;
    1955562222; 2024104815; 2227730452; 2361852424;
    2428436474; 2756734187; 3204031479; 3329325298
  ].

(** The eight working words. *)
Record state : Type := mkState {
  ha : Z; hb : Z; hc : Z; hd : Z; he : Z; hf : Z; hg : Z; hh : Z
}.

Definition H0 : state :=
  mkState 1779033703 3144134277 1013904242 2773480762
          1359893119 2600822924 528734635 1541459225.

(** Padding: a 1 bit, zeros up to 56 modulo 64 bytes, and the bit length
    as a 64-bit big-endian integer. *)
Definition be_bytes (n : nat) (x : Z) : list Z :=
  map (fun i => (x / 2 ^ (8 * Z.of_nat i)) mod 256) (rev (seq 0 n)).

Definition pad (msg : list Z) : list Z :=
  let len := Z.of_nat (List.length msg) in
  let zeros := Z.to_nat ((55 - len) mod 64) in
  msg ++ [128] ++ repeat 0 zeros ++ be_bytes 8 (8 * len).

Fixpoint be_words (n : nat) (bs : list Z) : list Z :=
  match n with
  | O => []
  | S n' =>
      match bs with
      | b0 :: b1 :: b2 :: b3 :: r =>
          (b0 * 16777216 + b1 * 65536 + b2 * 256 + b3) :: be_words n' r
      | _ => []
      end
  end.

(** Message schedule, held newest word first. *)
Fixpoint extend (n : nat) (ws : list Z) : list Z :=
  match n with
  | O => ws
  | S n' =>
      let w := add32 (add32 (sigma1 (nth 1 ws 0)) (nth 6 ws 0))
                     (add32 (sigma0 (nth 14 ws 0)) (nth 15 ws 0)) in
      extend n' (w :: ws)
  end.

Definition schedule (block : list Z) : list Z :=
  rev (extend 48 (rev (be_words 16 block))).

Definition round (s : state) (kw : Z * Z) : state :=
  let (k, w) := kw in
  let t1 := add32 (add32 (add32 (hh s) (Sigma1 (he s)))
                         (add32 (Ch (he s) (hf s) (hg s)) k)) w in
  let t2 := add32 (Sigma0 (ha s)) (Maj (ha s) (hb s) (hc s)) in
  mkState (add32 t1 t2) (ha s) (hb s) (hc s)
          (add32 (hd s) t1) (he s) (hf s) (hg s).

Definition compress (s : state) (block : list Z) : state :=
  let r := fold_left round (combine K (schedule block)) s in
  mkState (add32 (ha s) (ha r)) (add32 (hb s) (hb r))
          (add32 (hc s) (hc r)) (add32 (hd s) (hd r))
          (add32 (he s) (he r)) (add32 (hf s) (hf r))
          (add32 (hg s) (hg r)) (add32 (hh s) (hh r)).

Fixpoint blocks (n : nat) (s : state) (bs : list Z) : state :=
  match n with
  | O => s
  | S n' => blocks n' (compress s (firstn 64 bs)) (skipn 64 bs)
  end.

Definition hash (msg : list Z) : state :=
  let p := pad msg in
  blocks (List.length p / 64) H0 p.

(** [digest()]: the 32 bytes of the eight words, big-endian. *)
Definition digest_bytes (s : state) : list Z :=
  flat_map (be_bytes 4)
    [ha s; hb s; hc s; hd s; he s; hf s; hg s; hh s].

(** A hash object holds the bytes fed to it so far. *)
Definition hasher : Type := list byte.

Definition new : hasher := [].

Definition update (h : hasher) (chunk : list byte) : hasher := h ++ chunk.

Definition digest (h : hasher) : list Z :=
  digest_bytes (hash (map (fun b => Z.of_N (Byte.to_N b)) h)).

(** [hexdigest()]: two lower-case hexadecimal digits per byte. *)
Definition hexdigest (h : hasher) : string :=
  String.concat "" (map Py.hex2 (digest h)).

End Sha256.

(* ================================================================== *)
(** ** Effects: a trace of external actions, and exceptions *)
(* ================================================================== *)

Module Effects.

Import Py.

Inductive exn : Type :=
| AttributeError
| KeyError
| TypeError
| RequestException
| CalledProcessError
| TimeoutExpired
| SystemExit (code : Z).

(** [except Exception] catches everything but [SystemExit]. *)
Definition is_Exception (e : exn) : bool :=
  match e with
  | SystemExit _ => false
  | _ => true
  end.

(** What the script does to the outside world. *)
Inductive event : Type :=
| HttpGet (url : string)
| Download (url : value)
| Git (argv : list string)
| MakeTempDir (dir : string)
| RemoveTempDir (dir : string)
| WriteFile (path content : string)
| SetupSsh (key_path : string)
| PrintHelp
| Print (text : string)
| Report (success : bool) (package_name message : string).

Inductive outcome (A : Type) : Type :=
| Ret (a : A)
| Raise (e : exn).

Arguments Ret {A} a.
Arguments Raise {A} e.

(** A computation: the actions it performed, in order, and how it ended. *)
Definition M (A : Type) : Type := (list event * outcome A)%type.

Definition ret {A} (a : A) : M A := ([], Ret a).

Definition raise {A} (e : exn) : M A := ([], Raise e).

Definition emit (ev : event) : M unit := ([ev], Ret tt).

Definition bind {A B} (c : M A) (k : A -> M B) : M B :=
  match c with
  | (t, Ret a) => let (t', o) := k a in ((t ++ t')%list, o)
  | (t, Raise e) => (t, Raise e)
  end.

(** [try: c except <those e with handles e>: handler] *)
Definition try_except {A} (c : M A) (handles : exn -> bool) (handler : M A)
  : M A :=
  match c with
  | (t, Raise e) =>
      if handles e then let (t', o) := handler in ((t ++ t')%list, o)
      else (t, Raise e)
  | _ => c
  end.

(** [try: c finally: ev] *)
Definition finally {A} (c : M A) (ev : event) : M A :=
  let (t, o) := c in ((t ++ [ev])%list, o).

Definition trace {A} (c : M A) : list event := fst c.
Definition result {A} (c : M A) : outcome A := snd c.

Declare Scope eff_scope.
Delimit Scope eff_scope with eff.

Notation "x <- c ;; k" := (bind c (fun x => k))
  (at level 61, c at next level, right associativity) : eff_scope.
Notation "c ;; k" := (bind c (fun _ => k))
  (at level 61, right associativity) : eff_scope.

End Effects.

(* ================================================================== *)
(** ** The updater *)
(* ================================================================== *)

Module Aur.

Import Py Effects.
Local Open Scope eff_scope.

(** Configuration for an AUR package *)
Record AURPackage : Type := mkAURPackage {
  name : string;
  slug : string;
  description : string;
  license : string;
  url : string;
  depends : list string;
  conflicts : list string;
  provides : list string
}.

Definition git_url (package : AURPackage) : string :=
  "ssh://aur@aur.archlinux.org/" ++ name package ++ ".git".

Definition klit_bin : AURPackage :=
  mkAURPackage "klit-bin" "klit"
    "The successor to BaoBao. A modern, privacy-focused client for the e621 community. Built with user experience and data protection as top priorities."
    "GPL3" "https://gitlab.com/Openlyst/klit"
    ["gtk3"] ["klit"] ["klit"].

Definition doudou_bin : AURPackage :=
  mkAURPackage "doudou-bin" "doudou"
    "Stream your music with ease and style. Source: https://gitlab.com/Openlyst/doudou"
    "GPL3" "https://gitlab.com/Openlyst/doudou"
    ["gtk3"; "libmpv.so"; "mpv"] ["doudou"] ["doudou"].

Definition finar_bin : AURPackage :=
  mkAURPackage "finar-bin" "finar"
    "A beautiful, modern multi-platform Jellyfin client built with Flutter. Source: https://gitlab.com/Openlyst/finar"
    "AGPL3" "https://gitlab.com/Openlyst/finar"
    ["gtk3"; "libmpv.so"; "mpv"] ["finar"] ["finar"].

(** Package configurations, in the order the dict lists them. *)
Definition AUR_PACKAGES : list (string * AURPackage) :=
  [ ("klit-bin", klit_bin); ("doudou-bin", doudou_bin);
    ("finar-bin", finar_bin) ].

Fixpoint find_package (package_name : string)
    (registry : list (string * AURPackage)) : option AURPackage :=
  match registry with
  | [] => None
  | (k, p) :: r =>
      if String.eqb package_name k then Some p else find_package package_name r
  end.

(** *** The outside world, as one call of [update_package] meets it *)

(** Each external call happens at most once per package, so its outcome is
    a field of the world. Creating the temporary directory and writing the
    two files into it are taken to succeed, and every git command is taken
    to start: git is installed and its working directory is there. *)

(** [session.get] followed by [raise_for_status] and [json()]: a
    [RequestException] (transport error, timeout, error status, body that
    is not JSON), or the decoded body. *)
Inductive http_reply : Type :=
| HttpFailed
| HttpBody (data : value).

(** The streamed download: a [RequestException], or the chunks
    [iter_content] yields. *)
Inductive download_reply : Type :=
| DownloadFailed
| DownloadChunks (chunks : list (list byte)).

Inductive file_state : Type :=
| Missing
| Unreadable
| Contents (text : string).

(** A git command run with a timeout. *)
Inductive run_reply : Type :=
| TimedOut
| Exit (returncode : Z).

Record world : Type := mkWorld {
  api_reply : http_reply;
  artifact : download_reply;
  tmp_dir : string;
  clone : run_reply;
  cloned_pkgbuild : file_state;
  config_email_ok : bool;
  config_name_ok : bool;
  add_ok : bool;
  status_stdout : string;
  commit_ok : bool;
  push : run_reply
}.

(** [session.get(url, timeout=30)], [raise_for_status()], [json()] *)
Definition session_get (w : world) (url : string) : M value :=
  emit (HttpGet url) ;;
  match api_reply w with
  | HttpFailed => raise RequestException
  | HttpBody data => ret data
  end.

(** [requests.get(url, timeout=120, stream=True)], [raise_for_status()],
    [iter_content(chunk_size=8192)] *)
Definition requests_get_stream (w : world) (url : value)
  : M (list (list byte)) :=
  emit (Download url) ;;
  match artifact w with
  | DownloadFailed => raise RequestException
  | DownloadChunks chunks => ret chunks
  end.

(** [subprocess.run(argv, check=True)] *)
Definition run_checked (ok : bool) (argv : list string) : M unit :=
  emit (Git argv) ;;
  if ok then ret tt else raise CalledProcessError.

(** [subprocess.run(argv, capture_output=True, text=True, timeout=60)]:
    the return code. *)
Definition run_timed (reply : run_reply) (argv : list string) : M Z :=
  emit (Git argv) ;;
  match reply with
  | TimedOut => raise TimeoutExpired
  | Exit returncode => ret returncode
  end.

(** *** OpenLystClient *)

Definition BASE_URL : string := "https://openlyst.ink/api/v1".

(** [obj.get(key, default)]: only a dict has the method. *)
Definition get (obj : value) (key : string) (default : value) : M value :=
  match obj with
  | JDict d =>
      match lookup key d with
      | Some v => ret v
      | None => ret default
      end
  | _ => raise AttributeError
  end.

(** Fetch the latest version of an app; [JNull] stands for [None]. *)
Definition get_latest_version (w : world) (slug : string) : M value :=
  try_except
    (let url := BASE_URL ++ "/apps/" ++ slug ++ "/latest" in
     data <- session_get w url ;;
     success <- get data "success" JNull ;;
     if truthy success then get data "data" JNull else ret JNull)
    (fun e => match e with RequestException => true | _ => false end)
    (ret JNull).

(** Extract the Linux x86_64 zip download URL from version data *)
Definition get_linux_zip_url (version_data : value) : M value :=
  try_except
    (downloads <- get version_data "downloads" (JDict []) ;;
     linux <- get downloads "Linux" (JDict []) ;;
     zip_data <- get linux "zip" (JDict []) ;;
     get zip_data "x86_64" (JStr ""))
    (fun e => match e with KeyError | TypeError => true | _ => false end)
    (ret JNull).

(** Download file and calculate SHA256 hash *)
Definition calculate_sha256 (w : world) (url : value) : M (option string) :=
  try_except
    (chunks <- requests_get_stream w url ;;
     let sha256_hash := fold_left Sha256.update chunks Sha256.new in
     let hash_value := Sha256.hexdigest sha256_hash in
     ret (Some hash_value))
    is_Exception
    (ret None).

(** *** Rendering *)

(** A template line is followed by a line feed. *)
Fixpoint unlines (ls : list string) : string :=
  match ls with
  | [] => ""
  | l :: r => l ++ nl ++ unlines r
  end.

Definition quoted_list (l : list string) : string :=
  join " " (map (fun dep => "'" ++ dep ++ "'") l).

(** Generate PKGBUILD content for an AUR package *)
Definition generate_pkgbuild (package : AURPackage)
    (version download_url sha256 : string) : string :=
  let app_name := replace "-bin" "" (name package) in
  let depends_str := quoted_list (depends package) in
  let conflicts_str := quoted_list (conflicts package) in
  let provides_str := quoted_list (provides package) in
  unlines [
    "# Maintainer: HttpAnimations <httpanimations@proton.me>";
    "# Auto-generated by OpenLyst AUR Updater";
    "";
    "pkgname=" ++ name package;
    "pkgver=" ++ version;
    "pkgrel=1";
    "pkgdesc=" ++ dq ++ description package ++ dq;
    "arch=('x86_64')";
    "url=" ++ dq ++ url package ++ dq;
    "license=('" ++ license package ++ "')";
    "depends=(" ++ depends_str ++ ")";
    "conflicts=(" ++ conflicts_str ++ ")";
    "provides=(" ++ provides_str ++ ")";
    "source=(" ++ dq ++ "${pkgname}-${pkgver}.zip::" ++ download_url ++ dq
      ++ ")";
    "sha256sums=('" ++ sha256 ++ "')";
    "options=('!strip')";
    "";
    "package() {";
    "    cd " ++ dq ++ "$srcdir" ++ dq;
    "    ";
    "    # Find the extracted directory (handles different naming patterns)";
    "    local extracted_dir";
    "    extracted_dir=$(find . -maxdepth 1 -type d -name " ++ dq
      ++ app_name ++ "*" ++ dq ++ " | head -1)";
    "    ";
    "    if [ -z " ++ dq ++ "$extracted_dir" ++ dq ++ " ]; then";
    "        # Fallback: try to find any directory that's not current/parent";
    "        extracted_dir=$(find . -maxdepth 1 -type d ! -name " ++ dq
      ++ "." ++ dq ++ " ! -name " ++ dq ++ ".." ++ dq ++ " | head -1)";
    "    fi";
    "    ";
    "    if [ -z " ++ dq ++ "$extracted_dir" ++ dq ++ " ]; then";
    "        echo " ++ dq ++ "Error: Could not find extracted directory"
      ++ dq;
    "        return 1";
    "    fi";
    "    ";
    "    # Install the application";
    "    install -dm755 " ++ dq ++ "$pkgdir/opt/" ++ app_name ++ dq;
    "    cp -r " ++ dq ++ "$extracted_dir" ++ dq ++ "/* " ++ dq
      ++ "$pkgdir/opt/" ++ app_name ++ "/" ++ dq;
    "    ";
    "    # Make the main executable";
    "    chmod +x " ++ dq ++ "$pkgdir/opt/" ++ app_name ++ "/" ++ app_name
      ++ dq;
    "    ";
    "    # Create symlink in /usr/bin";
    "    install -dm755 " ++ dq ++ "$pkgdir/usr/bin" ++ dq;
    "    ln -sf " ++ dq ++ "/opt/" ++ app_name ++ "/" ++ app_name ++ dq
      ++ " " ++ dq ++ "$pkgdir/usr/bin/" ++ app_name ++ dq;
    "    ";
    "    # Install desktop file if it exists";
    "    if [ -f " ++ dq ++ "$extracted_dir/" ++ app_name ++ ".desktop"
      ++ dq ++ " ]; then";
    "        install -Dm644 " ++ dq ++ "$extracted_dir/" ++ app_name
      ++ ".desktop" ++ dq ++ " " ++ dq ++ "$pkgdir/usr/share/applications/"
      ++ app_name ++ ".desktop" ++ dq;
    "    else";
    "        # Create a basic desktop file";
    "        install -dm755 " ++ dq ++ "$pkgdir/usr/share/applications" ++ dq;
    "        cat > " ++ dq ++ "$pkgdir/usr/share/applications/" ++ app_name
      ++ ".desktop" ++ dq ++ " << EOF";
    "[Desktop Entry]";
    "Type=Application";
    "Name=" ++ Py.capitalize app_name;
    "Comment=" ++ description package;
    "Exec=/opt/" ++ app_name ++ "/" ++ app_name;
    "Icon=" ++ app_name;
    "Terminal=false";
    "Categories=Utility;";
    "EOF";
    "    fi";
    "    ";
    "    # Install icon if it exists";
    "    if [ -f " ++ dq
      ++ "$extracted_dir/data/flutter_assets/assets/icons/icon.png" ++ dq
      ++ " ]; then";
    "        install -Dm644 " ++ dq
      ++ "$extracted_dir/data/flutter_assets/assets/icons/icon.png" ++ dq
      ++ "             " ++ dq
      ++ "$pkgdir/usr/share/icons/hicolor/256x256/apps/" ++ app_name
      ++ ".png" ++ dq;
    "    fi";
    "    ";
    "    # Install bundled libraries";
    "    if [ -d " ++ dq ++ "$extracted_dir/lib" ++ dq ++ " ]; then";
    "        install -dm755 " ++ dq ++ "$pkgdir/opt/" ++ app_name ++ "/lib"
      ++ dq;
    "        cp -r " ++ dq ++ "$extracted_dir/lib" ++ dq ++ "/* " ++ dq
      ++ "$pkgdir/opt/" ++ app_name ++ "/lib/" ++ dq;
    "    fi";
    "}"
  ].

(** The loop [for dep in l: srcinfo += f'\t<key> = {dep}\n']. *)
Definition add_entries (key : string) (l : list string) (srcinfo : string)
  : string :=
  fold_left (fun srcinfo dep => srcinfo ++ tab ++ key ++ " = " ++ dep ++ nl)
            l srcinfo.

(** Generate .SRCINFO content for an AUR package *)
Definition generate_srcinfo (package : AURPackage)
    (version download_url sha256 : string) : string :=
  let srcinfo := unlines [
    "pkgbase = " ++ name package;
    tab ++ "pkgdesc = " ++ description package;
    tab ++ "pkgver = " ++ version;
    tab ++ "pkgrel = 1";
    tab ++ "url = " ++ url package;
    tab ++ "arch = x86_64";
    tab ++ "license = " ++ license package
  ] in
  let srcinfo := add_entries "depends" (depends package) srcinfo in
  let srcinfo := add_entries "conflicts" (conflicts package) srcinfo in
  let srcinfo := add_entries "provides" (provides package) srcinfo in
  srcinfo ++ unlines [
    tab ++ "options = !strip";
    tab ++ "source = " ++ name package ++ "-" ++ version ++ ".zip::"
      ++ download_url;
    tab ++ "sha256sums = " ++ sha256;
    "";
    "pkgname = " ++ name package
  ].

(** *** Git *)

(** Clone the AUR repository for a package: the path of the clone, or
    [None]. *)
Definition clone_aur_repo (w : world) (package_name work_dir : string)
  : M (option string) :=
  try_except
    (let repo_path := work_dir ++ "/" ++ package_name in
     let git_url :=
       "ssh://aur@aur.archlinux.org/" ++ package_name ++ ".git" in
     returncode <- run_timed (clone w) ["git"; "clone"; git_url; repo_path] ;;
     if negb (returncode =? 0)%Z then ret None else ret (Some repo_path))
    is_Exception
    (ret None).

(** Configure git user for commits *)
Definition configure_git (w : world) (repo_path : string) : M bool :=
  try_except
    (run_checked (config_email_ok w)
       ["git"; "config"; "user.email"; "httpanimations@proton.me"] ;;
     run_checked (config_name_ok w)
       ["git"; "config"; "user.name"; "HttpAnimations"] ;;
     ret true)
    (fun e => match e with CalledProcessError => true | _ => false end)
    (ret false).

(** Commit changes and push to AUR *)
Definition commit_and_push (w : world) (repo_path version package_name : string)
  : M bool :=
  try_except
    (run_checked (add_ok w) ["git"; "add"; "-A"] ;;
     emit (Git ["git"; "status"; "--porcelain"]) ;;
     if is_empty (strip (status_stdout w)) then ret true else
     let commit_msg :=
       "Update " ++ package_name ++ " to version " ++ version in
     run_checked (commit_ok w) ["git"; "commit"; "-m"; commit_msg] ;;
     returncode <- run_timed (push w) ["git"; "push"; "origin"; "master"] ;;
     if negb (returncode =? 0)%Z then ret false else ret true)
    (fun e => match e with
              | CalledProcessError | TimeoutExpired => true
              | _ => false
              end)
    (ret false).

(** *** The published version *)

Fixpoint scan_pkgver (file_lines : list string) : option string :=
  match file_lines with
  | [] => None
  | line :: rest =>
      if startswith "pkgver=" line
      then nth_error (split "=" (strip line)) 1
      else scan_pkgver rest
  end.

(** Read current version from PKGBUILD: [None] when the file is missing,
    holds no version line, or cannot be read. *)
Definition get_current_aur_version (pkgbuild : file_state) : option string :=
  match pkgbuild with
  | Missing => None
  | Unreadable => None
  | Contents text => scan_pkgver (lines (universal_newlines text))
  end.

(** *** One package *)

(** Update a single AUR package *)
Definition update_package (w : world) (package_name : string)
    (dry_run force : bool) : M (bool * string) :=
  match find_package package_name AUR_PACKAGES with
  | None => ret (false, "Unknown package: " ++ package_name)
  | Some package =>
  version_data <- get_latest_version w (slug package) ;;
  if negb (truthy version_data) then
    ret (false, "Failed to fetch version data for " ++ slug package)
  else
  version <- get version_data "version" JNull ;;
  if negb (truthy version) then
    ret (false, "No version found in API response")
  else
  download_url <- get_linux_zip_url version_data ;;
  if negb (truthy download_url) then
    ret (false, "No Linux x86_64 zip download URL found for " ++ slug package)
  else
  sha256 <- calculate_sha256 w download_url ;;
  match sha256 with
  | None => ret (false, "Failed to calculate SHA256 hash")
  | Some sha256 =>
  if is_empty sha256 then ret (false, "Failed to calculate SHA256 hash") else
  if dry_run then
    emit (Print (generate_pkgbuild package (str version) (str download_url)
                   sha256)) ;;
    ret (true, "Dry run completed for " ++ package_name ++ " v" ++ str version)
  else
  emit (MakeTempDir (tmp_dir w)) ;;
  finally
    (repo_path <- clone_aur_repo w package_name (tmp_dir w) ;;
     match repo_path with
     | None => ret (false, "Failed to clone AUR repository")
     | Some repo_path =>
     let current_version := get_current_aur_version (cloned_pkgbuild w) in
     if eq_optstr current_version version && negb force then
       ret (true, package_name ++ " is already at version " ++ str version)
     else
     configured <- configure_git w repo_path ;;
     if negb configured then ret (false, "Failed to configure git") else
     emit (WriteFile (repo_path ++ "/PKGBUILD")
             (generate_pkgbuild package (str version) (str download_url)
                sha256)) ;;
     emit (WriteFile (repo_path ++ "/.SRCINFO")
             (generate_srcinfo package (str version) (str download_url)
                sha256)) ;;
     pushed <- commit_and_push w repo_path (str version) package_name ;;
     if negb pushed then ret (false, "Failed to push changes to AUR") else
     ret (true, "Successfully updated " ++ package_name ++ " to version "
                  ++ str version)
     end)
    (RemoveTempDir (tmp_dir w))
  end
  end.

(** *** The command line *)

Record args : Type := mkArgs {
  arg_package : option string;
  arg_all : bool;
  arg_dry_run : bool;
  arg_force : bool;
  arg_ssh_key : option string;
  arg_verbose : bool
}.

(** A whole run: whether [setup_ssh_key] succeeds, and the world each
    package meets, by its position in the run. *)
Record run_world : Type := mkRunWorld {
  ssh_setup_ok : bool;
  package_world : nat -> world
}.

Definition given (o : option string) : bool :=
  match o with
  | Some s => negb (is_empty s)
  | None => false
  end.

Definition published : Type := (string * bool * string)%type.

(** The loop over the requested packages; [i] is the position reached. *)
Fixpoint update_each (rw : run_world) (i : nat) (packages : list string)
    (dry_run force : bool) : M (list published) :=
  match packages with
  | [] => ret []
  | package_name :: rest =>
      r <- update_package (package_world rw i) package_name dry_run force ;;
      results <- update_each rw (S i) rest dry_run force ;;
      ret ((package_name, fst r, snd r) :: results)
  end.

Fixpoint repeat_str (s : string) (n : nat) : string :=
  match n with
  | O => ""
  | S n' => s ++ repeat_str s n'
  end.

Fixpoint report_each (results : list published) : M unit :=
  match results with
  | [] => ret tt
  | (package_name, success, message) :: rest =>
      emit (Report success package_name message) ;;
      report_each rest
  end.

Definition success_count (results : list published) : nat :=
  List.length (filter (fun r => snd (fst r)) results).

(** The summary and the exit decision. The check mark or cross of a
    result line is carried by the boolean of [Report]. *)
Definition summary (results : list published) : M unit :=
  emit (Print (nl ++ repeat_str "=" 60)) ;;
  emit (Print "SUMMARY") ;;
  emit (Print (repeat_str "=" 60)) ;;
  report_each results ;;
  emit (Print (nl ++ "Total: " ++ str_of_Z (Z.of_nat (success_count results))
               ++ "/" ++ str_of_Z (Z.of_nat (List.length results))
               ++ " packages updated successfully")) ;;
  if (success_count results <? List.length results)%nat
  then raise (SystemExit 1)
  else ret tt.

Definition main (rw : run_world) (a : args) : M unit :=
  (if given (arg_ssh_key a) then
     emit (SetupSsh (match arg_ssh_key a with Some p => p | None => "" end)) ;;
     if negb (ssh_setup_ok rw) then raise (SystemExit 1) else ret tt
   else ret tt) ;;
  packages <-
    (if arg_all a then ret (map fst AUR_PACKAGES)
     else if given (arg_package a) then
       ret (match arg_package a with Some p => [p] | None => [] end)
     else emit PrintHelp ;; raise (SystemExit 1)) ;;
  results <- update_each rw 0 packages (arg_dry_run a) (arg_force a) ;;
  summary results.

(** The status the process ends with: 0 on return, the code of
    [sys.exit], 1 after a traceback. *)
Definition exit_status (o : outcome unit) : Z :=
  match o with
  | Ret _ => 0
  | Raise (SystemExit code) => code
  | Raise _ => 1
  end.

End Aur.

(* ================================================================== *)
(** ** Vocabulary of the specification *)
(* ================================================================== *)

Module Spec.

Import Py Effects Aur.
Local Open Scope eff_scope.

(** *** Reading the rendered artifacts back *)

Definition not_char (c : ascii) (d : ascii) : bool := negb (Ascii.eqb d c).

(** No line feed. *)
Definition single_line (s : string) : bool := all_chars (not_char LF) s.

(** No line feed and no carriage return. *)
Definition no_line_break (s : string) : bool :=
  all_chars (fun d => not_char LF d && not_char CR d) s.

(** A line without its line feed. *)
Fixpoint chomp (s : string) : string :=
  match s with
  | EmptyString => ""
  | String c r =>
      if Ascii.eqb c LF && is_empty r then "" else String c (chomp r)
  end.

(** What follows [prefix] on the first line that starts with it. *)
Definition first_field (prefix text : string) : option string :=
  match find (startswith prefix) (lines text) with
  | Some line => Some (chomp (drop (String.length prefix) line))
  | None => None
  end.

(** What follows [prefix] on every line that starts with it. *)
Definition fields (prefix text : string) : list string :=
  map (fun line => chomp (drop (String.length prefix) line))
      (filter (startswith prefix) (lines text)).

(** The right-hand side of the recipe's first [key=] line. *)
Definition recipe_field (key recipe : string) : option string :=
  first_field (key ++ "=") recipe.

(** The values of the source-info's tab-indented [key = ] lines. *)
Definition srcinfo_fields (key srcinfo : string) : list string :=
  fields (tab ++ key ++ " = ") srcinfo.









(** Every field of a package specification is on one line. *)
Definition spec_single_line (package : AURPackage) : bool :=
  single_line (name package) && single_line (description package)
  && single_line (license package) && single_line (url package)
  && forallb single_line (depends package)
  && forallb single_line (conflicts package)
  && forallb single_line (provides package).

(** A tab-indented source-info line, without its line feed. *)
Definition entry (key dep : string) : string := tab ++ key ++ " = " ++ dep.

(** The source-info, line by line. *)
Definition srcinfo_lines (package : AURPackage)
    (version download_url sha256 : string) : list string :=
  List.app
    [ "pkgbase = " ++ name package;
      entry "pkgdesc" (description package);
      entry "pkgver" version;
      entry "pkgrel" "1";
      entry "url" (url package);
      entry "arch" "x86_64";
      entry "license" (license package) ]
  (List.app (map (entry "depends") (depends package))
  (List.app (map (entry "conflicts") (conflicts package))
  (List.app (map (entry "provides") (provides package))
    [ entry "options" "!strip";
      entry "source" (name package ++ "-" ++ version ++ ".zip::"
                        ++ download_url);
      entry "sha256sums" sha256;
      "";
      "pkgname = " ++ name package ]))).

(** The fields a line holds for [prefix]: what follows it, when the line
    starts with it. *)
Definition field_of (prefix line : string) : list string :=
  if startswith prefix (line ++ nl)
  then [chomp (drop (String.length prefix) (line ++ nl))]
  else [].

(** *** Traces *)

Definition is_commit_or_push (ev : event) : bool :=
  match ev with
  | Git ("git" :: "add" :: _) => true
  | Git ("git" :: "commit" :: _) => true
  | Git ("git" :: "push" :: _) => true
  | _ => false
  end.

Definition is_push (ev : event) : bool :=
  match ev with
  | Git ("git" :: "push" :: _) => true
  | _ => false
  end.

Definition count_pushes (t : list event) : nat :=
  List.length (filter is_push t).

Definition git_config_email : event :=
  Git ["git"; "config"; "user.email"; "httpanimations@proton.me"].

(** The packages a command line asks for, when it asks for any. *)
Definition requested (a : args) : option (list string) :=
  if arg_all a then Some (map fst AUR_PACKAGES)
  else match arg_package a with
       | Some p => if is_empty p then None else Some [p]
       | None => None
       end.

Definition succeeded (r : published) : bool := snd (fst r).

(** [update_package] gets as far as comparing versions: the package is
    registered, the release names a version and an artifact, the artifact
    was hashed, and the clone succeeded. *)
Definition reaches_comparison (w : world) (package_name : string)
    (version : value) : Prop :=
  exists package version_data download_url chunks,
    find_package package_name AUR_PACKAGES = Some package
    /\ result (get_latest_version w (slug package)) = Ret version_data
    /\ truthy version_data = true
    /\ result (get version_data "version" JNull) = Ret version
    /\ truthy version = true
    /\ result (get_linux_zip_url version_data) = Ret download_url
    /\ truthy download_url = true
    /\ artifact w = DownloadChunks chunks
    /\ clone w = Exit 0.

(** The version the published recipe declares: what follows [pkgver=] on
    the first such line of the cloned recipe, read as text; none when the
    recipe is missing, cannot be read, or has no such line. *)
Definition declared_version (pkgbuild : file_state) : option string :=
  match pkgbuild with
  | Contents text => recipe_field "pkgver" (universal_newlines text)
  | _ => None
  end.

(** A declared version with no equals sign and no trailing white space. *)
Definition plain_version (declared : option string) : bool :=
  match declared with
  | Some v => negb (has_char "=" v) && String.eqb (rstrip v) v
  | None => true
  end.

(** What a run has done when it reaches the comparison of versions. *)
Definition before_comparison (w : world) (package : AURPackage)
    (download_url : value) : list event :=
  [ HttpGet (BASE_URL ++ "/apps/" ++ slug package ++ "/latest");
    Download download_url;
    MakeTempDir (tmp_dir w);
    Git ["git"; "clone";
         "ssh://aur@aur.archlinux.org/" ++ name package ++ ".git";
         tmp_dir w ++ "/" ++ name package] ].

(** One of the keys on the way to the artifact URL is missing, and every
    level above the missing key is a dict. *)
Definition missing_on_path (version_data : list (string * value)) : Prop :=
  lookup "downloads" version_data = None
  \/ exists downloads, lookup "downloads" version_data = Some (JDict downloads)
     /\ (lookup "Linux" downloads = None
         \/ exists linux, lookup "Linux" downloads = Some (JDict linux)
            /\ (lookup "zip" linux = None
                \/ exists zip_data, lookup "zip" linux = Some (JDict zip_data)
                   /\ lookup "x86_64" zip_data = None)).

Definition is_lower_hex (c : ascii) : bool :=
  let n := nat_of_ascii c in
  ((48 <=? n)%nat && (n <=? 57)%nat) || ((97 <=? n)%nat && (n <=? 102)%nat).

(** *** Sample worlds *)

Definition release (version : string) (downloads : value) : value :=
  JDict [("success", JBool true);
         ("data", JDict [("version", JStr version); ("downloads", downloads)])].

Definition linux_zip (u : string) : value :=
  JDict [("Linux", JDict [("zip", JDict [("x86_64", JStr u)])])].

Definition abc : list byte := [x61; x62; x63].

(** The release at [version] downloads; the clone holds [pkgbuild]; git
    reports [status] and accepts every command. *)
Definition sample_world (version : string) (downloads : value)
    (pkgbuild : file_state) (status : string) : world :=
  mkWorld (HttpBody (release version downloads)) (DownloadChunks [abc])
          "/tmp/tmpq1w2e3" (Exit 0) pkgbuild true true true status true
          (Exit 0).

Definition api_down : world :=
  mkWorld HttpFailed DownloadFailed "/tmp/tmpq1w2e3" TimedOut Missing
          false false false "" false TimedOut.

Definition sample_url : string := "https://example/sample-2.3.0.zip".

Definition sample_digest : string :=
  "ba7816bf8f01cfea414140de5dae2223b00361a396177a9cb410ff61f20015ad".


Definition published_at (version : string) : file_state :=
  Contents ("pkgname=klit-bin" ++ nl ++ "pkgver=" ++ version ++ nl).

(** Already at the upstream version. *)
Definition world_current : world :=
  sample_world "2.3.0" (linux_zip sample_url) (published_at "2.3.0") "".

(** Behind the upstream version. *)
Definition world_stale : world :=
  sample_world "2.3.0" (linux_zip sample_url) (published_at "2.2.0")
               (" M PKGBUILD" ++ nl).

(** Published at a version with an equals sign in it, which is also the
    upstream version; writing the recipe again changes nothing. *)
Definition world_equals_sign : world :=
  sample_world "1.0=rc1" (linux_zip sample_url)
    (Contents (generate_pkgbuild klit_bin "1.0=rc1" sample_url sample_digest))
    "".

(** The release lists no Linux build. *)
Definition world_no_linux : world :=
  sample_world "2.3.0" (JDict [("Windows", JDict [])]) Missing "".

(** The release gives [null] for the Linux builds. *)
Definition world_null_linux : world :=
  sample_world "2.3.0" (JDict [("Linux", JNull)]) Missing "".

Definition all_args : args := mkArgs None true false false None false.

(** The first package is current, the API is down for the others. *)
Definition run_partial : run_world :=
  mkRunWorld true (fun i => match i with O => world_current | _ => api_down end).

(** The first package's release has [null] Linux builds; the others are
    current. *)
Definition run_null_first : run_world :=
  mkRunWorld true
    (fun i => match i with O => world_null_linux | _ => world_current end).

End Spec.

(* ================================================================== *)
(** ** The shapes of a run of [update_package] *)
(* ================================================================== *)

Module Runs.

Import Py Effects Aur Spec.

Definition latest_url (package : AURPackage) : string :=
  BASE_URL ++ "/apps/" ++ slug package ++ "/latest".

Definition clone_command (w : world) (package_name : string) : event :=
  Git ["git"; "clone";
       "ssh://aur@aur.archlinux.org/" ++ package_name ++ ".git";
       tmp_dir w ++ "/" ++ package_name].

Definition repo_of (w : world) (package_name : string) : string :=
  tmp_dir w ++ "/" ++ package_name.

(** The release data a run gets hold of: the version, the artifact URL. *)
Definition release_read (w : world) (package : AURPackage)
    (version download_url : value) : Prop :=
  exists version_data,
    result (get_latest_version w (slug package)) = Ret version_data
    /\ truthy version_data = true
    /\ result (get version_data "version" JNull) = Ret version
    /\ truthy version = true
    /\ result (get_linux_zip_url version_data) = Ret download_url
    /\ truthy download_url = true.

(** The release data cannot be read: the fetch or one of the look-ups
    raises, or a step finds nothing and the run reports [message]. *)
Inductive release_unread (w : world) (package : AURPackage)
  : outcome (bool * string) -> Prop :=
| FetchRaised :
    result (get_latest_version w (slug package)) = Raise AttributeError ->
    release_unread w package (Raise AttributeError)
| NoData version_data :
    result (get_latest_version w (slug package)) = Ret version_data ->
    truthy version_data = false ->
    release_unread w package
      (Ret (false, "Failed to fetch version data for " ++ slug package))
| VersionRaised version_data :
    result (get_latest_version w (slug package)) = Ret version_data ->
    truthy version_data = true ->
    result (get version_data "version" JNull) = Raise AttributeError ->
    release_unread w package (Raise AttributeError)
| NoVersion version_data version :
    result (get_latest_version w (slug package)) = Ret version_data ->
    truthy version_data = true ->
    result (get version_data "version" JNull) = Ret version ->
    truthy version = false ->
    release_unread w package (Ret (false, "No version found in API response"))
| UrlRaised version_data version :
    result (get_latest_version w (slug package)) = Ret version_data ->
    truthy version_data = true ->
    result (get version_data "version" JNull) = Ret version ->
    truthy version = true ->
    result (get_linux_zip_url version_data) = Raise AttributeError ->
    release_unread w package (Raise AttributeError)
| NoUrl version_data version download_url :
    result (get_latest_version w (slug package)) = Ret version_data ->
    truthy version_data = true ->
    result (get version_data "version" JNull) = Ret version ->
    truthy version = true ->
    result (get_linux_zip_url version_data) = Ret download_url ->
    truthy download_url = false ->
    release_unread w package
      (Ret (false,
            "No Linux x86_64 zip download URL found for " ++ slug package)).

(** Every way a call of [update_package] can go, with what it did and how
    it ended. *)
Inductive run_shape (w : world) (package_name : string)
    (dry_run force : bool) : M (bool * string) -> Prop :=
| Unknown :
    find_package package_name AUR_PACKAGES = None ->
    run_shape w package_name dry_run force
      ([], Ret (false, "Unknown package: " ++ package_name))
| Unread package o :
    find_package package_name AUR_PACKAGES = Some package ->
    release_unread w package o ->
    run_shape w package_name dry_run force ([HttpGet (latest_url package)], o)
| NoDigest package version download_url :
    find_package package_name AUR_PACKAGES = Some package ->
    release_read w package version download_url ->
    artifact w = DownloadFailed ->
    run_shape w package_name dry_run force
      ([HttpGet (latest_url package); Download download_url],
       Ret (false, "Failed to calculate SHA256 hash"))
| DryRun package version download_url chunks :
    find_package package_name AUR_PACKAGES = Some package ->
    release_read w package version download_url ->
    artifact w = DownloadChunks chunks ->
    dry_run = true ->
    run_shape w package_name dry_run force
      ([HttpGet (latest_url package); Download download_url;
        Print (generate_pkgbuild package (str version) (str download_url)
                 (Sha256.hexdigest (List.concat chunks)))],
       Ret (true, "Dry run completed for " ++ package_name ++ " v"
                    ++ str version))
| CloneFailed package version download_url chunks :
    find_package package_name AUR_PACKAGES = Some package ->
    release_read w package version download_url ->
    artifact w = DownloadChunks chunks ->
    dry_run = false ->
    clone w <> Exit 0 ->
    run_shape w package_name dry_run force
      ([HttpGet (latest_url package); Download download_url;
        MakeTempDir (tmp_dir w); clone_command w package_name;
        RemoveTempDir (tmp_dir w)],
       Ret (false, "Failed to clone AUR repository"))
| Current package version download_url chunks :
    find_package package_name AUR_PACKAGES = Some package ->
    release_read w package version download_url ->
    artifact w = DownloadChunks chunks ->
    dry_run = false ->
    clone w = Exit 0 ->
    eq_optstr (get_current_aur_version (cloned_pkgbuild w)) version = true ->
    force = false ->
    run_shape w package_name dry_run force
      ([HttpGet (latest_url package); Download download_url;
        MakeTempDir (tmp_dir w); clone_command w package_name;
        RemoveTempDir (tmp_dir w)],
       Ret (true, package_name ++ " is already at version " ++ str version))
| ConfigFailed package version download_url chunks t :
    find_package package_name AUR_PACKAGES = Some package ->
    release_read w package version download_url ->
    artifact w = DownloadChunks chunks ->
    dry_run = false ->
    clone w = Exit 0 ->
    eq_optstr (get_current_aur_version (cloned_pkgbuild w)) version
      && negb force = false ->
    configure_git w (repo_of w package_name) = (t, Ret false) ->
    run_shape w package_name dry_run force
      (List.app
         [HttpGet (latest_url package); Download download_url;
          MakeTempDir (tmp_dir w); clone_command w package_name]
         (List.app t [RemoveTempDir (tmp_dir w)]),
       Ret (false, "Failed to configure git"))
| Committed package version download_url chunks t pushed :
    find_package package_name AUR_PACKAGES = Some package ->
    release_read w package version download_url ->
    artifact w = DownloadChunks chunks ->
    dry_run = false ->
    clone w = Exit 0 ->
    eq_optstr (get_current_aur_version (cloned_pkgbuild w)) version
      && negb force = false ->
    config_email_ok w = true ->
    config_name_ok w = true ->
    commit_and_push w (repo_of w package_name) (str version) package_name
    = (t, Ret pushed) ->
    run_shape w package_name dry_run force
      (List.app
         [HttpGet (latest_url package); Download download_url;
          MakeTempDir (tmp_dir w); clone_command w package_name;
          Git ["git"; "config"; "user.email"; "httpanimations@proton.me"];
          Git ["git"; "config"; "user.name"; "HttpAnimations"];
          WriteFile (repo_of w package_name ++ "/PKGBUILD")
            (generate_pkgbuild package (str version) (str download_url)
               (Sha256.hexdigest (List.concat chunks)));
          WriteFile (repo_of w package_name ++ "/.SRCINFO")
            (generate_srcinfo package (str version) (str download_url)
               (Sha256.hexdigest (List.concat chunks)))]
         (List.app t [RemoveTempDir (tmp_dir w)]),
       Ret (if pushed
            then (true, "Successfully updated " ++ package_name
                          ++ " to version " ++ str version)
            else (false, "Failed to push changes to AUR"))).

(** Events that reach the network. *)
Definition is_network (ev : event) : bool :=
  match ev with
  | HttpGet _ | Download _ => true
  | Git ("git" :: "clone" :: _) => true
  | Git ("git" :: "push" :: _) => true
  | _ => false
  end.

(** Events that change something: a git command, a file written, a
    temporary directory made or removed. *)
Definition is_change (ev : event) : bool :=
  match ev with
  | Git _ | WriteFile _ _ | MakeTempDir _ | RemoveTempDir _ | SetupSsh _ =>
      true
  | _ => false
  end.

Definition is_git (ev : event) : bool :=
  match ev with
  | Git _ => true
  | _ => false
  end.

Definition is_write (ev : event) : bool :=
  match ev with
  | WriteFile _ _ => true
  | _ => false
  end.

Definition is_add (ev : event) : bool :=
  match ev with
  | Git ("git" :: "add" :: _) => true
  | _ => false
  end.

(** The working tree shows no change after staging. *)
Definition no_diff (w : world) : bool := is_empty (strip (status_stdout w)).

(** A world whose clone holds the recipe the updater renders for the release
    it serves, which lists no change once the files are written again. *)
Definition republish_world (version : string) : world :=
  sample_world version (linux_zip sample_url)
    (Contents (generate_pkgbuild klit_bin version sample_url sample_digest))
    "".

Definition is_dict (v : value) : bool :=
  match v with
  | JDict _ => true
  | _ => false
  end.

(** A level on the way to the artifact URL is present and is not a dict;
    the levels above it are dicts. *)
Definition broken_on_path (version_data : list (string * value)) : Prop :=
  exists downloads, lookup "downloads" version_data = Some downloads
  /\ (is_dict downloads = false
      \/ exists d, downloads = JDict d
         /\ exists linux, lookup "Linux" d = Some linux
            /\ (is_dict linux = false
                \/ exists l, linux = JDict l
                   /\ exists zip_data, lookup "zip" l = Some zip_data
                      /\ is_dict zip_data = false)).

Definition push_command : event := Git ["git"; "push"; "origin"; "master"].

Definition add_command : event := Git ["git"; "add"; "-A"].

(** The release has [null] in place of its downloads. *)
Definition world_null_downloads : world :=
  sample_world "2.3.0" JNull Missing "".

(** The push is rejected. *)
Definition world_push_rejected : world :=
  mkWorld (HttpBody (release "2.3.0" (linux_zip sample_url)))
          (DownloadChunks [abc]) "/tmp/tmpq1w2e3" (Exit 0)
          (published_at "2.2.0") true true true (" M PKGBUILD" ++ nl) true
          (Exit 1).

(** The artifact cannot be downloaded. *)
Definition world_no_artifact : world :=
  mkWorld (HttpBody (release "2.3.0" (linux_zip sample_url)))
          DownloadFailed "/tmp/tmpq1w2e3" (Exit 0)
          (published_at "2.2.0") true true true (" M PKGBUILD" ++ nl) true
          (Exit 0).

Definition no_args : args := mkArgs None false false false None false.

End Runs.

(* ================================================================== *)
(** ** setup_ssh_key, over a file system *)
(* ================================================================== *)

Module Ssh.

Import Py.

(** What a path names. Permission and decoding errors are left out: a
    file that is there can be read and written. Paths that differ as
    strings name different files. The mode of a directory is not kept. *)
Inductive node : Type :=
| Absent
| Dir
| File (content : string) (mode : Z).

Definition fs : Type := string -> node.

Definition put (f : fs) (path : string) (n : node) : fs :=
  fun q => if String.eqb q path then n else f q.

Inductive os_error : Type :=
| FileNotFoundError
| FileExistsError
| IsADirectoryError
| NotADirectoryError.

Inductive io_result (A : Type) : Type :=
| Done (a : A)
| Failed (e : os_error).

Arguments Done {A} a.
Arguments Failed {A} e.

(** A computation on the file system; what it wrote stays written when
    it fails. *)
Definition IO (A : Type) : Type := fs -> fs * io_result A.

Definition io_ret {A} (a : A) : IO A := fun f => (f, Done a).

Definition io_bind {A B} (c : IO A) (k : A -> IO B) : IO B :=
  fun f =>
    match c f with
    | (f', Done a) => k a f'
    | (f', Failed e) => (f', Failed e)
    end.

Declare Scope io_scope.
Delimit Scope io_scope with io.

Notation "x <- c ;; k" := (io_bind c (fun x => k))
  (at level 61, c at next level, right associativity) : io_scope.
Notation "c ;; k" := (io_bind c (fun _ => k))
  (at level 61, right associativity) : io_scope.

Local Open Scope io_scope.

(** [path.mkdir(mode=..., exist_ok=True)], without [parents]. *)
Definition mkdir_exist_ok (parent path : string) : IO unit :=
  fun f =>
    match f path with
    | Dir => (f, Done tt)
    | File _ _ => (f, Failed FileExistsError)
    | Absent =>
        match f parent with
        | Dir => (put f path Dir, Done tt)
        | Absent => (f, Failed FileNotFoundError)
        | File _ _ => (f, Failed NotADirectoryError)
        end
    end.

(** [Path(path).exists()] *)
Definition exists_ (path : string) : IO bool :=
  fun f =>
    (f, Done match f path with Absent => false | _ => true end).

(** [open(path, 'r').read()], in text mode. *)
Definition read_text (path : string) : IO string :=
  fun f =>
    match f path with
    | File content _ => (f, Done (universal_newlines content))
    | Dir => (f, Failed IsADirectoryError)
    | Absent => (f, Failed FileNotFoundError)
    end.

(** [open(path, 'w').write(content)]; a new file gets [create_mode], the
    mode the process creates files with. *)
Definition write_text (create_mode : Z) (path content : string) : IO unit :=
  fun f =>
    match f path with
    | File _ mode => (put f path (File content mode), Done tt)
    | Absent => (put f path (File content create_mode), Done tt)
    | Dir => (f, Failed IsADirectoryError)
    end.

(** [open(path, 'a').write(content)] *)
Definition append_text (create_mode : Z) (path content : string) : IO unit :=
  fun f =>
    match f path with
    | File old mode => (put f path (File (old ++ content) mode), Done tt)
    | Absent => (put f path (File content create_mode), Done tt)
    | Dir => (f, Failed IsADirectoryError)
    end.

(** [os.chmod(path, mode)] *)
Definition chmod (path : string) (mode : Z) : IO unit :=
  fun f =>
    match f path with
    | File content _ => (put f path (File content mode), Done tt)
    | Dir => (f, Done tt)
    | Absent => (f, Failed FileNotFoundError)
    end.

Definition ssh_dir (home : string) : string := home ++ "/.ssh".
Definition key_dest (home : string) : string := ssh_dir home ++ "/aur_ed25519".
Definition config_path (home : string) : string := ssh_dir home ++ "/config".

Definition aur_config : string :=
  nl ++ "Host aur.archlinux.org" ++ nl
  ++ "    IdentityFile ~/.ssh/aur_ed25519" ++ nl
  ++ "    User aur" ++ nl
  ++ "    StrictHostKeyChecking accept-new" ++ nl.

Definition given_path (o : option string) : bool :=
  match o with
  | Some s => negb (is_empty s)
  | None => false
  end.

Definition setup_ssh_key_body (home : string) (create_mode : Z)
    (ssh_key_path : option string) : IO bool :=
  mkdir_exist_ok home (ssh_dir home) ;;
  copied <-
    (if given_path ssh_key_path then
       let path := match ssh_key_path with Some p => p | None => "" end in
       found <- exists_ path ;;
       if found then
         content <- read_text path ;;
         write_text create_mode (key_dest home) content ;;
         chmod (key_dest home) 384 ;;
         io_ret true
       else io_ret false
     else io_ret true) ;;
  if negb copied then io_ret false else
  found <- exists_ (config_path home) ;;
  (if found then
     existing_config <- read_text (config_path home) ;;
     if negb (contains "aur.archlinux.org" existing_config)
     then append_text create_mode (config_path home) aur_config
     else io_ret tt
   else
     write_text create_mode (config_path home) aur_config ;;
     chmod (config_path home) 384) ;;
  io_ret true.

(** Setup SSH key for AUR authentication: the file system it leaves, and
    [False] when a step raised. *)
Definition setup_ssh_key (home : string) (create_mode : Z)
    (ssh_key_path : option string) (f : fs) : fs * bool :=
  match setup_ssh_key_body home create_mode ssh_key_path f with
  | (f', Done b) => (f', b)
  | (f', Failed _) => (f', false)
  end.

(** The set-up is in place: the directory is there, the key (when one is
    given) has been copied with mode 0o600, and the configuration file, as
    it is read, names the AUR host. *)
Definition configured (home : string) (ssh_key_path : option string) (f : fs)
  : Prop :=
  f (ssh_dir home) = Dir
  /\ (forall path, ssh_key_path = Some path -> is_empty path = false ->
      exists content mode,
        f path = File content mode
        /\ f (key_dest home) = File (universal_newlines content) 384)
  /\ exists config mode,
       f (config_path home) = File config mode
       /\ contains "aur.archlinux.org" (universal_newlines config) = true.

(** A home directory with a key file in it and no [.ssh] yet. *)
Definition fresh_home : fs :=
  fun q =>
    if String.eqb q "/home/u" then Dir
    else if String.eqb q "/home/u/key" then File ("KEY" ++ cr ++ nl) 420
    else Absent.

(** The same home after a first set-up with that key. *)
Definition configured_home : fs :=
  fst (setup_ssh_key "/home/u" 420 (Some "/home/u/key") fresh_home).

End Ssh.

(* ================================================================== *)
(** ** The Winget generator (build_winget_source.py), in part *)
(* ================================================================== *)

Module Winget.

Import Py Effects Aur.
Local Open Scope eff_scope.

(** [key in obj] for a string key: a key of a dict, a substring of a
    string, an element of a list; other values are not iterable. *)
Definition py_in (key : string) (obj : value) : M bool :=
  match obj with
  | JDict d => ret match lookup key d with Some _ => true | None => false end
  | JStr s => ret (contains key s)
  | JList l =>
      ret (existsb (fun x => match x with
                             | JStr s => String.eqb s key
                             | _ => false
                             end) l)
  | _ => raise TypeError
  end.

(** [obj[key]] for a string key. *)
Definition getitem (obj : value) (key : string) : M value :=
  match obj with
  | JDict d =>
      match lookup key d with
      | Some v => ret v
      | None => raise KeyError
      end
  | _ => raise TypeError
  end.

(** The inner loop: the first architecture whose entry is there and true. *)
Fixpoint first_arch (archs : list string) (pkg_data : list (string * value))
  : option value :=
  match archs with
  | [] => None
  | arch :: rest =>
      match lookup arch pkg_data with
      | Some v => if truthy v then Some v else first_arch rest pkg_data
      | None => first_arch rest pkg_data
      end
  end.

(** The outer loop over the package types, in priority order. *)
Fixpoint first_package (package_types : list string)
    (windows_downloads : value) : M value :=
  match package_types with
  | [] => ret JNull
  | package_type :: rest =>
      present <- py_in package_type windows_downloads ;;
      if present then
        pkg_data <- getitem windows_downloads package_type ;;
        match pkg_data with
        | JDict d =>
            match first_arch ["x86_64"; "arm64"] d with
            | Some u => ret u
            | None => first_package rest windows_downloads
            end
        | JStr s =>
            if startswith "http" s then ret pkg_data
            else first_package rest windows_downloads
        | _ => first_package rest windows_downloads
        end
      else first_package rest windows_downloads
  end.

(** Extract Windows download URL from version data; [JNull] stands for
    [None]. *)
Definition get_windows_download_url (version : value) : M value :=
  downloads <- get version "downloads" (JDict []) ;;
  windows_downloads <- get downloads "Windows" (JDict []) ;;
  if negb (truthy windows_downloads) then ret JNull
  else first_package ["exe"; "msi"; "msix"; "zip"] windows_downloads.

(** [requests.get(url, timeout=60)], [raise_for_status()], [.content] *)
Definition requests_get_content (reply : option (list byte)) (url : string)
  : M (list byte) :=
  emit (Download (JStr url)) ;;
  match reply with
  | Some content => ret content
  | None => raise RequestException
  end.

(** Calculate SHA256 hash of download file *)
Definition get_file_sha256 (reply : option (list byte)) (url : string)
  : M (option string) :=
  try_except
    (content <- requests_get_content reply url ;;
     let sha256_hash :=
       upper (Sha256.hexdigest (Sha256.update Sha256.new content)) in
     ret (Some sha256_hash))
    is_Exception
    (ret None).

Definition is_upper_hex (c : ascii) : bool :=
  let n := nat_of_ascii c in
  ((48 <=? n)%nat && (n <=? 57)%nat) || ((65 <=? n)%nat && (n <=? 70)%nat).

(** A release whose installer is listed for both exe and msi. *)
Definition both_installers : value :=
  JDict [("downloads",
          JDict [("Windows",
                  JDict [("msi", JDict [("x86_64", JStr "https://e/a.msi")]);
                         ("exe", JDict [("x86_64", JStr "");
                                        ("arm64", JStr "https://e/a.exe")])])])].

(** A lookup that fetched nothing and came back with [None], with a value
    that counts as true, or with a [TypeError]. *)
Definition settled (run : M value) : Prop :=
  trace run = []
  /\ match result run with
     | Ret v => v = JNull \/ truthy v = true
     | Raise e => e = TypeError
     end.

End Winget.

(* ================================================================== *)
(** ** The AltStore builder (build_altstore_repo.py), in part *)
(* ================================================================== *)

Module AltStore.

Import Py.

(** [s.lower()] for code points below 256. *)
Definition lower_latin1 (c : ascii) : ascii :=
  let n := nat_of_ascii c in
  if ((65 <=? n)%nat && (n <=? 90)%nat)
     || ((192 <=? n)%nat && (n <=? 222)%nat && negb (n =? 215)%nat)
  then ascii_of_nat (n + 32) else c.

Definition lower (s : string) : string := map_chars lower_latin1 s.

Definition valid_categories : list string :=
  ["developer"; "entertainment"; "games"; "lifestyle";
   "other"; "photo-video"; "social"; "utilities"].

(** Map category to valid AltStore category *)
Definition _map_category (category : value) : string :=
  let category := replace " " "-" (lower (str category)) in
  if existsb (String.eqb category) valid_categories then category
  else "other".

(** The loop of [_process_screenshots] over a list. *)
Fixpoint collect_screenshots (screenshots : list value) : list value :=
  match screenshots with
  | [] => []
  | shot :: rest =>
      match shot with
      | JStr _ => shot :: collect_screenshots rest
      | JDict d =>
          match lookup "imageURL" d with
          | Some v => v :: collect_screenshots rest
          | None => collect_screenshots rest
          end
      | _ => collect_screenshots rest
      end
  end.

(** Process screenshots array, handling both simple URLs and complex
    objects *)
Definition _process_screenshots (screenshots : value) : list value :=
  match screenshots with
  | JList l => firstn 10 (collect_screenshots l)
  | _ => []
  end.

(** The screenshot [x] is what the element [shot] contributes. *)
Definition shown_by (x shot : value) : Prop :=
  match shot with
  | JStr _ => x = shot
  | JDict d => lookup "imageURL" d = Some x
  | _ => False
  end.

End AltStore.

(* ================================================================== *)
(** ** Theorems *)
(* ================================================================== *)

Import Py Effects Aur Spec.
Local Open Scope eff_scope.

(** *** Strings *)

Lemma sapp_assoc (a b c : string) : (a ++ b) ++ c = a ++ (b ++ c).
Proof. induction a as [| x a IH]; simpl; [reflexivity | now rewrite IH]. Qed.

Lemma sapp_nil_r (a : string) : a ++ "" = a.
Proof. induction a as [| x a IH]; simpl; [reflexivity | now rewrite IH]. Qed.

Lemma sapp_length (a b : string) :
  String.length (a ++ b) = String.length a + String.length b.
Proof. induction a as [| x a IH]; simpl; [reflexivity | now rewrite IH]. Qed.

Lemma all_chars_app (f : ascii -> bool) (a b : string) :
  all_chars f (a ++ b) = all_chars f a && all_chars f b.
Proof.
  induction a as [| c a IH]; simpl.
  - reflexivity.
  - rewrite IH. apply andb_assoc.
Qed.

Lemma startswith_app (p x : string) : startswith p (p ++ x) = true.
Proof.
  induction p as [| c p IH]; simpl; [reflexivity |].
  now rewrite Ascii.eqb_refl, IH.
Qed.

Lemma drop_app (p x : string) : drop (String.length p) (p ++ x) = x.
Proof. induction p as [| c p IH]; simpl; [reflexivity | exact IH]. Qed.

Lemma chomp_app_nl (a : string) : chomp (a ++ nl) = a.
Proof.
  induction a as [| c a IH]; [reflexivity |].
  change (chomp (String c (a ++ nl)) = String c a). simpl chomp.
  rewrite IH.
  destruct (a ++ nl) eqn:E.
  - destruct a; discriminate E.
  - simpl is_empty. rewrite andb_false_r. reflexivity.
Qed.

(** A text that starts with a whole line splits after that line. *)
Lemma lines_app_nl (a rest : string) :
  single_line a = true -> lines (a ++ nl ++ rest) = (a ++ nl) :: lines rest.
Proof.
  induction a as [| c a IH]; intros H.
  - reflexivity.
  - simpl in H. apply andb_prop in H as [Hc Ha].
    unfold not_char in Hc. apply negb_true_iff in Hc.
    change (lines (String c a ++ nl ++ rest))
      with (if Ascii.eqb c LF then nl :: lines (a ++ nl ++ rest)
            else match lines (a ++ nl ++ rest) with
                 | [] => [String c ""]
                 | l :: ls => String c l :: ls
                 end).
    rewrite (IH Ha), Hc. reflexivity.
Qed.

(** *** The monad *)

Lemma bind_ret_l {A B} (a : A) (k : A -> M B) : bind (ret a) k = k a.
Proof. unfold bind, ret. destruct (k a) as [t o]. reflexivity. Qed.

Lemma result_bind {A B} (c : M A) (k : A -> M B) a :
  result c = Ret a -> result (bind c k) = result (k a).
Proof.
  destruct c as [t o]. simpl. intros ->. simpl.
  destruct (k a) as [t' o']. reflexivity.
Qed.

Lemma run_eta {A} (c : M A) : c = (trace c, result c).
Proof. destruct c. reflexivity. Qed.

Lemma get_dict (d : list (string * value)) (key : string) (default : value) :
  get (JDict d) key default
  = ret (match lookup key d with Some v => v | None => default end).
Proof. unfold get. destruct (lookup key d); reflexivity. Qed.

(** *** The registry *)

Lemma find_package_unknown (package_name : string) :
  ~ In package_name (map fst AUR_PACKAGES) ->
  find_package package_name AUR_PACKAGES = None.
Proof.
  intros H. unfold AUR_PACKAGES. simpl.
  destruct (String.eqb_spec package_name "klit-bin") as [-> | _].
  { exfalso. apply H. simpl. auto. }
  destruct (String.eqb_spec package_name "doudou-bin") as [-> | _].
  { exfalso. apply H. simpl. auto. }
  destruct (String.eqb_spec package_name "finar-bin") as [-> | _].
  { exfalso. apply H. simpl. auto. }
  reflexivity.
Qed.

Lemma find_package_name (package_name : string) (package : AURPackage) :
  find_package package_name AUR_PACKAGES = Some package ->
  name package = package_name /\ In package_name (map fst AUR_PACKAGES).
Proof.
  unfold AUR_PACKAGES. simpl.
  destruct (String.eqb_spec package_name "klit-bin") as [-> | _].
  { intros [= <-]. simpl. auto. }
  destruct (String.eqb_spec package_name "doudou-bin") as [-> | _].
  { intros [= <-]. simpl. auto. }
  destruct (String.eqb_spec package_name "finar-bin") as [-> | _].
  { intros [= <-]. simpl. auto. }
  discriminate.
Qed.

(** C10. A package name that is not in the registry yields the failure
    "Unknown package: <name>", and the call performs no external action at
    all: no release fetch, no download, no clone, no push. *)
Theorem unknown_package_fails_offline
    (w : world) (package_name : string) (dry_run force : bool) :
  ~ In package_name (map fst AUR_PACKAGES) ->
  update_package w package_name dry_run force
  = ([], Ret (false, "Unknown package: " ++ package_name)).
Proof.
  intros H. unfold update_package.
  rewrite (find_package_unknown _ H). reflexivity.
Qed.

Lemma unknown_package_fails_offline_witness :
  update_package api_down "sample-bin" false false
  = ([], Ret (false, "Unknown package: sample-bin")).
Proof.
  apply (unknown_package_fails_offline api_down "sample-bin" false false).
  simpl. intros [H | [H | [H | []]]]; discriminate H.
Defined.

(** *** The artifact URL *)

Lemma get_linux_zip_url_missing (version_data : list (string * value)) :
  missing_on_path version_data ->
  get_linux_zip_url (JDict version_data) = ([], Ret (JStr "")).
Proof.
  unfold get_linux_zip_url, get.
  intros [H | (downloads & H & [H1 | (linux & H1 & [H2 | (zd & H2 & H3)])])];
    rewrite H; simpl; try reflexivity;
    rewrite H1; simpl; try reflexivity;
    rewrite H2; simpl; try reflexivity;
    rewrite H3; reflexivity.
Qed.

(** X22. When a key on the way to the Linux x86_64 zip URL is missing
    (downloads, Linux, zip or x86_64) and every level above it is a dict,
    the extraction raises nothing and returns the empty string, which the
    caller reads as no URL; the package then ends with the failure "No
    Linux x86_64 zip download URL found for <slug>", returned and not
    raised. *)
Theorem missing_artifact_key_is_tolerated
    (w : world) (package_name : string) (package : AURPackage)
    (dry_run force : bool) (version_data : list (string * value))
    (version : value) :
  find_package package_name AUR_PACKAGES = Some package ->
  result (get_latest_version w (slug package)) = Ret (JDict version_data) ->
  lookup "version" version_data = Some version ->
  truthy version = true ->
  missing_on_path version_data ->
  get_linux_zip_url (JDict version_data) = ([], Ret (JStr ""))
  /\ truthy (JStr "") = false
  /\ result (update_package w package_name dry_run force)
     = Ret (false,
            "No Linux x86_64 zip download URL found for " ++ slug package).
Proof.
  intros Hfind Hfetch Hver Htrue Hmiss.
  pose proof (get_linux_zip_url_missing _ Hmiss) as Hurl.
  split; [exact Hurl | split; [reflexivity |]].
  unfold update_package. rewrite Hfind.
  rewrite (result_bind _ _ _ Hfetch).
  assert (Hne : truthy (JDict version_data) = true).
  { destruct version_data; [discriminate Hver | reflexivity]. }
  rewrite Hne. simpl negb. cbv iota.
  rewrite get_dict, Hver, bind_ret_l.
  rewrite Htrue. simpl negb. cbv iota.
  rewrite Hurl. change ([], Ret (JStr "")) with (@ret value (JStr "")).
  rewrite bind_ret_l. reflexivity.
Qed.

Lemma missing_artifact_key_is_tolerated_witness :
  get_linux_zip_url
    (JDict [("version", JStr "2.3.0");
            ("downloads", JDict [("Windows", JDict [])])])
  = ([], Ret (JStr ""))
  /\ truthy (JStr "") = false
  /\ result (update_package world_no_linux "klit-bin" false false)
     = Ret (false, "No Linux x86_64 zip download URL found for klit").
Proof.
  apply (missing_artifact_key_is_tolerated world_no_linux "klit-bin" klit_bin
           false false
           [("version", JStr "2.3.0");
            ("downloads", JDict [("Windows", JDict [])])]
           (JStr "2.3.0")).
  - reflexivity.
  - reflexivity.
  - reflexivity.
  - reflexivity.
  - right. exists [("Windows", JDict [])]. split; [reflexivity |].
    left. reflexivity.
Defined.

(** C9, at the input where the code departs from it. The release gives
    [null] for its Linux builds, so the zip entry under it is missing.
    The extraction calls [.get] on [None]: that raises [AttributeError],
    which the [except (KeyError, TypeError)] of the extraction does not
    name, and nothing catches it: the package has no outcome, the fault is
    raised out of [update_package]. With the Linux key left out instead,
    the same package ends with the failure the claim names. *)
Theorem null_linux_entry_is_not_tolerated :
  get_linux_zip_url
    (JDict [("version", JStr "2.3.0");
            ("downloads", JDict [("Linux", JNull)])])
  = ([], Raise AttributeError)
  /\ update_package world_null_linux "klit-bin" false false
     = ([HttpGet "https://openlyst.ink/api/v1/apps/klit/latest"],
        Raise AttributeError)
  /\ update_package world_no_linux "klit-bin" false false
     = ([HttpGet "https://openlyst.ink/api/v1/apps/klit/latest"],
        Ret (false, "No Linux x86_64 zip download URL found for klit")).
Proof. repeat split; vm_compute; reflexivity. Qed.

(** *** The digest *)

Lemma concat_hex2_length (bs : list Z) :
  String.length (String.concat "" (map hex2 bs)) = 2 * List.length bs.
Proof.
  induction bs as [| b [| b' r] IH].
  - reflexivity.
  - reflexivity.
  - change (String.length
              (hex2 b ++ "" ++ String.concat "" (map hex2 (b' :: r)))
            = 2 * S (List.length (b' :: r))).
    rewrite !sapp_length, IH. simpl. lia.
Qed.

Lemma hexdigit_lower (x : Z) : is_lower_hex (hexdigit (x mod 16)) = true.
Proof.
  pose proof (Z.mod_pos_bound x 16 ltac:(lia)) as B.
  assert (E : exists n, (n < 16)%nat /\ (x mod 16)%Z = Z.of_nat n).
  { exists (Z.to_nat (x mod 16)). split; lia. }
  destruct E as (n & Hn & ->).
  do 16 (destruct n as [| n]; [reflexivity |]). lia.
Qed.

Lemma hex2_lower (b : Z) : all_chars is_lower_hex (hex2 b) = true.
Proof.
  unfold hex2. simpl all_chars. now rewrite !hexdigit_lower.
Qed.

Lemma concat_hex2_lower (bs : list Z) :
  all_chars is_lower_hex (String.concat "" (map hex2 bs)) = true.
Proof.
  induction bs as [| b [| b' r] IH].
  - reflexivity.
  - apply hex2_lower.
  - change (all_chars is_lower_hex
              (hex2 b ++ "" ++ String.concat "" (map hex2 (b' :: r))) = true).
    now rewrite !all_chars_app, IH, hex2_lower.
Qed.

Lemma digest_length (h : Sha256.hasher) : List.length (Sha256.digest h) = 32.
Proof. reflexivity. Qed.

Lemma hexdigest_length (h : Sha256.hasher) :
  String.length (Sha256.hexdigest h) = 64.
Proof.
  unfold Sha256.hexdigest. rewrite concat_hex2_length, digest_length.
  reflexivity.
Qed.

Lemma hexdigest_not_empty (h : Sha256.hasher) :
  is_empty (Sha256.hexdigest h) = false.
Proof.
  pose proof (hexdigest_length h) as L.
  destruct (Sha256.hexdigest h); [discriminate L | reflexivity].
Qed.

Lemma fold_update (chunks : list (list byte)) (h : Sha256.hasher) :
  fold_left Sha256.update chunks h = (h ++ List.concat chunks)%list.
Proof.
  revert h. induction chunks as [| c r IH]; intros h; simpl.
  - now rewrite app_nil_r.
  - rewrite IH. unfold Sha256.update. now rewrite app_assoc.
Qed.

(** C4, as the code has it. A successful download yields the SHA-256
    digest of the downloaded bytes, chunk after chunk, in the form
    [hexdigest] gives it: 64 hexadecimal characters in lower case. A failed
    download (transport error, timeout) yields [None] and no digest. *)
Theorem calculate_sha256_lower_hex (w : world) (url : value) :
  match artifact w with
  | DownloadChunks chunks =>
      exists d,
        calculate_sha256 w url = ([Download url], Ret (Some d))
        /\ d = Sha256.hexdigest (List.concat chunks)
        /\ String.length d = 64
        /\ all_chars is_lower_hex d = true
  | DownloadFailed => calculate_sha256 w url = ([Download url], Ret None)
  end.
Proof.
  unfold calculate_sha256, requests_get_stream.
  destruct (artifact w) as [| chunks].
  - reflexivity.
  - exists (Sha256.hexdigest (List.concat chunks)).
    split; [| split; [reflexivity | split]].
    + transitivity
        ([Download url],
         Ret (Some (Sha256.hexdigest
                      (fold_left Sha256.update chunks Sha256.new))));
        [reflexivity |].
      rewrite fold_update. reflexivity.
    + apply hexdigest_length.
    + apply concat_hex2_lower.
Qed.

(** C4, as stated, fails: the digest of the three bytes "abc" comes back
    in lower case, and differs from its upper-case form. *)
Lemma calculate_sha256_not_uppercase :
  exists d,
    result (calculate_sha256 world_current (JStr sample_url)) = Ret (Some d)
    /\ d = "ba7816bf8f01cfea414140de5dae2223b00361a396177a9cb410ff61f20015ad"
    /\ d <> upper d.
Proof.
  eexists. split; [vm_compute; reflexivity | split; [reflexivity |]].
  vm_compute. discriminate.
Qed.

(** *** Runs of [update_package] *)

Lemma bind_run {A B} (t : list event) (a : A) (k : A -> M B) :
  bind (t, Ret a) k = ((t ++ trace (k a))%list, result (k a)).
Proof. unfold bind. destruct (k a). reflexivity. Qed.

Lemma bind_emit {B} (ev : event) (k : unit -> M B) :
  bind (emit ev) k = (ev :: trace (k tt), result (k tt)).
Proof. unfold emit. rewrite bind_run. reflexivity. Qed.

Lemma finally_run {A} (c : M A) (ev : event) :
  finally c ev = ((trace c ++ [ev])%list, result c).
Proof. destruct c. reflexivity. Qed.

Lemma get_trace (obj : value) (key : string) (default : value) :
  trace (get obj key default) = [].
Proof. destruct obj; try reflexivity. simpl. now destruct (lookup key d). Qed.

Lemma get_latest_version_trace (w : world) (slug : string) :
  trace (get_latest_version w slug)
  = [HttpGet (BASE_URL ++ "/apps/" ++ slug ++ "/latest")].
Proof.
  unfold get_latest_version, session_get. cbv zeta.
  destruct (api_reply w) as [| data]; [reflexivity |].
  destruct data; try reflexivity.
  rewrite bind_emit. cbn [trace result ret fst snd]. rewrite bind_run.
  rewrite get_dict, bind_ret_l.
  destruct (truthy _); [| reflexivity].
  rewrite get_dict. reflexivity.
Qed.

Lemma get_linux_zip_url_trace (version_data : value) :
  trace (get_linux_zip_url version_data) = [].
Proof.
  unfold get_linux_zip_url.
  destruct version_data; try reflexivity.
  rewrite get_dict, bind_ret_l.
  destruct (match lookup "downloads" d with Some v => v | None => JDict [] end);
    try reflexivity.
  rewrite get_dict, bind_ret_l.
  destruct (match lookup "Linux" d0 with Some v => v | None => JDict [] end);
    try reflexivity.
  rewrite get_dict, bind_ret_l.
  destruct (match lookup "zip" d1 with Some v => v | None => JDict [] end);
    try reflexivity.
  rewrite get_dict. reflexivity.
Qed.

(** [configure_git] starts by setting the e-mail address. *)
Lemma configure_git_trace (w : world) (repo_path : string) :
  exists t, trace (configure_git w repo_path) = git_config_email :: t.
Proof.
  unfold configure_git, run_checked.
  destruct (config_email_ok w), (config_name_ok w); eexists; reflexivity.
Qed.

Lemma trace_bind_prefix {A B} (c : M A) (k : A -> M B) :
  exists t, trace (bind c k) = (trace c ++ t)%list.
Proof.
  destruct c as [t [a | e]].
  - rewrite bind_run. eexists. reflexivity.
  - exists []. simpl. now rewrite app_nil_r.
Qed.

Lemma update_package_at_comparison
    (w : world) (package_name : string) (version : value) (force : bool) :
  reaches_comparison w package_name version ->
  exists package download_url,
    find_package package_name AUR_PACKAGES = Some package
    /\ if eq_optstr (get_current_aur_version (cloned_pkgbuild w)) version
          && negb force
       then update_package w package_name false force
            = ((before_comparison w package download_url
                ++ [RemoveTempDir (tmp_dir w)])%list,
               Ret (true, package_name ++ " is already at version "
                            ++ str version))
       else exists t,
            trace (update_package w package_name false force)
            = (before_comparison w package download_url
               ++ git_config_email :: t)%list.
Proof.
  intros (package & version_data & download_url & chunks & Hfind & Hfetch
          & Hvd & Hver & Hv & Hurl & Hu & Hart & Hclone).
  exists package, download_url. split; [exact Hfind |].
  destruct (find_package_name _ _ Hfind) as [Hname _].
  unfold update_package. rewrite Hfind.
  rewrite (run_eta (get_latest_version w (slug package))).
  rewrite Hfetch, get_latest_version_trace, bind_run, Hvd.
  simpl negb. cbv iota.
  rewrite (run_eta (get version_data "version" JNull)).
  rewrite Hver, get_trace, bind_run, Hv.
  simpl negb. cbv iota.
  rewrite (run_eta (get_linux_zip_url version_data)).
  rewrite Hurl, get_linux_zip_url_trace, bind_run, Hu.
  simpl negb. cbv iota.
  assert (Hsha : calculate_sha256 w download_url
                 = ([Download download_url],
                    Ret (Some (Sha256.hexdigest
                                 (fold_left Sha256.update chunks
                                    Sha256.new))))).
  { unfold calculate_sha256, requests_get_stream. now rewrite Hart. }
  rewrite Hsha, bind_run.
  rewrite hexdigest_not_empty. cbv iota.
  rewrite bind_emit.
  assert (Hcl : clone_aur_repo w package_name (tmp_dir w)
                = ([Git ["git"; "clone";
                         "ssh://aur@aur.archlinux.org/" ++ package_name
                           ++ ".git";
                         tmp_dir w ++ "/" ++ package_name]],
                   Ret (Some (tmp_dir w ++ "/" ++ package_name)))).
  { unfold clone_aur_repo, run_timed. now rewrite Hclone. }
  rewrite Hcl, finally_run, bind_run.
  unfold before_comparison. rewrite Hname.
  destruct (eq_optstr _ version && negb force).
  - reflexivity.
  - destruct (configure_git_trace w (tmp_dir w ++ "/" ++ package_name))
      as [t Ht].
    match goal with
    | |- context [bind (configure_git ?a ?b) ?k] =>
        destruct (trace_bind_prefix (configure_git a b) k) as [t' Ht']
    end.
    cbn [trace fst]. cbn [trace fst] in Ht, Ht'. rewrite Ht', Ht.
    eexists. cbn [app]. reflexivity.
Qed.

(** *** The loop and the summary *)

Lemma report_each_result (results : list published) :
  result (report_each results) = Ret tt.
Proof.
  induction results as [| [[n s] m] r IH]; [reflexivity |].
  change (result (emit (Report s n m) ;; report_each r) = Ret tt).
  rewrite bind_emit. exact IH.
Qed.

Lemma summary_result (results : list published) :
  result (summary results)
  = if (success_count results <? List.length results)%nat
    then Raise (SystemExit 1) else Ret tt.
Proof.
  unfold summary. rewrite !bind_emit. cbn [result snd].
  rewrite (result_bind _ _ tt (report_each_result results)).
  cbv beta. cbn [result snd].
  now destruct (_ <? _)%nat.
Qed.

Lemma success_count_all (results : list published) :
  success_count results = List.length results
  <-> forall r, In r results -> succeeded r = true.
Proof.
  unfold success_count, succeeded.
  induction results as [| x r IH]; simpl.
  - split; [intros _ y [] | reflexivity].
  - pose proof (filter_length_le (fun r => snd (fst r)) r) as L.
    destruct (snd (fst x)) eqn:E; simpl.
    + split.
      * intros H y [<- | Hy]; [exact E |].
        injection H as H. apply IH; assumption.
      * intros H. f_equal. apply IH. intros y Hy. apply H. now right.
    + split.
      * intros H. exfalso. unfold published in *. lia.
      * intros H. specialize (H x (or_introl eq_refl)). congruence.
Qed.

Lemma forallb_false_witness {A} (f : A -> bool) (l : list A) :
  forallb f l = false -> exists x, In x l /\ f x = false.
Proof.
  induction l as [| a l IH]; simpl; [discriminate |].
  destruct (f a) eqn:E; simpl.
  - intros H. destruct (IH H) as (x & Hx & Hf). exists x. auto.
  - intros _. exists a. auto.
Qed.

Lemma success_count_le (results : list published) :
  success_count results <= List.length results.
Proof. apply filter_length_le. Qed.

Lemma main_result (rw : run_world) (a : args) (packages : list string) :
  requested a = Some packages ->
  (given (arg_ssh_key a) = true -> ssh_setup_ok rw = true) ->
  result (main rw a)
  = result (results <- update_each rw 0 packages (arg_dry_run a)
                         (arg_force a) ;;
            summary results).
Proof.
  intros Hreq Hssh. unfold main.
  assert (H1 : result (if given (arg_ssh_key a)
                       then emit (SetupSsh match arg_ssh_key a with
                                           | Some p => p
                                           | None => ""
                                           end) ;;
                            (if negb (ssh_setup_ok rw)
                             then raise (SystemExit 1) else ret tt)
                       else ret tt) = Ret tt).
  { destruct (given (arg_ssh_key a)); [| reflexivity].
    rewrite (Hssh eq_refl). reflexivity. }
  rewrite (result_bind _ _ tt H1).
  assert (H2 : result (if arg_all a then ret (map fst AUR_PACKAGES)
                       else if given (arg_package a)
                            then ret match arg_package a with
                                     | Some p => [p]
                                     | None => []
                                     end
                            else emit PrintHelp ;; raise (SystemExit 1))
               = Ret packages).
  { unfold requested in Hreq. destruct (arg_all a).
    - now injection Hreq as <-.
    - destruct (arg_package a) as [p |]; [| discriminate Hreq].
      simpl given. destruct (is_empty p); [discriminate Hreq |].
      now injection Hreq as <-. }
  rewrite (result_bind _ _ packages H2). reflexivity.
Qed.

(** C1, as the code has it. When a run gets to its summary, the exit status
    is non-zero exactly when at least one requested package failed, and
    zero exactly when every package succeeded (published, or already
    current). *)
Theorem exit_status_reports_any_failure
    (rw : run_world) (a : args) (packages : list string)
    (results : list published) :
  requested a = Some packages ->
  (given (arg_ssh_key a) = true -> ssh_setup_ok rw = true) ->
  result (update_each rw 0 packages (arg_dry_run a) (arg_force a))
  = Ret results ->
  (exit_status (result (main rw a)) <> 0%Z
   <-> exists r, In r results /\ succeeded r = false)
  /\ (exit_status (result (main rw a)) = 0%Z
      <-> forall r, In r results -> succeeded r = true).
Proof.
  intros Hreq Hssh Hrun.
  rewrite (main_result rw a packages Hreq Hssh).
  rewrite (result_bind _ _ results Hrun), summary_result.
  pose proof (success_count_all results) as Hall.
  pose proof (success_count_le results) as Hle.
  destruct (Nat.ltb_spec (success_count results) (List.length results))
    as [Hlt | Hge]; simpl exit_status.
  - assert (Hex : exists r, In r results /\ succeeded r = false).
    { destruct (forallb succeeded results) eqn:F.
      - exfalso. rewrite forallb_forall in F.
        apply Hall in F. lia.
      - apply forallb_false_witness in F. destruct F as (r & Hr & Hf).
        now exists r. }
    split; split.
    + intros _. exact Hex.
    + intros _ H. discriminate H.
    + intros H. discriminate H.
    + intros H. destruct Hex as (r & Hr & Hf).
      rewrite (H r Hr) in Hf. discriminate Hf.
  - assert (Hok : forall r, In r results -> succeeded r = true).
    { apply Hall. lia. }
    split; split.
    + intros H. now contradiction H.
    + intros (r & Hr & Hf). rewrite (Hok r Hr) in Hf. discriminate Hf.
    + intros _. exact Hok.
    + reflexivity.
Qed.

Lemma exit_status_reports_any_failure_witness :
  (exit_status (result (main run_partial all_args)) <> 0%Z
   <-> exists r,
         In r [("klit-bin", true, "klit-bin is already at version 2.3.0");
               ("doudou-bin", false,
                "Failed to fetch version data for doudou");
               ("finar-bin", false,
                "Failed to fetch version data for finar")]
         /\ succeeded r = false)
  /\ (exit_status (result (main run_partial all_args)) = 0%Z
      <-> forall r,
            In r [("klit-bin", true, "klit-bin is already at version 2.3.0");
                  ("doudou-bin", false,
                   "Failed to fetch version data for doudou");
                  ("finar-bin", false,
                   "Failed to fetch version data for finar")] ->
            succeeded r = true).
Proof.
  apply (exit_status_reports_any_failure run_partial all_args
           ["klit-bin"; "doudou-bin"; "finar-bin"]).
  - reflexivity.
  - intros H. discriminate H.
  - vm_compute. reflexivity.
Defined.

(** C1, as stated, fails: with one package already current and the API
    down for the two others, one package succeeded and yet the exit status
    is 1. *)
Lemma exit_status_nonzero_despite_a_success :
  result (update_each run_partial 0 ["klit-bin"; "doudou-bin"; "finar-bin"]
            false false)
  = Ret [("klit-bin", true, "klit-bin is already at version 2.3.0");
         ("doudou-bin", false, "Failed to fetch version data for doudou");
         ("finar-bin", false, "Failed to fetch version data for finar")]
  /\ exit_status (result (main run_partial all_args)) = 1%Z.
Proof. split; vm_compute; reflexivity. Qed.

(** When the loop returns, it returns one result per requested package, in
    request order. *)
Lemma update_each_names (rw : run_world) (packages : list string)
    (dry_run force : bool) :
  forall i results,
    result (update_each rw i packages dry_run force) = Ret results ->
    map (fun r : published => fst (fst r)) results = packages.
Proof.
  induction packages as [| p rest IH]; intros i results.
  - intros [= <-]. reflexivity.
  - change (update_each rw i (p :: rest) dry_run force)
      with (r <- update_package (package_world rw i) p dry_run force ;;
            results <- update_each rw (S i) rest dry_run force ;;
            ret ((p, fst r, snd r) :: results)).
    destruct (update_package (package_world rw i) p dry_run force)
      as [t [r | e]]; [| discriminate].
    rewrite bind_run. cbn [result snd].
    destruct (update_each rw (S i) rest dry_run force) as [t' [rs | e]] eqn:E;
      [| discriminate].
    rewrite bind_run. cbn [result snd ret].
    intros [= <-]. simpl. f_equal. apply (IH (S i)). now rewrite E.
Qed.

(** The loop returns whenever every call of [update_package] returns: a
    failure that is reported as a result does not stop it. *)
Lemma update_each_returns (rw : run_world) (packages : list string)
    (dry_run force : bool) :
  (forall i p, exists r,
      result (update_package (package_world rw i) p dry_run force) = Ret r) ->
  forall i, exists results,
    result (update_each rw i packages dry_run force) = Ret results.
Proof.
  intros Hall. induction packages as [| p rest IH]; intros i.
  - exists []. reflexivity.
  - change (update_each rw i (p :: rest) dry_run force)
      with (r <- update_package (package_world rw i) p dry_run force ;;
            results <- update_each rw (S i) rest dry_run force ;;
            ret ((p, fst r, snd r) :: results)).
    destruct (Hall i p) as [r Hr]. destruct (IH (S i)) as [rs Hrs].
    exists ((p, fst r, snd r) :: rs).
    rewrite (result_bind _ _ r Hr), (result_bind _ _ rs Hrs). reflexivity.
Qed.

(** C3, at the input where the code departs from it. The release of the
    first package gives [null] for its Linux builds. Reading the artifact
    URL then raises [AttributeError], which nothing catches: the run ends
    there with status 1, after the first fetch, with no result for any
    package and without touching the two packages that follow. Run with
    the same worlds one by one, those two packages succeed. *)
Theorem null_platform_entry_aborts_run :
  main run_null_first all_args
  = ([HttpGet "https://openlyst.ink/api/v1/apps/klit/latest"],
     Raise AttributeError)
  /\ exit_status (result (main run_null_first all_args)) = 1%Z
  /\ result (update_each run_null_first 0
               ["klit-bin"; "doudou-bin"; "finar-bin"] false false)
     = Raise AttributeError
  /\ result (update_package (package_world run_null_first 1) "doudou-bin"
               false false)
     = Ret (true, "doudou-bin is already at version 2.3.0")
  /\ result (update_package (package_world run_null_first 2) "finar-bin"
               false false)
     = Ret (true, "finar-bin is already at version 2.3.0").
Proof. repeat split; vm_compute; reflexivity. Qed.

(** *** Commit and push *)

(** C8, as the code has it. After staging succeeded: when git reports no
    change, the operation creates no commit and returns [True], the value
    it also returns after a successful push; otherwise it commits with
    exactly the message "Update <package> to version <version>", and when
    the commit succeeds it pushes once: exit status 0 gives [True], a
    rejected or timed-out push gives [False], and the push is not tried
    again. *)
Theorem commit_and_push_outcomes
    (w : world) (repo_path version package_name : string) :
  add_ok w = true ->
  let run := commit_and_push w repo_path version package_name in
  if is_empty (strip (status_stdout w))
  then run = ([Git ["git"; "add"; "-A"]; Git ["git"; "status"; "--porcelain"]],
              Ret true)
  else
    nth_error (trace run) 2
    = Some (Git ["git"; "commit"; "-m";
                 "Update " ++ package_name ++ " to version " ++ version])
    /\ (commit_ok w = false ->
        result run = Ret false /\ count_pushes (trace run) = 0)
    /\ (commit_ok w = true ->
        nth_error (trace run) 3 = Some (Git ["git"; "push"; "origin"; "master"])
        /\ count_pushes (trace run) = 1
        /\ result run
           = Ret match push w with
                 | Exit 0 => true
                 | _ => false
                 end).
Proof.
  intros Hadd run. unfold run, commit_and_push, run_checked, run_timed.
  rewrite Hadd.
  destruct (is_empty (strip (status_stdout w))).
  - reflexivity.
  - destruct (commit_ok w).
    + destruct (push w) as [| [| rc | rc]];
        (split; [reflexivity |]); (split; [discriminate |]); intros _;
        repeat split.
    + split; [reflexivity |]. split; [| discriminate].
      intros _. split; reflexivity.
Qed.

Lemma commit_and_push_outcomes_witness :
  nth_error
    (trace (commit_and_push world_stale "/tmp/tmpq1w2e3/klit-bin" "2.3.0"
              "klit-bin")) 2
  = Some (Git ["git"; "commit"; "-m";
               "Update " ++ "klit-bin" ++ " to version " ++ "2.3.0"])
  /\ (commit_ok world_stale = false ->
      result (commit_and_push world_stale "/tmp/tmpq1w2e3/klit-bin" "2.3.0"
                "klit-bin") = Ret false
      /\ count_pushes
           (trace (commit_and_push world_stale "/tmp/tmpq1w2e3/klit-bin"
                     "2.3.0" "klit-bin")) = 0)
  /\ (commit_ok world_stale = true ->
      nth_error
        (trace (commit_and_push world_stale "/tmp/tmpq1w2e3/klit-bin" "2.3.0"
                  "klit-bin")) 3
      = Some (Git ["git"; "push"; "origin"; "master"])
      /\ count_pushes
           (trace (commit_and_push world_stale "/tmp/tmpq1w2e3/klit-bin"
                     "2.3.0" "klit-bin")) = 1
      /\ result (commit_and_push world_stale "/tmp/tmpq1w2e3/klit-bin" "2.3.0"
                   "klit-bin")
         = Ret match push world_stale with
               | Exit 0 => true
               | _ => false
               end).
Proof.
  apply (commit_and_push_outcomes world_stale "/tmp/tmpq1w2e3/klit-bin"
           "2.3.0" "klit-bin").
  reflexivity.
Defined.

(** C8, as stated, fails: the operation gives the same outcome, [True],
    when the tree is unchanged and no commit is made as when it commits and
    the push is accepted. *)
Lemma no_change_is_not_a_distinct_outcome :
  commit_and_push world_current "/tmp/tmpq1w2e3/klit-bin" "2.3.0" "klit-bin"
  = ([Git ["git"; "add"; "-A"]; Git ["git"; "status"; "--porcelain"]],
     Ret true)
  /\ commit_and_push world_stale "/tmp/tmpq1w2e3/klit-bin" "2.3.0" "klit-bin"
     = ([Git ["git"; "add"; "-A"]; Git ["git"; "status"; "--porcelain"];
         Git ["git"; "commit"; "-m"; "Update klit-bin to version 2.3.0"];
         Git ["git"; "push"; "origin"; "master"]],
        Ret true).
Proof. split; vm_compute; reflexivity. Qed.

(** *** Lines of a rendered text *)

Lemma unlines_cons (l : string) (r : list string) :
  unlines (l :: r) = l ++ nl ++ unlines r.
Proof. reflexivity. Qed.

Lemma no_line_break_single (a : string) :
  no_line_break a = true -> single_line a = true.
Proof.
  unfold no_line_break, single_line.
  induction a as [| c a IH]; simpl; [reflexivity |].
  intros H. apply andb_prop in H as [Hc Ha]. apply andb_prop in Hc as [Hc _].
  now rewrite Hc, (IH Ha).
Qed.

(** A line without carriage return is read as it was written. *)
Lemma universal_newlines_line (a rest : string) :
  no_line_break a = true ->
  universal_newlines (a ++ nl ++ rest) = a ++ nl ++ universal_newlines rest.
Proof.
  unfold no_line_break.
  induction a as [| c a IH]; intros H.
  - reflexivity.
  - simpl in H. apply andb_prop in H as [Hc Ha].
    apply andb_prop in Hc as [_ Hc].
    unfold not_char in Hc. apply negb_true_iff in Hc.
    change (universal_newlines (String c (a ++ nl ++ rest))
            = String c (a ++ nl ++ universal_newlines rest)).
    rewrite <- (IH Ha).
    destruct (a ++ nl ++ rest); simpl; rewrite Hc; reflexivity.
Qed.

Lemma read_line (l : string) (r : list string) :
  no_line_break l = true ->
  lines (universal_newlines (unlines (l :: r)))
  = (l ++ nl) :: lines (universal_newlines (unlines r)).
Proof.
  intros H. rewrite unlines_cons, (universal_newlines_line _ _ H).
  apply lines_app_nl, no_line_break_single, H.
Qed.

(** *** strip and split *)

Lemma rstrip_spaces (w : string) : all_chars isspace w = true -> rstrip w = "".
Proof.
  induction w as [| c w IH]; simpl; [reflexivity |].
  intros H. apply andb_prop in H as [Hc Hw].
  now rewrite (IH Hw), Hc.
Qed.

Lemma rstrip_app_spaces (a w : string) :
  all_chars isspace w = true -> rstrip (a ++ w) = rstrip a.
Proof.
  intros Hw. induction a as [| c a IH].
  - simpl. rewrite (rstrip_spaces _ Hw). reflexivity.
  - change (rstrip (String c (a ++ w)) = rstrip (String c a)).
    simpl. now rewrite IH.
Qed.

Lemma split_no_sep (sep : ascii) (v : string) :
  has_char sep v = false -> split sep v = [v].
Proof.
  unfold has_char. rewrite negb_false_iff.
  induction v as [| c v IH]; simpl; [reflexivity |].
  intros H. apply andb_prop in H as [Hc Hv].
  apply negb_true_iff in Hc. now rewrite Hc, (IH Hv).
Qed.

(** What the scan for the version makes of the recipe's version line. *)
Lemma pkgver_line_value (version : string) :
  has_char "=" version = false ->
  rstrip version = version ->
  nth_error (split "=" (strip (("pkgver=" ++ version) ++ nl))) 1
  = Some version.
Proof.
  intros Heq Hstrip.
  assert (E : strip (("pkgver=" ++ version) ++ nl) = "pkgver=" ++ version).
  { rewrite sapp_assoc. unfold strip.
    change (lstrip ("pkgver=" ++ version ++ nl))
      with ("pkgver=" ++ version ++ nl).
    change (rstrip ("pkgver=" ++ version ++ nl))
      with ("pkgver=" ++ rstrip (version ++ nl)).
    rewrite (rstrip_app_spaces version nl eq_refl), Hstrip. reflexivity. }
  rewrite E.
  change (split "=" ("pkgver=" ++ version))
    with ("pkgver" :: split "=" version).
  rewrite (split_no_sep _ _ Heq). reflexivity.
Qed.

Lemma scan_skip (line : string) (rest : list string) :
  startswith "pkgver=" line = false ->
  scan_pkgver (line :: rest) = scan_pkgver rest.
Proof. intros H. cbn [scan_pkgver]. now rewrite H. Qed.

Lemma scan_hit (line : string) (rest : list string) :
  startswith "pkgver=" line = true ->
  scan_pkgver (line :: rest) = nth_error (split "=" (strip line)) 1.
Proof. intros H. cbn [scan_pkgver]. now rewrite H. Qed.

Lemma no_line_break_app (a b : string) :
  no_line_break a = true -> no_line_break b = true ->
  no_line_break (a ++ b) = true.
Proof.
  unfold no_line_break. intros Ha Hb. now rewrite all_chars_app, Ha, Hb.
Qed.

(** C7, as the code has it. For a package whose name has no line break:
    a version that has no line break, no equals sign and no trailing white
    space is read back from the rendered recipe exactly as it was
    rendered. *)
Theorem rendered_version_reads_back
    (package : AURPackage) (version download_url sha256 : string) :
  no_line_break (name package) = true ->
  no_line_break version = true ->
  has_char "=" version = false ->
  rstrip version = version ->
  get_current_aur_version
    (Contents (generate_pkgbuild package version download_url sha256))
  = Some version.
Proof.
  intros Hname Hver Heq Hstrip.
  unfold get_current_aur_version, generate_pkgbuild. cbv zeta.
  rewrite read_line by reflexivity. rewrite scan_skip by reflexivity.
  rewrite read_line by reflexivity. rewrite scan_skip by reflexivity.
  rewrite read_line by reflexivity. rewrite scan_skip by reflexivity.
  rewrite read_line by (apply no_line_break_app; [reflexivity | exact Hname]).
  rewrite scan_skip by reflexivity.
  rewrite read_line by (apply no_line_break_app; [reflexivity | exact Hver]).
  rewrite scan_hit by reflexivity.
  apply pkgver_line_value; assumption.
Qed.

Lemma rendered_version_reads_back_witness :
  get_current_aur_version
    (Contents (generate_pkgbuild klit_bin "2.3.0" sample_url sample_digest))
  = Some "2.3.0".
Proof.
  apply (rendered_version_reads_back klit_bin "2.3.0" sample_url
           sample_digest);
    reflexivity.
Defined.

(** C7, as stated, fails: a version with an equals sign is read back cut
    at that sign. *)
Lemma version_with_equals_sign_is_cut :
  get_current_aur_version
    (Contents (generate_pkgbuild klit_bin "1.0=rc1" sample_url
                 sample_digest))
  = Some "1.0"
  /\ "1.0" <> "1.0=rc1".
Proof. split; [vm_compute; reflexivity | discriminate]. Qed.

(** *** Fields of the rendered artifacts *)

Lemma single_line_app (a b : string) :
  single_line (a ++ b) = single_line a && single_line b.
Proof. apply all_chars_app. Qed.

Lemma lines_unlines_cons (l : string) (r : list string) :
  single_line l = true ->
  lines (unlines (l :: r)) = (l ++ nl) :: lines (unlines r).
Proof. intros H. rewrite unlines_cons. now apply lines_app_nl. Qed.

Lemma startswith_app_r (p l x : string) :
  startswith p l = true -> startswith p (l ++ x) = true.
Proof.
  revert l. induction p as [| c p IH]; intros l; [reflexivity |].
  destruct l as [| d l]; simpl; [discriminate |].
  intros H. apply andb_prop in H as [Hc Hp]. now rewrite Hc, (IH l Hp).
Qed.

Lemma drop_app_r (p l x : string) :
  startswith p l = true ->
  drop (String.length p) (l ++ x) = drop (String.length p) l ++ x.
Proof.
  revert l. induction p as [| c p IH]; intros l; [reflexivity |].
  destruct l as [| d l]; simpl; [discriminate |].
  intros H. apply andb_prop in H as [_ Hp]. exact (IH l Hp).
Qed.

Lemma first_field_skip (prefix l : string) (r : list string) :
  single_line l = true ->
  startswith prefix (l ++ nl) = false ->
  first_field prefix (unlines (l :: r)) = first_field prefix (unlines r).
Proof.
  intros Hl Hp. unfold first_field.
  rewrite (lines_unlines_cons l r Hl). cbn [find]. now rewrite Hp.
Qed.

Lemma first_field_hit (prefix l : string) (r : list string) :
  single_line l = true ->
  startswith prefix l = true ->
  first_field prefix (unlines (l :: r))
  = Some (drop (String.length prefix) l).
Proof.
  intros Hl Hp. unfold first_field.
  rewrite (lines_unlines_cons l r Hl). cbn [find].
  rewrite (startswith_app_r _ _ _ Hp), (drop_app_r _ _ _ Hp), chomp_app_nl.
  reflexivity.
Qed.

Lemma quoted_list_single_line (l : list string) :
  forallb single_line l = true -> single_line (quoted_list l) = true.
Proof.
  unfold quoted_list.
  induction l as [| a [| b r] IH]; intros H.
  - reflexivity.
  - cbn [forallb] in H. apply andb_prop in H as [Ha _].
    cbn [map join]. rewrite !single_line_app, Ha. reflexivity.
  - change (forallb single_line (a :: b :: r))
      with (single_line a && forallb single_line (b :: r)) in H.
    apply andb_prop in H as [Ha Hr].
    change (single_line
              (("'" ++ a ++ "'") ++ " "
               ++ join " " (map (fun dep => "'" ++ dep ++ "'") (b :: r)))
            = true).
    rewrite !single_line_app, Ha, (IH Hr). reflexivity.
Qed.

(** *** The source-info, line by line *)

Lemma unlines_app (a b : list string) :
  unlines (a ++ b) = unlines a ++ unlines b.
Proof.
  induction a as [| l a IH]; [reflexivity |].
  simpl app. rewrite !unlines_cons, IH, !sapp_assoc. reflexivity.
Qed.

Lemma add_entries_unlines (key : string) (l : list string) (acc : string) :
  add_entries key l acc = acc ++ unlines (map (entry key) l).
Proof.
  unfold add_entries. revert acc.
  induction l as [| d l IH]; intros acc.
  - simpl. now rewrite sapp_nil_r.
  - cbn [fold_left map]. rewrite IH, unlines_cons. unfold entry.
    rewrite !sapp_assoc. reflexivity.
Qed.

Lemma generate_srcinfo_lines
    (package : AURPackage) (version download_url sha256 : string) :
  generate_srcinfo package version download_url sha256
  = unlines (srcinfo_lines package version download_url sha256).
Proof.
  unfold generate_srcinfo, srcinfo_lines. cbv zeta.
  rewrite !add_entries_unlines, !unlines_app, !sapp_assoc. reflexivity.
Qed.

Lemma fields_unlines (prefix : string) (ls : list string) :
  forallb single_line ls = true ->
  fields prefix (unlines ls) = flat_map (field_of prefix) ls.
Proof.
  unfold fields. induction ls as [| l r IH]; intros H; [reflexivity |].
  cbn [forallb] in H. apply andb_prop in H as [Hl Hr].
  rewrite (lines_unlines_cons l r Hl). cbn [filter flat_map].
  unfold field_of at 1.
  destruct (startswith prefix (l ++ nl)); cbn [map app]; now rewrite (IH Hr).
Qed.

Lemma fields_of_own_entries (key : string) (l : list string) :
  flat_map (field_of (tab ++ key ++ " = ")) (map (entry key) l) = l.
Proof.
  induction l as [| d l IH]; [reflexivity |].
  cbn [map flat_map]. rewrite IH. unfold field_of, entry.
  replace ((tab ++ key ++ " = " ++ d) ++ nl)
    with ((tab ++ key ++ " = ") ++ d ++ nl) by now rewrite !sapp_assoc.
  rewrite startswith_app, drop_app, chomp_app_nl. reflexivity.
Qed.

Lemma fields_of_other_entries (prefix key : string) (l : list string) :
  (forall d, startswith prefix (entry key d ++ nl) = false) ->
  flat_map (field_of prefix) (map (entry key) l) = [].
Proof.
  intros H. induction l as [| d l IH]; [reflexivity |].
  cbn [map flat_map]. rewrite IH. unfold field_of. now rewrite H.
Qed.

Lemma entries_single_line (key : string) (l : list string) :
  single_line key = true ->
  forallb single_line l = true ->
  forallb single_line (map (entry key) l) = true.
Proof.
  intros Hk. induction l as [| d l IH]; [reflexivity |].
  cbn [forallb map]. intros H. apply andb_prop in H as [Hd Hl].
  rewrite (IH Hl). unfold entry. rewrite !single_line_app, Hk, Hd.
  reflexivity.
Qed.

Lemma srcinfo_lines_single_line
    (package : AURPackage) (version download_url sha256 : string) :
  spec_single_line package = true ->
  single_line version = true ->
  single_line download_url = true ->
  single_line sha256 = true ->
  forallb single_line (srcinfo_lines package version download_url sha256)
  = true.
Proof.
  unfold spec_single_line. intros Hp Hv Hu Hs.
  repeat (apply andb_prop in Hp as [Hp ?]).
  unfold srcinfo_lines, entry.
  rewrite !forallb_app.
  rewrite (entries_single_line "depends" _ eq_refl) by assumption.
  rewrite (entries_single_line "conflicts" _ eq_refl) by assumption.
  rewrite (entries_single_line "provides" _ eq_refl) by assumption.
  cbn [forallb]. rewrite !single_line_app.
  repeat match goal with
         | H : single_line _ = true |- _ => rewrite H; clear H
         end.
  reflexivity.
Qed.

Ltac one_line :=
  first [ reflexivity
        | rewrite !single_line_app;
          repeat match goal with
                 | H : single_line _ = true |- _ => rewrite ?H; clear H
                 end;
          reflexivity ].

Ltac recipe_value :=
  unfold recipe_field, generate_pkgbuild; cbv zeta;
  repeat (rewrite first_field_skip by one_line);
  rewrite first_field_hit by one_line;
  reflexivity.

Ltac srcinfo_values :=
  try unfold srcinfo_fields;
  rewrite generate_srcinfo_lines;
  rewrite fields_unlines by (apply srcinfo_lines_single_line; assumption);
  unfold srcinfo_lines; rewrite !flat_map_app;
  repeat first
    [ rewrite fields_of_own_entries
    | rewrite fields_of_other_entries by (intros ?; reflexivity) ];
  cbn [flat_map app]; unfold field_of, entry;
  simpl; rewrite ?chomp_app_nl, ?app_nil_r; reflexivity.

(** C6, as the code has it. When every rendered field is on one line, the
    recipe and the source-info carry the same text for the name, the
    version, the description, the URL, the license, every dependency,
    conflict and provides entry, the download URL and the digest. The
    source entry is the exception: the recipe refers to the name and the
    version by variable, the source-info writes them out. *)
Theorem recipe_and_srcinfo_carry_the_same_values
    (package : AURPackage) (version download_url sha256 : string) :
  spec_single_line package = true ->
  single_line version = true ->
  single_line download_url = true ->
  single_line sha256 = true ->
  let recipe := generate_pkgbuild package version download_url sha256 in
  let srcinfo := generate_srcinfo package version download_url sha256 in
  (recipe_field "pkgname" recipe = Some (name package)
   /\ fields "pkgbase = " srcinfo = [name package]
   /\ fields "pkgname = " srcinfo = [name package])
  /\ (recipe_field "pkgver" recipe = Some version
      /\ srcinfo_fields "pkgver" srcinfo = [version])
  /\ (recipe_field "pkgdesc" recipe = Some (Q (description package))
      /\ srcinfo_fields "pkgdesc" srcinfo = [description package])
  /\ (recipe_field "url" recipe = Some (Q (url package))
      /\ srcinfo_fields "url" srcinfo = [url package])
  /\ (recipe_field "license" recipe = Some ("('" ++ license package ++ "')")
      /\ srcinfo_fields "license" srcinfo = [license package])
  /\ (recipe_field "depends" recipe
      = Some ("(" ++ quoted_list (depends package) ++ ")")
      /\ srcinfo_fields "depends" srcinfo = depends package)
  /\ (recipe_field "conflicts" recipe
      = Some ("(" ++ quoted_list (conflicts package) ++ ")")
      /\ srcinfo_fields "conflicts" srcinfo = conflicts package)
  /\ (recipe_field "provides" recipe
      = Some ("(" ++ quoted_list (provides package) ++ ")")
      /\ srcinfo_fields "provides" srcinfo = provides package)
  /\ (recipe_field "source" recipe
      = Some ("(" ++ dq ++ "${pkgname}-${pkgver}.zip::" ++ download_url
                ++ dq ++ ")")
      /\ srcinfo_fields "source" srcinfo
         = [name package ++ "-" ++ version ++ ".zip::" ++ download_url])
  /\ (recipe_field "sha256sums" recipe = Some ("('" ++ sha256 ++ "')")
      /\ srcinfo_fields "sha256sums" srcinfo = [sha256]).
Proof.
  intros Hp Hv Hu Hs recipe srcinfo. subst recipe srcinfo.
  pose proof Hp as Hp'. unfold spec_single_line in Hp'.
  repeat (apply andb_prop in Hp' as [Hp' ?]).
  pose proof (quoted_list_single_line (depends package) ltac:(assumption)).
  pose proof (quoted_list_single_line (conflicts package) ltac:(assumption)).
  pose proof (quoted_list_single_line (provides package) ltac:(assumption)).
  repeat split.
  all: first [ recipe_value | srcinfo_values ].
Qed.

Lemma recipe_and_srcinfo_carry_the_same_values_witness :
  recipe_field "pkgver"
    (generate_pkgbuild doudou_bin "2.3.0" sample_url sample_digest)
  = Some "2.3.0"
  /\ srcinfo_fields "pkgver"
       (generate_srcinfo doudou_bin "2.3.0" sample_url sample_digest)
     = ["2.3.0"]
  /\ srcinfo_fields "depends"
       (generate_srcinfo doudou_bin "2.3.0" sample_url sample_digest)
     = ["gtk3"; "libmpv.so"; "mpv"].
Proof.
  pose proof (recipe_and_srcinfo_carry_the_same_values doudou_bin "2.3.0"
                sample_url sample_digest eq_refl eq_refl eq_refl eq_refl)
    as H.
  cbv zeta in H.
  destruct H as (_ & (Hr & Hs) & _ & _ & _ & (_ & Hd) & _).
  exact (conj Hr (conj Hs Hd)).
Defined.

(** C6, as stated, fails for the source entry: the text the source-info
    gives for it occurs nowhere in the recipe, whose source entry names the
    package and the version by variable. *)
Lemma source_entry_differs_between_artifacts :
  recipe_field "source"
    (generate_pkgbuild klit_bin "2.3.0" sample_url sample_digest)
  = Some ("(" ++ dq ++ "${pkgname}-${pkgver}.zip::https://example/sample-2.3.0.zip"
            ++ dq ++ ")")
  /\ srcinfo_fields "source"
       (generate_srcinfo klit_bin "2.3.0" sample_url sample_digest)
     = ["klit-bin-2.3.0.zip::https://example/sample-2.3.0.zip"]
  /\ contains "klit-bin-2.3.0.zip::https://example/sample-2.3.0.zip"
       (generate_pkgbuild klit_bin "2.3.0" sample_url sample_digest)
     = false.
Proof. repeat split; vm_compute; reflexivity. Qed.

(** *** Shell quoting *)





(* ================================================================== *)
(** ** Further properties of the updater *)
(* ================================================================== *)

Import Runs.

(** *** How the stages end *)

Lemma bind_raise {A B} (t : list event) (e : exn) (k : A -> M B) :
  bind (t, Raise e) k = (t, Raise e).
Proof. reflexivity. Qed.

Lemma get_outcome (obj : value) (key : string) (default : value) :
  (exists v, get obj key default = ([], Ret v))
  \/ get obj key default = ([], Raise AttributeError).
Proof.
  destruct obj; try (right; reflexivity).
  left. rewrite get_dict. eexists. reflexivity.
Qed.

Lemma get_latest_version_outcome (w : world) (slug : string) :
  (exists v, result (get_latest_version w slug) = Ret v)
  \/ result (get_latest_version w slug) = Raise AttributeError.
Proof.
  unfold get_latest_version, session_get. cbv zeta.
  destruct (api_reply w) as [| data]; [left; eexists; reflexivity |].
  destruct data; try (right; reflexivity).
  rewrite bind_emit. cbn [trace result ret fst snd]. rewrite bind_run.
  rewrite get_dict, bind_ret_l.
  destruct (truthy _); [| left; eexists; reflexivity].
  rewrite get_dict. left. eexists. reflexivity.
Qed.

Lemma get_linux_zip_url_outcome (version_data : value) :
  (exists v, result (get_linux_zip_url version_data) = Ret v)
  \/ result (get_linux_zip_url version_data) = Raise AttributeError.
Proof.
  unfold get_linux_zip_url.
  destruct version_data; try (right; reflexivity).
  rewrite get_dict, bind_ret_l.
  destruct (match lookup "downloads" d with Some v => v | None => JDict [] end);
    try (right; reflexivity).
  rewrite get_dict, bind_ret_l.
  destruct (match lookup "Linux" d0 with Some v => v | None => JDict [] end);
    try (right; reflexivity).
  rewrite get_dict, bind_ret_l.
  destruct (match lookup "zip" d1 with Some v => v | None => JDict [] end);
    try (right; reflexivity).
  rewrite get_dict. left. eexists. reflexivity.
Qed.

Lemma calculate_sha256_run (w : world) (url : value) :
  calculate_sha256 w url
  = ([Download url],
     Ret match artifact w with
         | DownloadFailed => None
         | DownloadChunks chunks =>
             Some (Sha256.hexdigest (List.concat chunks))
         end).
Proof.
  unfold calculate_sha256, requests_get_stream.
  destruct (artifact w) as [| chunks]; [reflexivity |].
  transitivity
    ([Download url],
     Ret (Some (Sha256.hexdigest
                  (fold_left Sha256.update chunks Sha256.new))));
    [reflexivity |].
  rewrite fold_update. reflexivity.
Qed.

Lemma clone_aur_repo_run (w : world) (package_name : string) :
  clone_aur_repo w package_name (tmp_dir w)
  = ([clone_command w package_name],
     Ret match clone w with
         | Exit 0 => Some (repo_of w package_name)
         | _ => None
         end).
Proof.
  unfold clone_aur_repo, run_timed, clone_command, repo_of.
  destruct (clone w) as [| [| rc | rc]]; reflexivity.
Qed.

Lemma configure_git_run (w : world) (repo_path : string) :
  configure_git w repo_path
  = if config_email_ok w
    then ([Git ["git"; "config"; "user.email"; "httpanimations@proton.me"];
           Git ["git"; "config"; "user.name"; "HttpAnimations"]],
          Ret (config_name_ok w))
    else ([Git ["git"; "config"; "user.email"; "httpanimations@proton.me"]],
          Ret false).
Proof.
  unfold configure_git, run_checked.
  destruct (config_email_ok w), (config_name_ok w); reflexivity.
Qed.

Lemma commit_and_push_returns
    (w : world) (repo_path version package_name : string) :
  exists t pushed,
    commit_and_push w repo_path version package_name = (t, Ret pushed).
Proof.
  unfold commit_and_push, run_checked, run_timed.
  destruct (add_ok w); [| eexists; eexists; reflexivity].
  destruct (is_empty (strip (status_stdout w)));
    [eexists; eexists; reflexivity |].
  destruct (commit_ok w); [| eexists; eexists; reflexivity].
  destruct (push w) as [| [| rc | rc]]; eexists; eexists; reflexivity.
Qed.

(** Every call of [update_package] has one of the shapes. *)
Lemma update_package_shape
    (w : world) (package_name : string) (dry_run force : bool) :
  run_shape w package_name dry_run force
    (update_package w package_name dry_run force).
Proof.
  unfold update_package.
  destruct (find_package package_name AUR_PACKAGES) as [package |] eqn:Hfind;
    [| now apply Unknown].
  rewrite (run_eta (get_latest_version w (slug package))).
  rewrite get_latest_version_trace. fold (latest_url package).
  destruct (get_latest_version_outcome w (slug package)) as [[vd Hvd] | Hvd];
    rewrite Hvd;
    [| rewrite bind_raise; apply (Unread _ _ _ _ package); auto;
       now apply FetchRaised].
  rewrite bind_run.
  destruct (truthy vd) eqn:Tvd; cbn [negb];
    [| cbn [trace result ret fst snd app];
       apply (Unread _ _ _ _ package); auto; now apply (NoData _ _ vd)].
  destruct (get_outcome vd "version" JNull) as [[version Hver] | Hver];
    rewrite Hver;
    [| rewrite bind_raise; cbn [trace result fst snd app];
       apply (Unread _ _ _ _ package); auto;
       apply (VersionRaised _ _ vd); auto; now rewrite Hver].
  rewrite bind_run.
  destruct (truthy version) eqn:Tver; cbn [negb];
    [| cbn [trace result ret fst snd app];
       apply (Unread _ _ _ _ package); auto;
       apply (NoVersion _ _ vd version); auto; now rewrite Hver].
  rewrite (run_eta (get_linux_zip_url vd)), get_linux_zip_url_trace.
  destruct (get_linux_zip_url_outcome vd) as [[url Hurl] | Hurl];
    rewrite Hurl;
    [| rewrite bind_raise; cbn [trace result fst snd app];
       apply (Unread _ _ _ _ package); auto;
       apply (UrlRaised _ _ vd version); auto; now rewrite Hver].
  rewrite bind_run.
  destruct (truthy url) eqn:Turl; cbn [negb];
    [| cbn [trace result ret fst snd app];
       apply (Unread _ _ _ _ package); auto;
       apply (NoUrl _ _ vd version url); auto; now rewrite Hver].
  assert (Hread : release_read w package version url).
  { exists vd. rewrite Hver. auto 10. }
  rewrite calculate_sha256_run, bind_run.
  destruct (artifact w) as [| chunks] eqn:Hart;
    [cbn [trace result ret fst snd app];
     now apply (NoDigest _ _ _ _ package version url) |].
  rewrite hexdigest_not_empty.
  destruct dry_run.
  { rewrite bind_emit. cbn [trace result ret fst snd app].
    now apply (DryRun _ _ _ _ package version url chunks). }
  rewrite bind_emit, finally_run, clone_aur_repo_run, bind_run.
  destruct (clone w) as [| rc] eqn:Hclone.
  { cbn [trace result ret fst snd app].
    apply (CloneFailed _ _ _ _ package version url chunks); auto.
    rewrite Hclone. discriminate. }
  destruct (Z.eq_dec rc 0) as [-> | Hrc].
  2: { assert (E : match rc with
                     | 0%Z => Some (repo_of w package_name)
                     | _ => None
                     end = None) by (destruct rc; congruence).
       rewrite E. cbn [trace result ret fst snd app].
       apply (CloneFailed _ _ _ _ package version url chunks); auto.
       rewrite Hclone. congruence. }
  destruct (eq_optstr (get_current_aur_version (cloned_pkgbuild w)) version
            && negb force) eqn:Hcmp.
  { apply andb_prop in Hcmp as [Heq Hforce].
    apply negb_true_iff in Hforce.
    cbn [trace result ret fst snd app].
    now apply (Current _ _ _ _ package version url chunks). }
  rewrite configure_git_run.
  destruct (config_email_ok w) eqn:Hemail.
  2: { rewrite bind_run. cbn [negb trace result ret fst snd app].
       apply (ConfigFailed _ _ _ _ package version url chunks
                [Git ["git"; "config"; "user.email";
                      "httpanimations@proton.me"]]); auto.
       rewrite configure_git_run, Hemail. reflexivity. }
  rewrite bind_run.
  destruct (config_name_ok w) eqn:Hname.
  2: { cbn [negb trace result ret fst snd app].
       apply (ConfigFailed _ _ _ _ package version url chunks
                [Git ["git"; "config"; "user.email";
                      "httpanimations@proton.me"];
                 Git ["git"; "config"; "user.name"; "HttpAnimations"]]);
         auto.
       rewrite configure_git_run, Hemail, Hname. reflexivity. }
  cbn [negb]. rewrite !bind_emit.
  destruct (commit_and_push_returns w (repo_of w package_name) (str version)
              package_name) as (t & pushed & Hpush).
  rewrite Hpush, bind_run.
  replace (result (if negb pushed
                   then ret (false, "Failed to push changes to AUR")
                   else ret (true, "Successfully updated " ++ package_name
                                     ++ " to version " ++ str version)))
    with (Ret (if pushed
               then (true, "Successfully updated " ++ package_name
                             ++ " to version " ++ str version)
               else (false, "Failed to push changes to AUR")))
    by now destruct pushed.
  replace (trace (if negb pushed
                  then ret (false, "Failed to push changes to AUR")
                  else ret (true, "Successfully updated " ++ package_name
                                    ++ " to version " ++ str version)))
    with (@nil event) by now destruct pushed.
  cbn [trace result ret fst snd app]. rewrite app_nil_r.
  now apply (Committed _ _ _ _ package version url chunks t pushed).
Qed.

Lemma commit_and_push_cases
    (w : world) (repo_path version package_name : string) :
  commit_and_push w repo_path version package_name
  = if negb (add_ok w) then ([add_command], Ret false)
    else if no_diff w
    then ([add_command; Git ["git"; "status"; "--porcelain"]], Ret true)
    else if negb (commit_ok w)
    then ([add_command; Git ["git"; "status"; "--porcelain"];
           Git ["git"; "commit"; "-m";
                "Update " ++ package_name ++ " to version " ++ version]],
          Ret false)
    else ([add_command; Git ["git"; "status"; "--porcelain"];
           Git ["git"; "commit"; "-m";
                "Update " ++ package_name ++ " to version " ++ version];
           push_command],
          Ret match push w with
              | Exit 0 => true
              | _ => false
              end).
Proof.
  unfold commit_and_push, run_checked, run_timed, no_diff.
  destruct (add_ok w); [| reflexivity].
  destruct (is_empty (strip (status_stdout w))); [reflexivity |].
  destruct (commit_ok w); [| reflexivity].
  destruct (push w) as [| [| rc | rc]]; reflexivity.
Qed.

(** X10. Whenever commit-and-push returns, it returns [True] exactly when
    staging succeeded and either git reports no change or the commit
    succeeded and the push exited with 0. It has then run git commands
    only, and a push only after the commit. *)
Theorem commit_and_push_returns_true_iff
    (w : world) (repo_path version package_name : string)
    (t : list event) (pushed : bool) :
  commit_and_push w repo_path version package_name = (t, Ret pushed) ->
  (pushed = true
   <-> add_ok w = true
       /\ (no_diff w = true
           \/ (commit_ok w = true /\ push w = Exit 0)))
  /\ forallb is_git t = true
  /\ (In push_command t ->
      In (Git ["git"; "commit"; "-m";
               "Update " ++ package_name ++ " to version " ++ version]) t).
Proof.
  rewrite commit_and_push_cases.
  destruct (add_ok w); cbn [negb].
  2: { intros [= <- <-].
       split; [split; [discriminate | intros [H _]; discriminate H] |].
       split; [reflexivity |].
       intros [H | []]. discriminate H. }
  destruct (no_diff w).
  { intros [= <- <-].
    split; [split; auto |]. split; [reflexivity |].
    intros [H | [H | []]]; discriminate H. }
  destruct (commit_ok w); cbn [negb].
  2: { intros [= <- <-].
       split.
       - split; [discriminate |].
         intros [_ [H | [H _]]]; discriminate H.
       - split; [reflexivity |].
         intros [H | [H | [H | []]]]; discriminate H. }
  intros [= <- <-]. split.
  - destruct (push w) as [| [| rc | rc]]; split; auto;
      try discriminate; intros [_ [H | [_ H]]]; discriminate H.
  - split; [reflexivity |]. intros _. simpl. auto.
Qed.

Lemma commit_and_push_returns_true_iff_witness :
  (false = true
   <-> add_ok world_push_rejected = true
       /\ (no_diff world_push_rejected = true
           \/ (commit_ok world_push_rejected = true
               /\ push world_push_rejected = Exit 0)))
  /\ forallb is_git
       [Git ["git"; "add"; "-A"]; Git ["git"; "status"; "--porcelain"];
        Git ["git"; "commit"; "-m"; "Update klit-bin to version 2.3.0"];
        Git ["git"; "push"; "origin"; "master"]] = true
  /\ (In push_command
        [Git ["git"; "add"; "-A"]; Git ["git"; "status"; "--porcelain"];
         Git ["git"; "commit"; "-m"; "Update klit-bin to version 2.3.0"];
         Git ["git"; "push"; "origin"; "master"]] ->
      In (Git ["git"; "commit"; "-m";
               "Update " ++ "klit-bin" ++ " to version " ++ "2.3.0"])
        [Git ["git"; "add"; "-A"]; Git ["git"; "status"; "--porcelain"];
         Git ["git"; "commit"; "-m"; "Update klit-bin to version 2.3.0"];
         Git ["git"; "push"; "origin"; "master"]]).
Proof.
  apply (commit_and_push_returns_true_iff world_push_rejected
           "/tmp/tmpq1w2e3/klit-bin" "2.3.0" "klit-bin").
  reflexivity.
Defined.

Lemma commit_and_push_trace_git
    (w : world) (repo_path version package_name : string) :
  forallb is_git (trace (commit_and_push w repo_path version package_name))
  = true.
Proof.
  rewrite commit_and_push_cases.
  destruct (add_ok w), (no_diff w), (commit_ok w); reflexivity.
Qed.

Lemma configure_git_trace_shape (w : world) (repo_path : string) t b :
  configure_git w repo_path = (t, Ret b) ->
  forallb (fun ev => is_git ev && negb (is_network ev) && negb (is_add ev))
          t = true.
Proof.
  rewrite configure_git_run.
  destruct (config_email_ok w); intros [= <- _]; reflexivity.
Qed.

(** *** What a run does and does not do *)

(** X1. A dry run changes nothing: it runs no git command, writes no
    file and makes no temporary directory; all it does is fetch the
    release, download the artifact and print the recipe. *)
Theorem dry_run_changes_nothing
    (w : world) (package_name : string) (force : bool) :
  existsb is_change (trace (update_package w package_name true force))
  = false.
Proof.
  pose proof (update_package_shape w package_name true force) as S.
  remember (update_package w package_name true force) as run eqn:E.
  clear E. destruct S; try discriminate; reflexivity.
Qed.

(** X3. No publication without a digest: when the artifact cannot be
    downloaded, the run changes nothing (no clone, no file written, no
    commit, no push) and does not end in success. *)
Theorem no_digest_no_publication
    (w : world) (package_name : string) (dry_run force : bool) :
  artifact w = DownloadFailed ->
  existsb is_change (trace (update_package w package_name dry_run force))
  = false
  /\ forall message,
       result (update_package w package_name dry_run force)
       <> Ret (true, message).
Proof.
  intros Hart.
  pose proof (update_package_shape w package_name dry_run force) as S.
  remember (update_package w package_name dry_run force) as run eqn:E.
  clear E. destruct S; try congruence.
  - split; [reflexivity | discriminate].
  - split; [reflexivity |].
    match goal with H : release_unread _ _ _ |- _ => destruct H end;
      discriminate.
  - split; [reflexivity | discriminate].
Qed.

Lemma no_digest_no_publication_witness :
  existsb is_change
    (trace (update_package world_no_artifact "klit-bin" false true))
  = false
  /\ forall message,
       result (update_package world_no_artifact "klit-bin" false true)
       <> Ret (true, message).
Proof.
  apply (no_digest_no_publication world_no_artifact "klit-bin" false true).
  reflexivity.
Defined.

(** X4. An [AttributeError] escapes [update_package] only while the
    release data is read: it comes from the fetch, from the look-up of the
    version or from the extraction of the artifact URL, and all that has
    happened by then is the one request for the release. Nothing has been
    downloaded, cloned or written. *)
Theorem attribute_error_escapes_only_while_reading
    (w : world) (package_name : string) (dry_run force : bool) :
  result (update_package w package_name dry_run force)
  = Raise AttributeError ->
  exists package,
    find_package package_name AUR_PACKAGES = Some package
    /\ trace (update_package w package_name dry_run force)
       = [HttpGet (latest_url package)]
    /\ (result (get_latest_version w (slug package)) = Raise AttributeError
        \/ exists version_data,
             result (get_latest_version w (slug package)) = Ret version_data
             /\ (result (get version_data "version" JNull)
                 = Raise AttributeError
                 \/ result (get_linux_zip_url version_data)
                    = Raise AttributeError)).
Proof.
  pose proof (update_package_shape w package_name dry_run force) as S.
  remember (update_package w package_name dry_run force) as run eqn:E.
  clear E. destruct S; try discriminate.
  intros Hr. exists package. split; [assumption |].
  split; [reflexivity |]. cbn [result snd] in Hr.
  match goal with H : release_unread _ _ _ |- _ => destruct H end;
    try discriminate Hr.
  - now left.
  - right. exists version_data. auto.
  - right. exists version_data. auto.
Qed.

Lemma attribute_error_escapes_only_while_reading_witness :
  exists package,
    find_package "klit-bin" AUR_PACKAGES = Some package
    /\ trace (update_package world_null_linux "klit-bin" false false)
       = [HttpGet (latest_url package)]
    /\ (result (get_latest_version world_null_linux (slug package))
        = Raise AttributeError
        \/ exists version_data,
             result (get_latest_version world_null_linux (slug package))
             = Ret version_data
             /\ (result (get version_data "version" JNull)
                 = Raise AttributeError
                 \/ result (get_linux_zip_url version_data)
                    = Raise AttributeError)).
Proof.
  apply (attribute_error_escapes_only_while_reading world_null_linux
           "klit-bin" false false).
  reflexivity.
Defined.

(** X2. The temporary directory never outlives the call: whenever one was
    made, removing it is the last thing the call does, whatever the
    outcome. *)
Theorem temp_dir_is_always_removed
    (w : world) (package_name : string) (dry_run force : bool) (dir : string) :
  In (MakeTempDir dir) (trace (update_package w package_name dry_run force)) ->
  exists before,
    trace (update_package w package_name dry_run force)
    = (before ++ [RemoveTempDir dir])%list
    /\ ~ In (RemoveTempDir dir) before.
Proof.
  pose proof (update_package_shape w package_name dry_run force) as S.
  remember (update_package w package_name dry_run force) as run eqn:E.
  clear E. cbn [trace fst].
  destruct S; cbn [trace fst].
  - intros [].
  - intros [Hi | []]. discriminate Hi.
  - intros [Hi | [Hi | []]]; discriminate Hi.
  - intros [Hi | [Hi | [Hi | []]]]; discriminate Hi.
  - intros [Hi | [Hi | [Hi | [Hi | [Hi | []]]]]]; try discriminate Hi.
    injection Hi as <-.
    exists [HttpGet (latest_url package); Download download_url;
            MakeTempDir (tmp_dir w); clone_command w package_name].
    split; [reflexivity |].
    intros [Hi | [Hi | [Hi | [Hi | []]]]]; discriminate Hi.
  - intros [Hi | [Hi | [Hi | [Hi | [Hi | []]]]]]; try discriminate Hi.
    injection Hi as <-.
    exists [HttpGet (latest_url package); Download download_url;
            MakeTempDir (tmp_dir w); clone_command w package_name].
    split; [reflexivity |].
    intros [Hi | [Hi | [Hi | [Hi | []]]]]; discriminate Hi.
  - intros Hin.
    match goal with
    | Hc : configure_git _ _ = _ |- _ =>
        pose proof (configure_git_trace_shape _ _ _ _ Hc) as Hgit
    end.
    rewrite forallb_forall in Hgit.
    assert (Hd : dir = tmp_dir w).
    { cbn [app In] in Hin.
      destruct Hin as [Hi | [Hi | [Hi | [Hi | Hi]]]]; try discriminate Hi.
      - now injection Hi.
      - apply in_app_or in Hi as [Hj | [Hj | []]]; [| discriminate Hj].
        apply Hgit in Hj. discriminate Hj. }
    subst dir. eexists. rewrite app_assoc. split; [reflexivity |].
    intros Hin'. apply in_app_or in Hin' as [Hj | Hj].
    + cbn [In] in Hj. destruct Hj as [Hj | [Hj | [Hj | [Hj | []]]]];
        discriminate Hj.
    + apply Hgit in Hj. discriminate Hj.
  - intros Hin.
    pose proof (commit_and_push_trace_git w (repo_of w package_name)
                  (str version) package_name) as Hgit.
    match goal with
    | Hc : commit_and_push _ _ _ _ = _ |- _ => rewrite Hc in Hgit
    end.
    cbn [trace fst] in Hgit. rewrite forallb_forall in Hgit.
    assert (Hd : dir = tmp_dir w).
    { cbn [app In] in Hin.
      destruct Hin as [Hi | [Hi | [Hi | [Hi | [Hi | [Hi | [Hi | [Hi | Hi]]]]]]]];
        try discriminate Hi.
      - now injection Hi.
      - apply in_app_or in Hi as [Hj | [Hj | []]]; [| discriminate Hj].
        apply Hgit in Hj. discriminate Hj. }
    subst dir. eexists. rewrite app_assoc. split; [reflexivity |].
    intros Hin'. apply in_app_or in Hin' as [Hj | Hj].
    + cbn [In] in Hj.
      destruct Hj as [Hj | [Hj | [Hj | [Hj | [Hj | [Hj | [Hj | [Hj | []]]]]]]]];
        discriminate Hj.
    + apply Hgit in Hj. discriminate Hj.
Qed.

Lemma temp_dir_is_always_removed_witness :
  exists before,
    trace (update_package world_push_rejected "klit-bin" false false)
    = (before ++ [RemoveTempDir "/tmp/tmpq1w2e3"])%list
    /\ ~ In (RemoveTempDir "/tmp/tmpq1w2e3") before.
Proof.
  apply (temp_dir_is_always_removed world_push_rejected "klit-bin" false false
           "/tmp/tmpq1w2e3").
  vm_compute. auto.
Defined.

(** X5. A failed push is never reported as success: when a push was run
    and did not exit with 0 (it was rejected or timed out), the package
    ends with the failure "Failed to push changes to AUR". *)
Theorem failed_push_is_reported
    (w : world) (package_name : string) (dry_run force : bool) :
  In push_command (trace (update_package w package_name dry_run force)) ->
  push w <> Exit 0 ->
  result (update_package w package_name dry_run force)
  = Ret (false, "Failed to push changes to AUR").
Proof.
  pose proof (update_package_shape w package_name dry_run force) as S.
  remember (update_package w package_name dry_run force) as run eqn:E.
  clear E. unfold push_command. destruct S; cbn [trace result fst snd].
  - intros [].
  - intros [Hi | []]. discriminate Hi.
  - intros [Hi | [Hi | []]]; discriminate Hi.
  - intros [Hi | [Hi | [Hi | []]]]; discriminate Hi.
  - intros [Hi | [Hi | [Hi | [Hi | [Hi | []]]]]]; discriminate Hi.
  - intros [Hi | [Hi | [Hi | [Hi | [Hi | []]]]]]; discriminate Hi.
  - intros Hin _. exfalso.
    match goal with
    | Hc : configure_git _ _ = _ |- _ =>
        pose proof (configure_git_trace_shape _ _ _ _ Hc) as Hgit
    end.
    rewrite forallb_forall in Hgit. cbn [app In] in Hin.
    destruct Hin as [Hi | [Hi | [Hi | [Hi | Hi]]]]; try discriminate Hi.
    apply in_app_or in Hi as [Hj | [Hj | []]]; [| discriminate Hj].
    apply Hgit in Hj. discriminate Hj.
  - intros Hin Hpush.
    match goal with
    | Hc : commit_and_push _ _ _ _ = _ |- _ =>
        rewrite commit_and_push_cases in Hc
    end.
    destruct (add_ok w), (no_diff w), (commit_ok w); cbn [negb] in *;
      match goal with
      | Hc : _ = (t, Ret pushed) |- _ => injection Hc as <- <-
      end;
      try reflexivity;
      try (destruct (push w) as [| [| rc | rc]]; congruence);
      exfalso; cbn [app In] in Hin;
      repeat match goal with
             | Hi : _ \/ _ |- _ => destruct Hi
             | Hi : Git _ = Git _ |- _ => discriminate Hi
             | Hi : _ = Git _ |- _ => discriminate Hi
             | Hi : False |- _ => destruct Hi
             end.
Qed.

Lemma failed_push_is_reported_witness :
  result (update_package world_push_rejected "klit-bin" false false)
  = Ret (false, "Failed to push changes to AUR").
Proof.
  apply (failed_push_is_reported world_push_rejected "klit-bin" false false).
  - vm_compute. auto 20.
  - discriminate.
Defined.

(** X6. Whenever a run stages changes, it has by then written both
    files, and what it wrote is rendered from this run's release with the
    digest of the bytes this run downloaded: the recipe never carries a
    digest from elsewhere. *)
Theorem staged_files_carry_this_runs_digest
    (w : world) (package_name : string) (dry_run force : bool) :
  In add_command (trace (update_package w package_name dry_run force)) ->
  exists package version download_url chunks rest,
    find_package package_name AUR_PACKAGES = Some package
    /\ release_read w package version download_url
    /\ artifact w = DownloadChunks chunks
    /\ trace (update_package w package_name dry_run force)
       = List.app
         [HttpGet (latest_url package); Download download_url;
          MakeTempDir (tmp_dir w); clone_command w package_name;
          Git ["git"; "config"; "user.email"; "httpanimations@proton.me"];
          Git ["git"; "config"; "user.name"; "HttpAnimations"];
          WriteFile (repo_of w package_name ++ "/PKGBUILD")
            (generate_pkgbuild package (str version) (str download_url)
               (Sha256.hexdigest (List.concat chunks)));
          WriteFile (repo_of w package_name ++ "/.SRCINFO")
            (generate_srcinfo package (str version) (str download_url)
               (Sha256.hexdigest (List.concat chunks)));
          add_command] rest.
Proof.
  pose proof (update_package_shape w package_name dry_run force) as S.
  remember (update_package w package_name dry_run force) as run eqn:E.
  clear E. unfold add_command. destruct S; cbn [trace result fst snd].
  - intros [].
  - intros [Hi | []]. discriminate Hi.
  - intros [Hi | [Hi | []]]; discriminate Hi.
  - intros [Hi | [Hi | [Hi | []]]]; discriminate Hi.
  - intros [Hi | [Hi | [Hi | [Hi | [Hi | []]]]]]; discriminate Hi.
  - intros [Hi | [Hi | [Hi | [Hi | [Hi | []]]]]]; discriminate Hi.
  - intros Hin. exfalso.
    match goal with
    | Hc : configure_git _ _ = _ |- _ =>
        pose proof (configure_git_trace_shape _ _ _ _ Hc) as Hgit
    end.
    rewrite forallb_forall in Hgit. cbn [app In] in Hin.
    destruct Hin as [Hi | [Hi | [Hi | [Hi | Hi]]]]; try discriminate Hi.
    apply in_app_or in Hi as [Hj | [Hj | []]]; [| discriminate Hj].
    apply Hgit in Hj. discriminate Hj.
  - intros _.
    match goal with
    | Hc : commit_and_push _ _ _ _ = _ |- _ =>
        rewrite commit_and_push_cases in Hc
    end.
    exists package, version, download_url, chunks.
    destruct (add_ok w), (no_diff w), (commit_ok w); cbn [negb] in *;
      match goal with
      | Hc : _ = (t, Ret pushed) |- _ => injection Hc as <- <-
      end;
      eexists; (split; [assumption |]); (split; [assumption |]);
      (split; [assumption |]); reflexivity.
Qed.

Lemma staged_files_carry_this_runs_digest_witness :
  exists package version download_url chunks rest,
    find_package "klit-bin" AUR_PACKAGES = Some package
    /\ release_read world_stale package version download_url
    /\ artifact world_stale = DownloadChunks chunks
    /\ trace (update_package world_stale "klit-bin" false false)
       = List.app
         [HttpGet (latest_url package); Download download_url;
          MakeTempDir (tmp_dir world_stale);
          clone_command world_stale "klit-bin";
          Git ["git"; "config"; "user.email"; "httpanimations@proton.me"];
          Git ["git"; "config"; "user.name"; "HttpAnimations"];
          WriteFile (repo_of world_stale "klit-bin" ++ "/PKGBUILD")
            (generate_pkgbuild package (str version) (str download_url)
               (Sha256.hexdigest (List.concat chunks)));
          WriteFile (repo_of world_stale "klit-bin" ++ "/.SRCINFO")
            (generate_srcinfo package (str version) (str download_url)
               (Sha256.hexdigest (List.concat chunks)));
          add_command] rest.
Proof.
  apply (staged_files_carry_this_runs_digest world_stale "klit-bin" false
           false).
  vm_compute. auto 20.
Defined.

(** *** Reading the published version *)

Lemma split_not_nil (sep : ascii) (s : string) : split sep s <> [].
Proof.
  destruct s as [| c s]; simpl; [discriminate |].
  destruct (Ascii.eqb c sep); [discriminate |].
  destruct (split sep s); discriminate.
Qed.

Lemma startswith_inv (p s : string) :
  startswith p s = true -> exists r, s = p ++ r.
Proof.
  revert s. induction p as [| c p IH]; intros s H.
  - exists s. reflexivity.
  - destruct s as [| d s]; [discriminate H |].
    simpl in H. apply andb_prop in H as [Hc Hp].
    apply Ascii.eqb_eq in Hc. subst d.
    destruct (IH s Hp) as [r ->]. exists r. reflexivity.
Qed.

(** A line that starts with [pkgver=] always yields a version: the index
    [1] is never out of range. *)
Lemma pkgver_line_has_value (line : string) :
  startswith "pkgver=" line = true ->
  exists v, nth_error (split "=" (strip line)) 1 = Some v.
Proof.
  intros H. destruct (startswith_inv _ _ H) as [r ->].
  unfold strip.
  change (lstrip ("pkgver=" ++ r)) with ("pkgver=" ++ r).
  change (rstrip ("pkgver=" ++ r)) with ("pkgver=" ++ rstrip r).
  change (split "=" ("pkgver=" ++ rstrip r))
    with ("pkgver" :: split "=" (rstrip r)).
  pose proof (split_not_nil "=" (rstrip r)) as Hne.
  destruct (split "=" (rstrip r)) as [| v t]; [congruence |].
  exists v. reflexivity.
Qed.

Lemma scan_pkgver_none (file_lines : list string) :
  scan_pkgver file_lines = None
  <-> forallb (fun line => negb (startswith "pkgver=" line)) file_lines
      = true.
Proof.
  induction file_lines as [| line rest IH]; [split; reflexivity |].
  cbn [scan_pkgver forallb].
  destruct (startswith "pkgver=" line) eqn:E; cbn [negb andb].
  - destruct (pkgver_line_has_value line E) as [v Hv]. rewrite Hv.
    split; discriminate.
  - exact IH.
Qed.

(** X11. The published version is absent exactly when the recipe is
    missing, cannot be read, or has no line that starts with [pkgver=]:
    a version line always yields a version, so the scan never fails on
    one. *)
Theorem current_version_absent_iff (pkgbuild : file_state) :
  get_current_aur_version pkgbuild = None
  <-> match pkgbuild with
      | Contents text =>
          forallb (fun line => negb (startswith "pkgver=" line))
                  (lines (universal_newlines text)) = true
      | _ => True
      end.
Proof.
  destruct pkgbuild as [| | text]; cbn [get_current_aur_version].
  - split; auto.
  - split; auto.
  - apply scan_pkgver_none.
Qed.

Lemma rendered_recipe_version
    (package : AURPackage) (version download_url sha256 : string) :
  no_line_break (name package) = true ->
  no_line_break version = true ->
  has_char "=" version = false ->
  rstrip version = version ->
  scan_pkgver
    (lines (universal_newlines
              (generate_pkgbuild package version download_url sha256)))
  = Some version.
Proof.
  intros Hname Hver Heq Hstrip. unfold generate_pkgbuild. cbv zeta.
  rewrite read_line by reflexivity. rewrite scan_skip by reflexivity.
  rewrite read_line by reflexivity. rewrite scan_skip by reflexivity.
  rewrite read_line by reflexivity. rewrite scan_skip by reflexivity.
  rewrite read_line by (apply no_line_break_app; [reflexivity | exact Hname]).
  rewrite scan_skip by reflexivity.
  rewrite read_line by (apply no_line_break_app; [reflexivity | exact Hver]).
  rewrite scan_hit by reflexivity.
  apply pkgver_line_value; assumption.
Qed.

Lemma registered_name_no_line_break
    (package_name : string) (package : AURPackage) :
  find_package package_name AUR_PACKAGES = Some package ->
  no_line_break (name package) = true.
Proof.
  unfold AUR_PACKAGES. simpl.
  destruct (String.eqb package_name "klit-bin");
    [intros [= <-]; reflexivity |].
  destruct (String.eqb package_name "doudou-bin");
    [intros [= <-]; reflexivity |].
  destruct (String.eqb package_name "finar-bin");
    [intros [= <-]; reflexivity |].
  discriminate.
Qed.

(** X7. Running again after a publication is a no-op. When the clone
    holds a recipe the updater rendered for a registered package at
    version [v] (whatever URL and digest it was rendered with), upstream
    is still at [v] and force is unset, the run ends with "<name> is
    already at version <v>": it configures nothing, writes nothing and
    runs no commit or push. The version must have no line break, no
    equals sign and no trailing white space. *)
Theorem second_run_is_a_no_op
    (w : world) (package_name : string) (package : AURPackage)
    (v : string) (download_url : value) (old_url old_digest : string) :
  find_package package_name AUR_PACKAGES = Some package ->
  release_read w package (JStr v) download_url ->
  (exists chunks, artifact w = DownloadChunks chunks) ->
  clone w = Exit 0 ->
  cloned_pkgbuild w
  = Contents (generate_pkgbuild package v old_url old_digest) ->
  no_line_break v = true ->
  has_char "=" v = false ->
  rstrip v = v ->
  update_package w package_name false false
  = ([HttpGet (latest_url package); Download download_url;
      MakeTempDir (tmp_dir w); clone_command w package_name;
      RemoveTempDir (tmp_dir w)],
     Ret (true, package_name ++ " is already at version " ++ v)).
Proof.
  intros Hfind Hread [chunks Hart] Hclone Hfile Hv1 Hv2 Hv3.
  assert (Hcur : get_current_aur_version (cloned_pkgbuild w) = Some v).
  { rewrite Hfile. cbn [get_current_aur_version].
    apply rendered_recipe_version; auto.
    exact (registered_name_no_line_break _ _ Hfind). }
  pose proof (update_package_shape w package_name false false) as S.
  remember (update_package w package_name false false) as run eqn:E.
  clear E.
  assert (Hsame : forall version' url',
             release_read w package version' url' ->
             version' = JStr v /\ url' = download_url).
  { intros version' url' (vd' & F1 & _ & F2 & _ & F3 & _).
    destruct Hread as (vd & G1 & _ & G2 & _ & G3 & _).
    rewrite G1 in F1. injection F1 as <-.
    rewrite G2 in F2. rewrite G3 in F3.
    injection F2 as <-. injection F3 as <-. auto. }
  destruct S;
    try match goal with
        | Hf : find_package _ _ = Some ?p |- _ =>
            rewrite Hfind in Hf; injection Hf as <-
        end;
    try congruence;
    try match goal with
        | Hr : release_read _ _ _ _ |- _ =>
            destruct (Hsame _ _ Hr) as [-> ->]
        end.
  - exfalso. destruct Hread as (vd & G1 & G2 & G3 & G4 & G5 & G6).
    match goal with Hu : release_unread _ _ _ |- _ => destruct Hu end;
      congruence.
  - reflexivity.
  - exfalso. rewrite Hcur in *. cbn [eq_optstr negb] in *.
    rewrite String.eqb_refl in *. discriminate.
  - exfalso. rewrite Hcur in *. cbn [eq_optstr negb] in *.
    rewrite String.eqb_refl in *. discriminate.
Qed.

Lemma second_run_is_a_no_op_witness :
  update_package (republish_world "2.3.0") "klit-bin" false false
  = ([HttpGet (latest_url klit_bin); Download (JStr sample_url);
      MakeTempDir (tmp_dir (republish_world "2.3.0"));
      clone_command (republish_world "2.3.0") "klit-bin";
      RemoveTempDir (tmp_dir (republish_world "2.3.0"))],
     Ret (true, "klit-bin" ++ " is already at version " ++ "2.3.0")).
Proof.
  apply (second_run_is_a_no_op (republish_world "2.3.0") "klit-bin" klit_bin
           "2.3.0" (JStr sample_url) sample_url sample_digest).
  - reflexivity.
  - exists (JDict [("version", JStr "2.3.0");
                   ("downloads", linux_zip sample_url)]).
    repeat split; reflexivity.
  - exists [abc]. reflexivity.
  - reflexivity.
  - reflexivity.
  - reflexivity.
  - reflexivity.
  - reflexivity.
Defined.

(** *** The loop over the packages, and the command line *)

Lemma update_each_positions (rw : run_world) (packages : list string)
    (dry_run force : bool) :
  forall start results,
    result (update_each rw start packages dry_run force) = Ret results ->
    List.length results = List.length packages
    /\ forall i package_name,
         nth_error packages i = Some package_name ->
         exists r,
           result (update_package (package_world rw (start + i)) package_name
                     dry_run force) = Ret r
           /\ nth_error results i = Some (package_name, fst r, snd r).
Proof.
  induction packages as [| p rest IH]; intros start results.
  - intros [= <-]. split; [reflexivity |].
    intros [| i] q H; discriminate H.
  - change (update_each rw start (p :: rest) dry_run force)
      with (r <- update_package (package_world rw start) p dry_run force ;;
            results <- update_each rw (S start) rest dry_run force ;;
            ret ((p, fst r, snd r) :: results)).
    destruct (update_package (package_world rw start) p dry_run force)
      as [t [r | e]] eqn:Ep; [| discriminate].
    rewrite bind_run. cbn [result snd].
    destruct (update_each rw (S start) rest dry_run force)
      as [t' [rs | e]] eqn:E; [| discriminate].
    rewrite bind_run. cbn [result snd ret].
    intros [= <-].
    destruct (IH (S start) rs) as [Hlen Hnth]; [now rewrite E |].
    split; [simpl; now rewrite Hlen |].
    intros [| i] q Hq.
    + injection Hq as <-. exists r. rewrite Nat.add_0_r, Ep.
      split; reflexivity.
    + cbn [nth_error] in Hq. destruct (Hnth i q Hq) as (r' & Hr' & Hn).
      exists r'. rewrite Nat.add_succ_r. split; assumption.
Qed.

(** X8. When the loop over the requested packages returns, it returns
    one result per package, in request order, and the result at each
    position is what [update_package] returned for the package at that
    position, in the world it met there. *)
Theorem results_follow_the_request
    (rw : run_world) (packages : list string) (dry_run force : bool)
    (results : list published) :
  result (update_each rw 0 packages dry_run force) = Ret results ->
  List.length results = List.length packages
  /\ forall i package_name,
       nth_error packages i = Some package_name ->
       exists r,
         result (update_package (package_world rw i) package_name
                   dry_run force) = Ret r
         /\ nth_error results i = Some (package_name, fst r, snd r).
Proof.
  intros H. exact (update_each_positions rw packages dry_run force 0 results H).
Qed.

Lemma results_follow_the_request_witness :
  List.length
    [("klit-bin", true, "klit-bin is already at version 2.3.0");
     ("doudou-bin", false, "Failed to fetch version data for doudou");
     ("finar-bin", false, "Failed to fetch version data for finar")]
  = List.length ["klit-bin"; "doudou-bin"; "finar-bin"]
  /\ forall i package_name,
       nth_error ["klit-bin"; "doudou-bin"; "finar-bin"] i
       = Some package_name ->
       exists r,
         result (update_package (package_world run_partial i) package_name
                   false false) = Ret r
         /\ nth_error
              [("klit-bin", true, "klit-bin is already at version 2.3.0");
               ("doudou-bin", false,
                "Failed to fetch version data for doudou");
               ("finar-bin", false,
                "Failed to fetch version data for finar")] i
            = Some (package_name, fst r, snd r).
Proof.
  apply (results_follow_the_request run_partial
           ["klit-bin"; "doudou-bin"; "finar-bin"] false false).
  vm_compute. reflexivity.
Defined.

(** X9. A run that cannot start processes nothing: when the SSH key is
    given and cannot be set up, or when neither a package nor all packages
    are asked for, [main] exits with status 1 without any request,
    download, clone or push; in the second case it prints the help. *)
Theorem main_stops_before_any_package (rw : run_world) (a : args) :
  (given (arg_ssh_key a) = true /\ ssh_setup_ok rw = false)
  \/ requested a = None ->
  exit_status (result (main rw a)) = 1%Z
  /\ existsb is_network (trace (main rw a)) = false
  /\ (requested a = None ->
      (given (arg_ssh_key a) = true -> ssh_setup_ok rw = true) ->
      In PrintHelp (trace (main rw a))).
Proof.
  intros H. unfold main.
  destruct (given (arg_ssh_key a)) eqn:Hkey.
  - destruct (ssh_setup_ok rw) eqn:Hok.
    + destruct H as [[_ H] | H]; [discriminate H |].
      unfold requested in H.
      destruct (arg_all a); [discriminate H |].
      assert (Hp : given (arg_package a) = false).
      { unfold given. destruct (arg_package a) as [p |]; [| reflexivity].
        destruct (is_empty p); [reflexivity | discriminate H]. }
      rewrite Hp. cbn. auto.
    + cbn. repeat split; auto. intros _ Hc. discriminate (Hc eq_refl).
  - destruct H as [[H _] | H]; [discriminate H |].
    unfold requested in H.
    destruct (arg_all a); [discriminate H |].
    assert (Hp : given (arg_package a) = false).
    { unfold given. destruct (arg_package a) as [p |]; [| reflexivity].
      destruct (is_empty p); [reflexivity | discriminate H]. }
    rewrite Hp. cbn. auto.
Qed.

Lemma main_stops_before_any_package_witness :
  exit_status (result (main run_partial no_args)) = 1%Z
  /\ existsb is_network (trace (main run_partial no_args)) = false
  /\ (requested no_args = None ->
      (given (arg_ssh_key no_args) = true ->
       ssh_setup_ok run_partial = true) ->
      In PrintHelp (trace (main run_partial no_args))).
Proof.
  apply (main_stops_before_any_package run_partial no_args).
  right. reflexivity.
Defined.

(** *** The release data *)

(** X12. Extracting the artifact URL raises exactly when a level on the
    way (downloads, Linux, zip) is present and is not an object, and what
    it raises is [AttributeError]: the handler for [KeyError] and
    [TypeError] never runs. *)
Theorem get_linux_zip_url_raises_iff (version_data : list (string * value)) :
  (result (get_linux_zip_url (JDict version_data)) = Raise AttributeError
   <-> broken_on_path version_data)
  /\ (forall e, result (get_linux_zip_url (JDict version_data)) = Raise e ->
      e = AttributeError).
Proof.
  unfold get_linux_zip_url, broken_on_path.
  rewrite get_dict, bind_ret_l.
  destruct (lookup "downloads" version_data) as [downloads |] eqn:E1.
  2: { cbn. split; [| discriminate].
       split; [discriminate |]. intros (x & Hx & _). discriminate Hx. }
  destruct downloads as [| b | n | s | l | d];
    try (cbn; split; [| intros e [= <-]; reflexivity];
         split; [intros _; eexists; split; [reflexivity | now left]
                | reflexivity]).
  rewrite get_dict, bind_ret_l.
  destruct (lookup "Linux" d) as [linux |] eqn:E2.
  2: { cbn. split; [| discriminate].
       split; [discriminate |].
       intros (x & [= <-] & [Hx | (d' & [= <-] & y & Hy & _)]);
         [discriminate Hx |]. rewrite E2 in Hy. discriminate Hy. }
  destruct linux as [| b | n | s | l | d1];
    try (cbn; split; [| intros e [= <-]; reflexivity];
         split; [intros _; eexists; split; [reflexivity |]; right;
                 eexists; split; [reflexivity |]; eexists;
                 split; [eassumption | now left]
                | reflexivity]).
  rewrite get_dict, bind_ret_l.
  destruct (lookup "zip" d1) as [zip_data |] eqn:E3.
  2: { rewrite get_dict. cbn. split; [| discriminate].
       split; [discriminate |].
       intros (x & [= <-] & [Hx | (d' & [= <-] & y & Hy & Hz)]);
         [discriminate Hx |].
       rewrite E2 in Hy. injection Hy as <-.
       destruct Hz as [Hz | (l' & [= <-] & z & Hz & _)];
         [discriminate Hz |]. rewrite E3 in Hz. discriminate Hz. }
  destruct zip_data as [| b | n | s | l | d2];
    try (cbn; split; [| intros e [= <-]; reflexivity];
         split; [intros _; eexists; split; [reflexivity |]; right;
                 eexists; split; [reflexivity |]; eexists;
                 split; [eassumption |]; right;
                 eexists; split; [reflexivity |]; eexists;
                 split; [eassumption | reflexivity]
                | reflexivity]).
  rewrite get_dict. cbn. split; [| discriminate].
  split; [discriminate |].
  intros (x & [= <-] & [Hx | (d' & [= <-] & y & Hy & Hz)]);
    [discriminate Hx |].
  rewrite E2 in Hy. injection Hy as <-.
  destruct Hz as [Hz | (l' & [= <-] & z & Hz & Hw)];
    [discriminate Hz |].
  rewrite E3 in Hz. injection Hz as <-. discriminate Hw.
Qed.

(** X13. When the request for the release fails, or the body is an
    object without a true [success], a registered package ends with the
    failure "Failed to fetch version data for <slug>" after that one
    request, and nothing is raised. *)
Theorem unavailable_release_is_a_failure
    (w : world) (package_name : string) (package : AURPackage)
    (dry_run force : bool) :
  find_package package_name AUR_PACKAGES = Some package ->
  api_reply w = HttpFailed
  \/ (exists body, api_reply w = HttpBody (JDict body)
      /\ truthy (match lookup "success" body with
                 | Some v => v
                 | None => JNull
                 end) = false) ->
  update_package w package_name dry_run force
  = ([HttpGet (latest_url package)],
     Ret (false, "Failed to fetch version data for " ++ slug package)).
Proof.
  intros Hfind H. unfold update_package. rewrite Hfind.
  assert (E : get_latest_version w (slug package)
              = ([HttpGet (latest_url package)], Ret JNull)).
  { unfold get_latest_version, session_get, latest_url. cbv zeta.
    destruct H as [-> | (body & -> & Hs)]; [reflexivity |].
    rewrite bind_emit. cbn [trace result ret fst snd]. rewrite bind_run.
    rewrite get_dict, bind_ret_l, Hs. reflexivity. }
  rewrite E, bind_run. reflexivity.
Qed.

Lemma unavailable_release_is_a_failure_witness :
  update_package api_down "doudou-bin" false false
  = ([HttpGet (latest_url doudou_bin)],
     Ret (false, "Failed to fetch version data for " ++ slug doudou_bin)).
Proof.
  apply (unavailable_release_is_a_failure api_down "doudou-bin" doudou_bin
           false false).
  - reflexivity.
  - left. reflexivity.
Defined.

(** *** The declared version and the decision to publish *)

Lemma chomp_cases (r : string) : r = chomp r \/ r = chomp r ++ nl.
Proof.
  induction r as [| c r IH]; [now left |].
  cbn [chomp].
  destruct (Ascii.eqb c LF && is_empty r) eqn:E.
  - right. apply andb_prop in E as [Hc Hr].
    apply Ascii.eqb_eq in Hc. subst c.
    destruct r; [reflexivity | discriminate Hr].
  - destruct IH as [IH | IH]; [left | right];
      rewrite IH at 1; reflexivity.
Qed.

(** What the scan makes of a version line, with or without its line
    feed. *)
Lemma pkgver_line_read (v tail : string) :
  has_char "=" v = false ->
  rstrip v = v ->
  all_chars isspace tail = true ->
  nth_error (split "=" (strip ("pkgver=" ++ v ++ tail))) 1 = Some v.
Proof.
  intros Heq Hstrip Htail.
  assert (E : strip ("pkgver=" ++ v ++ tail) = "pkgver=" ++ v).
  { unfold strip.
    change (lstrip ("pkgver=" ++ v ++ tail)) with ("pkgver=" ++ v ++ tail).
    change (rstrip ("pkgver=" ++ v ++ tail))
      with ("pkgver=" ++ rstrip (v ++ tail)).
    now rewrite (rstrip_app_spaces v tail Htail), Hstrip. }
  rewrite E.
  change (split "=" ("pkgver=" ++ v)) with ("pkgver" :: split "=" v).
  rewrite (split_no_sep _ _ Heq). reflexivity.
Qed.

Lemma scan_pkgver_declared (file_lines : list string) :
  plain_version
    (match find (startswith "pkgver=") file_lines with
     | Some line => Some (chomp (drop 7 line))
     | None => None
     end) = true ->
  scan_pkgver file_lines
  = match find (startswith "pkgver=") file_lines with
    | Some line => Some (chomp (drop 7 line))
    | None => None
    end.
Proof.
  induction file_lines as [| line rest IH]; [reflexivity |].
  cbn [find scan_pkgver].
  destruct (startswith "pkgver=" line) eqn:Hs; [| exact IH].
  cbn [plain_version]. intros Hp.
  apply andb_prop in Hp as [Heq Hstrip].
  apply negb_true_iff in Heq. apply String.eqb_eq in Hstrip.
  destruct (startswith_inv _ _ Hs) as [r ->].
  change (drop 7 ("pkgver=" ++ r)) with r in *.
  destruct (chomp_cases r) as [Hr | Hr]; rewrite Hr at 1.
  - rewrite <- (sapp_nil_r (chomp r)) at 1.
    now apply pkgver_line_read.
  - now apply pkgver_line_read.
Qed.

(** The line scan reads the declared version, when that version is
    plain. *)
Lemma reader_reads_declared (pkgbuild : file_state) :
  plain_version (declared_version pkgbuild) = true ->
  get_current_aur_version pkgbuild = declared_version pkgbuild.
Proof.
  destruct pkgbuild as [| | text]; try reflexivity.
  exact (scan_pkgver_declared (lines (universal_newlines text))).
Qed.

(** C2, as the code has it. Once a run has the upstream version and the
    clone, and the version the cloned recipe declares has no equals sign
    and no trailing white space: when that version equals the upstream
    version and force is unset, the package ends with the success "<name>
    is already at version <version>" and none of the commands of
    commit-and-push (add, commit, push) is run; otherwise the run goes on
    to configure git. So it goes on to publish exactly when force is set,
    or the two versions differ, or the recipe declares no version. *)
Theorem unchanged_version_is_not_republished
    (w : world) (package_name : string) (version : value) (force : bool) :
  reaches_comparison w package_name version ->
  plain_version (declared_version (cloned_pkgbuild w)) = true ->
  let declared := declared_version (cloned_pkgbuild w) in
  let run := update_package w package_name false force in
  (if eq_optstr declared version && negb force
   then result run = Ret (true, package_name ++ " is already at version "
                                  ++ str version)
        /\ existsb is_commit_or_push (trace run) = false
   else In git_config_email (trace run))
  /\ (In git_config_email (trace run)
      <-> force = true \/ eq_optstr declared version = false
          \/ declared = None).
Proof.
  intros Hreach Hplain declared run.
  destruct (update_package_at_comparison w package_name version force Hreach)
    as (package & download_url & Hfind & Hrun).
  destruct Hreach as (_ & _ & _ & _ & _ & _ & _ & _ & Hv & _).
  rewrite (reader_reads_declared _ Hplain) in Hrun.
  fold declared in Hrun. fold run in Hrun.
  destruct (eq_optstr declared version) eqn:Heq; cbn [andb] in *.
  - destruct force; cbn [negb] in *; cbv iota in Hrun.
    + destruct Hrun as [t Ht].
      assert (Hin : In git_config_email (trace run)).
      { rewrite Ht. apply in_or_app. right. now left. }
      split; [exact Hin | split; auto].
    + split.
      * rewrite Hrun. split; reflexivity.
      * rewrite Hrun. cbn [trace fst before_comparison app]. split.
        -- intros [H | [H | [H | [H | [H | []]]]]]; discriminate H.
        -- intros [H | [H | H]]; try discriminate H.
           rewrite H in Heq. destruct version; try discriminate Heq.
           discriminate Hv.
  - cbv iota in Hrun. destruct Hrun as [t Ht].
    assert (Hin : In git_config_email (trace run)).
    { rewrite Ht. apply in_or_app. right. now left. }
    split; [exact Hin | split; auto].
Qed.

Lemma unchanged_version_is_not_republished_witness :
  (result (update_package world_current "klit-bin" false false)
   = Ret (true, "klit-bin is already at version 2.3.0")
   /\ existsb is_commit_or_push
        (trace (update_package world_current "klit-bin" false false))
      = false)
  /\ (In git_config_email
        (trace (update_package world_current "klit-bin" false false))
      <-> false = true
          \/ eq_optstr (declared_version (cloned_pkgbuild world_current))
               (JStr "2.3.0") = false
          \/ declared_version (cloned_pkgbuild world_current) = None).
Proof.
  apply (unchanged_version_is_not_republished world_current "klit-bin"
           (JStr "2.3.0") false).
  - exists klit_bin,
      (JDict [("version", JStr "2.3.0"); ("downloads", linux_zip sample_url)]),
      (JStr sample_url), [abc].
    repeat split; reflexivity.
  - reflexivity.
Defined.

(** C2, as stated, fails: the published recipe declares version 1.0=rc1,
    upstream is at 1.0=rc1 and force is unset, and yet the run goes on to
    commit-and-push, which stages the files and asks git for the status;
    the package is reported as updated, not as already current. The line
    scan reads the declared version up to its equals sign. *)
Lemma equal_version_with_equals_sign_is_republished :
  declared_version (cloned_pkgbuild world_equals_sign) = Some "1.0=rc1"
  /\ reaches_comparison world_equals_sign "klit-bin" (JStr "1.0=rc1")
  /\ get_current_aur_version (cloned_pkgbuild world_equals_sign) = Some "1.0"
  /\ update_package world_equals_sign "klit-bin" false false
     = ([HttpGet "https://openlyst.ink/api/v1/apps/klit/latest";
         Download (JStr sample_url);
         MakeTempDir "/tmp/tmpq1w2e3";
         Git ["git"; "clone"; "ssh://aur@aur.archlinux.org/klit-bin.git";
              "/tmp/tmpq1w2e3/klit-bin"];
         Git ["git"; "config"; "user.email"; "httpanimations@proton.me"];
         Git ["git"; "config"; "user.name"; "HttpAnimations"];
         WriteFile "/tmp/tmpq1w2e3/klit-bin/PKGBUILD"
           (generate_pkgbuild klit_bin "1.0=rc1" sample_url sample_digest);
         WriteFile "/tmp/tmpq1w2e3/klit-bin/.SRCINFO"
           (generate_srcinfo klit_bin "1.0=rc1" sample_url sample_digest);
         Git ["git"; "add"; "-A"];
         Git ["git"; "status"; "--porcelain"];
         RemoveTempDir "/tmp/tmpq1w2e3"],
        Ret (true, "Successfully updated klit-bin to version 1.0=rc1")).
Proof.
  split; [vm_compute; reflexivity |]. split.
  - exists klit_bin,
      (JDict [("version", JStr "1.0=rc1");
              ("downloads", linux_zip sample_url)]),
      (JStr sample_url), [abc].
    repeat split; reflexivity.
  - split; vm_compute; reflexivity.
Qed.

(* ================================================================== *)
(** ** Further properties: the SSH set-up *)
(* ================================================================== *)

Import Ssh.

Lemma sapp_inj_l (a b c : string) : a ++ b = a ++ c -> b = c.
Proof.
  induction a as [| x a IH]; simpl; [auto |].
  intros [= H]. auto.
Qed.

Lemma sapp_neq_self (a b : string) : b <> "" -> a ++ b <> a.
Proof.
  intros Hb H. apply Hb.
  apply (sapp_inj_l a b ""). now rewrite sapp_nil_r.
Qed.

Lemma dest_not_config (home : string) :
  String.eqb (key_dest home) (config_path home) = false.
Proof.
  apply String.eqb_neq. unfold key_dest, config_path. intros H.
  apply sapp_inj_l in H. discriminate H.
Qed.

Lemma config_not_dest (home : string) :
  String.eqb (config_path home) (key_dest home) = false.
Proof. rewrite String.eqb_sym. apply dest_not_config. Qed.

Lemma dir_not_dest (home : string) :
  String.eqb (ssh_dir home) (key_dest home) = false.
Proof.
  apply String.eqb_neq. unfold key_dest. intros H. symmetry in H.
  revert H. apply sapp_neq_self. discriminate.
Qed.

Lemma dir_not_config (home : string) :
  String.eqb (ssh_dir home) (config_path home) = false.
Proof.
  apply String.eqb_neq. unfold config_path. intros H. symmetry in H.
  revert H. apply sapp_neq_self. discriminate.
Qed.

Lemma dest_not_dir (home : string) :
  String.eqb (key_dest home) (ssh_dir home) = false.
Proof. rewrite String.eqb_sym. apply dir_not_dest. Qed.

Lemma config_not_dir (home : string) :
  String.eqb (config_path home) (ssh_dir home) = false.
Proof. rewrite String.eqb_sym. apply dir_not_config. Qed.

Lemma contains_here (needle rest : string) :
  contains needle (needle ++ rest) = true.
Proof.
  destruct needle as [| c n]; [destruct rest; reflexivity |].
  cbn [contains String.append].
  change (String c (n ++ rest)) with (String c n ++ rest).
  now rewrite startswith_app.
Qed.

Lemma contains_app_r (needle a b : string) :
  contains needle b = true -> contains needle (a ++ b) = true.
Proof.
  intros H. induction a as [| c a IH]; [exact H |].
  cbn [String.append contains]. rewrite IH. apply orb_true_r.
Qed.

Lemma contains_cons (needle : string) (c : ascii) (s : string) :
  contains needle s = true -> contains needle (String c s) = true.
Proof. intros H. cbn [contains]. rewrite H. apply orb_true_r. Qed.

(** However the text before it ends, the appended block is read back with
    the host name in it. *)
Lemma appended_config_is_found (n : nat) :
  forall old, String.length old <= n ->
    contains "aur.archlinux.org" (universal_newlines (old ++ aur_config))
    = true.
Proof.
  induction n as [| n IH]; intros old Hlen.
  - destruct old; [reflexivity | simpl in Hlen; lia].
  - destruct old as [| c r]; [reflexivity |].
    simpl in Hlen.
    change (String c r ++ aur_config) with (String c (r ++ aur_config)).
    cbn [universal_newlines].
    destruct (Ascii.eqb c CR).
    + destruct r as [| d r'].
      * reflexivity.
      * change (String d r' ++ aur_config)
          with (String d (r' ++ aur_config)).
        cbv iota.
        destruct (Ascii.eqb d LF).
        -- apply contains_cons. apply IH. simpl in Hlen. lia.
        -- apply contains_cons.
           change (String d (r' ++ aur_config))
             with (String d r' ++ aur_config).
           apply IH. lia.
    + apply contains_cons. apply IH. lia.
Qed.

Lemma put_same (f : fs) (path : string) (n : node) : put f path n path = n.
Proof. unfold put. now rewrite String.eqb_refl. Qed.

Lemma put_diff (f : fs) (path q : string) (n : node) :
  String.eqb q path = false -> put f path n q = f q.
Proof. unfold put. now intros ->. Qed.

Lemma put_idle (f : fs) (path : string) (n : node) :
  f path = n -> forall q, put f path n q = f q.
Proof.
  intros H q. unfold put. destruct (String.eqb_spec q path); congruence.
Qed.

Lemma setup_again
    (home : string) (create_mode : Z) (ssh_key_path : option string) (f : fs) :
  configured home ssh_key_path f ->
  exists f', setup_ssh_key home create_mode ssh_key_path f = (f', true)
             /\ forall q, f' q = f q.
Proof.
  intros (Hdir & Hkey & config & cmode & Hconf & Hfound).
  assert (E1 : mkdir_exist_ok home (ssh_dir home) f = (f, Done tt)).
  { unfold mkdir_exist_ok. now rewrite Hdir. }
  assert (Econf : forall g,
             g (config_path home) = File config cmode ->
             exists_ (config_path home) g = (g, Done true)
             /\ read_text (config_path home) g
                = (g, Done (universal_newlines config))).
  { intros g Hg. unfold exists_, read_text. now rewrite Hg. }
  unfold setup_ssh_key, setup_ssh_key_body, io_bind.
  rewrite E1. cbv beta iota.
  destruct ssh_key_path as [path |]; cbn [given_path].
  - destruct (is_empty path) eqn:Hempty; cbn [negb]; cbv beta iota.
    + unfold io_ret at 1. cbv beta iota. cbn [negb].
      destruct (Econf f Hconf) as [-> ->]. cbv beta iota.
      rewrite Hfound. cbn [negb]. unfold io_ret.
      exists f. auto.
    + destruct (Hkey path eq_refl Hempty) as (content & mode & Hp & Hd).
      assert (E2 : exists_ path f = (f, Done true)).
      { unfold exists_. now rewrite Hp. }
      assert (E3 : read_text path f = (f, Done (universal_newlines content))).
      { unfold read_text. now rewrite Hp. }
      assert (E4 : write_text create_mode (key_dest home)
                     (universal_newlines content) f
                   = (put f (key_dest home)
                        (File (universal_newlines content) 384), Done tt)).
      { unfold write_text. now rewrite Hd. }
      assert (E5 : chmod (key_dest home) 384
                     (put f (key_dest home)
                        (File (universal_newlines content) 384))
                   = (put (put f (key_dest home)
                             (File (universal_newlines content) 384))
                          (key_dest home)
                          (File (universal_newlines content) 384), Done tt)).
      { unfold chmod. now rewrite put_same. }
      rewrite E2. cbv beta iota. rewrite E3. cbv beta iota.
      rewrite E4. cbv beta iota. rewrite E5. cbv beta iota.
      unfold io_ret at 1. cbv beta iota. cbn [negb].
      match goal with
      | |- context [exists_ (config_path home) ?g] =>
          destruct (Econf g) as [-> ->];
          [now rewrite !(put_diff _ _ _ _ (config_not_dest home)) |]
      end.
      cbv beta iota. rewrite Hfound. cbn [negb]. unfold io_ret.
      eexists. split; [reflexivity |].
      intros q. unfold put.
      destruct (String.eqb_spec q (key_dest home)) as [-> |]; auto.
  - unfold io_ret at 1. cbv beta iota. cbn [negb].
    destruct (Econf f Hconf) as [-> ->]. cbv beta iota.
    rewrite Hfound. cbn [negb]. unfold io_ret.
    exists f. auto.
Qed.

(** X15. Setting up again changes nothing: on a file system where the
    set-up is in place, a set-up that returns [True] has left every path
    as it was; in particular the host block is not added a second time. *)
Theorem setup_again_changes_nothing
    (home : string) (create_mode : Z) (ssh_key_path : option string)
    (f f' : fs) :
  configured home ssh_key_path f ->
  setup_ssh_key home create_mode ssh_key_path f = (f', true) ->
  forall q, f' q = f q.
Proof.
  intros Hc Hrun.
  destruct (setup_again home create_mode ssh_key_path f Hc)
    as (g & Hg & Hsame).
  rewrite Hg in Hrun. injection Hrun as <-. exact Hsame.
Qed.

Lemma io_bind_inv {A B} (c : IO A) (k : A -> IO B) (f f' : fs) (b : B) :
  io_bind c k f = (f', Done b) ->
  exists f1 a, c f = (f1, Done a) /\ k a f1 = (f', Done b).
Proof.
  unfold io_bind. destruct (c f) as [f1 [a | e]]; [| discriminate].
  intros H. exists f1, a. auto.
Qed.

Lemma mkdir_inv (parent path : string) (f f' : fs) (u : unit) :
  mkdir_exist_ok parent path f = (f', Done u) ->
  f' path = Dir /\ forall q, q <> path -> f' q = f q.
Proof.
  unfold mkdir_exist_ok.
  destruct (f path) eqn:E.
  - destruct (f parent); try discriminate. intros [= <- _].
    split; [apply put_same |]. intros q Hq. apply put_diff.
    now apply String.eqb_neq.
  - intros [= <- _]. auto.
  - discriminate.
Qed.

Lemma exists_inv (path : string) (f f' : fs) (b : bool) :
  exists_ path f = (f', Done b) ->
  f' = f /\ (b = false <-> f path = Absent).
Proof.
  unfold exists_. intros [= <- <-]. split; [reflexivity |].
  destruct (f path); split; congruence.
Qed.

Lemma read_text_inv (path : string) (f f' : fs) (text : string) :
  read_text path f = (f', Done text) ->
  f' = f /\ exists content mode,
              f path = File content mode
              /\ text = universal_newlines content.
Proof.
  unfold read_text. destruct (f path) as [| | content mode];
    try discriminate.
  intros [= <- <-]. split; [reflexivity |]. now exists content, mode.
Qed.

Lemma write_text_inv (create_mode : Z) (path content : string)
    (f f' : fs) (u : unit) :
  write_text create_mode path content f = (f', Done u) ->
  exists mode,
    f' = put f path (File content mode)
    /\ ((exists old, f path = File old mode)
        \/ (f path = Absent /\ mode = create_mode)).
Proof.
  unfold write_text. destruct (f path) as [| | old mode] eqn:E;
    try discriminate.
  - intros [= <- _]. exists create_mode. auto.
  - intros [= <- _]. exists mode. split; [reflexivity |]. left. now exists old.
Qed.

Lemma append_text_inv (create_mode : Z) (path content : string)
    (f f' : fs) (u : unit) :
  append_text create_mode path content f = (f', Done u) ->
  (exists old mode,
     f path = File old mode /\ f' = put f path (File (old ++ content) mode))
  \/ (f path = Absent /\ f' = put f path (File content create_mode)).
Proof.
  unfold append_text. destruct (f path) as [| | old mode] eqn:E;
    try discriminate.
  - intros [= <- _]. auto.
  - intros [= <- _]. left. now exists old, mode.
Qed.

Lemma chmod_file (path content : string) (mode0 mode : Z) (f : fs) :
  f path = File content mode0 ->
  chmod path mode f = (put f path (File content mode), Done tt).
Proof. unfold chmod. now intros ->. Qed.

Lemma io_ret_inv {A} (a b : A) (f f' : fs) :
  io_ret a f = (f', Done b) -> f' = f /\ a = b.
Proof. unfold io_ret. intros [= <- <-]. auto. Qed.

(** What a successful set-up has done, step by step. *)
Lemma setup_success_inv
    (home : string) (create_mode : Z) (ssh_key_path : option string)
    (f f' : fs) :
  setup_ssh_key home create_mode ssh_key_path f = (f', true) ->
  exists f0 fa,
    (f0 (ssh_dir home) = Dir /\ forall q, q <> ssh_dir home -> f0 q = f q)
    /\ ((given_path ssh_key_path = false /\ fa = f0)
        \/ (exists path content mode mode',
              ssh_key_path = Some path /\ is_empty path = false
              /\ f0 path = File content mode
              /\ fa = put (put f0 (key_dest home)
                             (File (universal_newlines content) mode'))
                          (key_dest home)
                          (File (universal_newlines content) 384)))
    /\ ((exists config mode,
           fa (config_path home) = File config mode
           /\ ((f' = fa
                /\ contains "aur.archlinux.org" (universal_newlines config)
                   = true)
               \/ f' = put fa (config_path home)
                         (File (config ++ aur_config) mode)))
        \/ (fa (config_path home) = Absent
            /\ f' = put (put fa (config_path home)
                           (File aur_config create_mode))
                        (config_path home) (File aur_config 384))).
Proof.
  unfold setup_ssh_key.
  destruct (setup_ssh_key_body home create_mode ssh_key_path f)
    as [g [b | e]] eqn:E; [| discriminate].
  intros [= -> ->]. unfold setup_ssh_key_body in E.
  apply io_bind_inv in E as (f0 & u & Emk & E).
  apply mkdir_inv in Emk as [HD Hrest].
  apply io_bind_inv in E as (fa & copied & Ecopy & E).
  destruct copied; cbn [negb] in E;
    [| apply io_ret_inv in E as [_ E]; discriminate E].
  apply io_bind_inv in E as (fb & found & Eex & E).
  apply exists_inv in Eex as [-> Hfound].
  apply io_bind_inv in E as (fc & u' & Econf & E).
  apply io_ret_inv in E as [-> _].
  exists f0, fa. split; [auto |]. split.
  - destruct (given_path ssh_key_path) eqn:Hg.
    + right. destruct ssh_key_path as [path |]; [| discriminate Hg].
      cbn [given_path] in Hg. apply negb_true_iff in Hg.
      apply io_bind_inv in Ecopy as (g1 & found' & Eex & Ecopy).
      apply exists_inv in Eex as [-> _].
      destruct found';
        [| apply io_ret_inv in Ecopy as [_ Hc]; discriminate Hc].
      apply io_bind_inv in Ecopy as (g2 & text & Eread & Ecopy).
      apply read_text_inv in Eread as [-> (content & mode & Hp & ->)].
      apply io_bind_inv in Ecopy as (g3 & u1 & Ewrite & Ecopy).
      apply write_text_inv in Ewrite as (mode' & -> & _).
      apply io_bind_inv in Ecopy as (g4 & u2 & Echmod & Ecopy).
      rewrite (chmod_file _ (universal_newlines content) mode')
        in Echmod by apply put_same.
      injection Echmod as <- _.
      apply io_ret_inv in Ecopy as [-> _].
      exists path, content, mode, mode'. auto.
    + left. apply io_ret_inv in Ecopy as [-> _]. auto.
  - destruct found.
    + left.
      apply io_bind_inv in Econf as (g1 & text & Eread & Econf).
      apply read_text_inv in Eread as [-> (config & mode & Hc & ->)].
      exists config, mode. split; [exact Hc |].
      destruct (contains "aur.archlinux.org" (universal_newlines config))
        eqn:Hin; cbn [negb] in Econf.
      * left. apply io_ret_inv in Econf as [-> _]. auto.
      * right. apply append_text_inv in Econf
          as [(old & mode0 & Hold & ->) | [Habs _]]; [| congruence].
        rewrite Hc in Hold. now injection Hold as <- <-.
    + right.
      assert (Habs : fa (config_path home) = Absent) by now apply Hfound.
      split; [exact Habs |].
      apply io_bind_inv in Econf as (g1 & u1 & Ewrite & Econf).
      apply write_text_inv in Ewrite
        as (mode & -> & [(old & Hold) | [_ ->]]); [congruence |].
      rewrite (chmod_file _ aur_config create_mode) in Econf
        by apply put_same.
      now injection Econf as <-.
Qed.

Lemma neq_eqb (a b : string) : a <> b -> String.eqb a b = false.
Proof. apply String.eqb_neq. Qed.

Lemma setup_success_configured
    (home : string) (create_mode : Z) (ssh_key_path : option string)
    (f f' : fs) :
  setup_ssh_key home create_mode ssh_key_path f = (f', true) ->
  (forall path, ssh_key_path = Some path ->
     path <> key_dest home /\ path <> config_path home) ->
  configured home ssh_key_path f'
  /\ (forall q, q <> ssh_dir home -> q <> key_dest home ->
                q <> config_path home -> f' q = f q)
  /\ (forall config mode,
        f (config_path home) = File config mode ->
        f' (config_path home) = File config mode
        \/ f' (config_path home) = File (config ++ aur_config) mode).
Proof.
  intros H Hne.
  destruct (setup_success_inv _ _ _ _ _ H)
    as (f0 & fa & [HD H0] & Hcopy & Hconf).
  (* what the copy of the key leaves *)
  assert (Ha : fa (ssh_dir home) = Dir
               /\ fa (config_path home) = f0 (config_path home)
               /\ (forall q, q <> key_dest home -> fa q = f0 q)).
  { destruct Hcopy as [[_ ->] | (p & c & m & m' & _ & _ & _ & ->)]; [auto |].
    rewrite !(put_diff _ _ _ _ (dir_not_dest home)).
    rewrite !(put_diff _ _ _ _ (config_not_dest home)).
    repeat split; auto.
    intros q Hq. now rewrite !(put_diff _ _ _ _ (neq_eqb _ _ Hq)). }
  destruct Ha as (HaD & HaC & Harest).
  (* what the configuration step leaves *)
  assert (Hf : f' (ssh_dir home) = Dir
               /\ (forall q, q <> config_path home -> f' q = fa q)).
  { destruct Hconf as [(c & m & _ & [[-> _] | ->]) | [_ ->]]; [auto | |].
    - rewrite (put_diff _ _ _ _ (dir_not_config home)). split; [auto |].
      intros q Hq. now rewrite (put_diff _ _ _ _ (neq_eqb _ _ Hq)).
    - rewrite !(put_diff _ _ _ _ (dir_not_config home)). split; [auto |].
      intros q Hq. now rewrite !(put_diff _ _ _ _ (neq_eqb _ _ Hq)). }
  destruct Hf as (HfD & Hfrest).
  split; [split; [exact HfD | split] | split].
  - intros path Hp Hempty. destruct (Hne path Hp) as [N1 N2].
    destruct Hcopy as [[Hg _] | (p & c & m & m' & Hp' & _ & Hfile & ->)].
    { subst ssh_key_path. cbn [given_path] in Hg.
      rewrite Hempty in Hg. discriminate Hg. }
    rewrite Hp in Hp'. injection Hp' as <-.
    exists c, m. split.
    + rewrite (Hfrest path N2).
      now rewrite !(put_diff _ _ _ _ (neq_eqb _ _ N1)).
    + rewrite (Hfrest (key_dest home)).
      * apply put_same.
      * intros E. pose proof (dest_not_config home) as D.
        rewrite E, String.eqb_refl in D. discriminate D.
  - destruct Hconf as [(c & m & Hc & [[-> Hin] | ->]) | [_ ->]].
    + now exists c, m.
    + exists (c ++ aur_config), m. split; [apply put_same |].
      apply (appended_config_is_found (String.length c)). lia.
    + exists aur_config, 384%Z. split; [apply put_same | reflexivity].
  - intros q N1 N2 N3.
    now rewrite (Hfrest q N3), (Harest q N2), (H0 q N1).
  - intros config mode Hold.
    assert (Hc0 : fa (config_path home) = File config mode).
    { rewrite HaC, H0; [exact Hold |].
      intros E. pose proof (config_not_dir home) as D.
      rewrite E, String.eqb_refl in D. discriminate D. }
    destruct Hconf as [(c & m & Hc & [[-> _] | ->]) | [Habs _]].
    + left. exact Hc0.
    + right. rewrite Hc in Hc0. injection Hc0 as -> ->. apply put_same.
    + congruence.
Qed.

(** X14. After a successful set-up with a key that is neither the copy
    nor the configuration file: the directory is there, the key has been
    copied with mode 0o600, and the configuration file names the AUR
    host; no path other than the directory, the copy and the
    configuration file has changed; and a configuration file that was
    there keeps its mode and its text, with at most the host block added
    at its end. *)
Theorem setup_success_postcondition
    (home : string) (create_mode : Z) (ssh_key_path : option string)
    (f f' : fs) :
  setup_ssh_key home create_mode ssh_key_path f = (f', true) ->
  (forall path, ssh_key_path = Some path ->
     path <> key_dest home /\ path <> config_path home) ->
  configured home ssh_key_path f'
  /\ (forall q, q <> ssh_dir home -> q <> key_dest home ->
                q <> config_path home -> f' q = f q)
  /\ (forall config mode,
        f (config_path home) = File config mode ->
        f' (config_path home) = File config mode
        \/ f' (config_path home) = File (config ++ aur_config) mode).
Proof. exact (setup_success_configured home create_mode ssh_key_path f f'). Qed.

Lemma setup_success_postcondition_witness :
  configured "/home/u" (Some "/home/u/key") configured_home
  /\ (forall q, q <> ssh_dir "/home/u" -> q <> key_dest "/home/u" ->
                q <> config_path "/home/u" -> configured_home q = fresh_home q)
  /\ (forall config mode,
        fresh_home (config_path "/home/u") = File config mode ->
        configured_home (config_path "/home/u") = File config mode
        \/ configured_home (config_path "/home/u")
           = File (config ++ aur_config) mode).
Proof.
  apply (setup_success_postcondition "/home/u" 420 (Some "/home/u/key")
           fresh_home configured_home).
  - reflexivity.
  - intros path [= <-]. split; discriminate.
Defined.

Lemma setup_again_changes_nothing_witness :
  fst (setup_ssh_key "/home/u" 420 (Some "/home/u/key") configured_home)
    "/home/u/.ssh/config"
  = configured_home "/home/u/.ssh/config"
  /\ fst (setup_ssh_key "/home/u" 420 (Some "/home/u/key") configured_home)
       "/home/u/.ssh/aur_ed25519"
     = configured_home "/home/u/.ssh/aur_ed25519".
Proof.
  assert (H : forall q,
             fst (setup_ssh_key "/home/u" 420 (Some "/home/u/key")
                    configured_home) q
             = configured_home q).
  { apply (setup_again_changes_nothing "/home/u" 420 (Some "/home/u/key")
             configured_home).
    - split; [reflexivity | split].
      + intros path [= <-] _. exists ("KEY" ++ cr ++ nl), 420%Z.
        split; reflexivity.
      + exists aur_config, 384%Z. split; reflexivity.
    - vm_compute. reflexivity. }
  split; apply H.
Defined.

(** X16. When the key file that is asked for does not exist, the set-up
    fails, and it has written nothing: at most the [.ssh] directory has
    been made. *)
Theorem missing_key_fails_without_writing
    (home : string) (create_mode : Z) (path : string) (f : fs) :
  is_empty path = false ->
  f path = Absent ->
  snd (setup_ssh_key home create_mode (Some path) f) = false
  /\ forall q, q <> ssh_dir home ->
       fst (setup_ssh_key home create_mode (Some path) f) q = f q.
Proof.
  intros Hempty Habs.
  assert (H : exists f' r,
             setup_ssh_key_body home create_mode (Some path) f = (f', r)
             /\ r <> Done true
             /\ forall q, q <> ssh_dir home -> f' q = f q).
  { unfold setup_ssh_key_body, io_bind.
    destruct (mkdir_exist_ok home (ssh_dir home) f) as [f0 [u | e]] eqn:Emk.
    - apply mkdir_inv in Emk as [HD Hrest].
      cbn [given_path]. rewrite Hempty. cbn [negb].
      unfold exists_ at 1.
      destruct (f0 path) as [| | content mode] eqn:Ep.
      + unfold io_ret. cbn [negb].
        exists f0, (Done false). repeat split; [discriminate | exact Hrest].
      + unfold read_text at 1. rewrite Ep.
        exists f0, (Failed IsADirectoryError).
        repeat split; [discriminate | exact Hrest].
      + exfalso. destruct (String.eqb_spec path (ssh_dir home)) as [-> | N].
        * congruence.
        * rewrite (Hrest path N) in Ep. congruence.
    - exists f, (Failed e). split; [| split; [discriminate | auto]].
      f_equal. unfold mkdir_exist_ok in Emk.
      destruct (f (ssh_dir home)); [destruct (f home) |..]; congruence. }
  destruct H as (f' & r & E & Hr & Hsame).
  unfold setup_ssh_key. rewrite E.
  destruct r as [[|] | e]; cbn [fst snd]; auto. congruence.
Qed.

Lemma missing_key_fails_without_writing_witness :
  snd (setup_ssh_key "/home/u" 420 (Some "/home/u/nokey") fresh_home) = false
  /\ forall q, q <> ssh_dir "/home/u" ->
       fst (setup_ssh_key "/home/u" 420 (Some "/home/u/nokey") fresh_home) q
       = fresh_home q.
Proof.
  apply (missing_key_fails_without_writing "/home/u" 420 "/home/u/nokey"
           fresh_home); reflexivity.
Defined.

(* ================================================================== *)
(** * The sibling generators *)
(* ================================================================== *)

Import Winget AltStore.

(** *** Upper-case digests *)

Lemma map_chars_length (f : ascii -> ascii) (s : string) :
  String.length (map_chars f s) = String.length s.
Proof. induction s as [| c r IH]; simpl; [reflexivity | now rewrite IH]. Qed.

Lemma upper_char_hex (c : ascii) :
  is_lower_hex c = true -> is_upper_hex (upper_char c) = true.
Proof.
  destruct c as [[] [] [] [] [] [] [] []]; intros H;
    try discriminate H; reflexivity.
Qed.

Lemma upper_of_lower_hex (s : string) :
  all_chars is_lower_hex s = true -> all_chars is_upper_hex (upper s) = true.
Proof.
  induction s as [| c r IH]; [reflexivity |].
  change (all_chars is_lower_hex (String c r))
    with (is_lower_hex c && all_chars is_lower_hex r).
  change (all_chars is_upper_hex (upper (String c r)))
    with (is_upper_hex (upper_char c) && all_chars is_upper_hex (upper r)).
  intros H. apply andb_true_iff in H as [Hc Hr].
  now rewrite (upper_char_hex c Hc), (IH Hr).
Qed.

Lemma get_file_sha256_run (content : list byte) (url : string) :
  get_file_sha256 (Some content) url
  = ([Download (JStr url)], Ret (Some (upper (Sha256.hexdigest content)))).
Proof. reflexivity. Qed.

(** X17. The Winget generator and the AUR updater hash alike: for the
    same downloaded bytes, however they were cut into chunks on the AUR
    side, [get_file_sha256] returns the digest of [calculate_sha256] with
    its letters in upper case: 64 characters among 0-9 and A-F. A failed
    download gives [None]. *)
Theorem get_file_sha256_is_the_aur_digest_in_upper_case
    (w : world) (aur_url : value) (url : string)
    (chunks : list (list byte)) :
  artifact w = DownloadChunks chunks ->
  exists d,
    result (calculate_sha256 w aur_url) = Ret (Some d)
    /\ get_file_sha256 (Some (List.concat chunks)) url
       = ([Download (JStr url)], Ret (Some (upper d)))
    /\ String.length (upper d) = 64
    /\ all_chars is_upper_hex (upper d) = true
    /\ get_file_sha256 None url = ([Download (JStr url)], Ret None).
Proof.
  intros Hart. exists (Sha256.hexdigest (List.concat chunks)).
  split; [| split; [| split; [| split]]].
  - rewrite calculate_sha256_run, Hart. reflexivity.
  - apply get_file_sha256_run.
  - unfold upper. rewrite map_chars_length. apply hexdigest_length.
  - apply upper_of_lower_hex, concat_hex2_lower.
  - reflexivity.
Qed.

Lemma get_file_sha256_is_the_aur_digest_in_upper_case_witness :
  exists d,
    result (calculate_sha256 world_current (JStr sample_url)) = Ret (Some d)
    /\ get_file_sha256 (Some (List.concat [abc])) "https://e/a.exe"
       = ([Download (JStr "https://e/a.exe")], Ret (Some (upper d)))
    /\ String.length (upper d) = 64
    /\ all_chars is_upper_hex (upper d) = true
    /\ get_file_sha256 None "https://e/a.exe"
       = ([Download (JStr "https://e/a.exe")], Ret None).
Proof.
  apply (get_file_sha256_is_the_aur_digest_in_upper_case
           world_current (JStr sample_url) "https://e/a.exe" [abc]).
  reflexivity.
Defined.

(** *** The Windows installer of a release *)

Lemma startswith_http_truthy (s : string) :
  startswith "http" s = true -> truthy (JStr s) = true.
Proof. destruct s; [discriminate | reflexivity]. Qed.

Lemma first_arch_truthy (archs : list string) (d : list (string * value))
    (u : value) :
  first_arch archs d = Some u -> truthy u = true.
Proof.
  induction archs as [| arch rest IH]; [discriminate |].
  simpl. destruct (lookup arch d) as [v |]; [| exact IH].
  destruct (truthy v) eqn:T; [| exact IH].
  intros H. injection H as <-. exact T.
Qed.

Lemma settled_ret (v : value) : v = JNull \/ truthy v = true -> settled (ret v).
Proof. intros H. split; [reflexivity | exact H]. Qed.

Lemma first_package_settled (package_types : list string)
    (windows_downloads : value) :
  settled (first_package package_types windows_downloads).
Proof.
  induction package_types as [| package_type rest IH].
  - apply settled_ret. now left.
  - cbn [first_package].
    destruct windows_downloads as [| b | n | s | l | d];
      try (split; reflexivity).
    + (* a string: membership is a substring test, indexing fails *)
      unfold py_in. rewrite bind_ret_l.
      destruct (contains package_type s); [split; reflexivity | exact IH].
    + (* a list: membership holds or not, indexing fails *)
      unfold py_in. rewrite bind_ret_l.
      match goal with |- settled (if ?c then _ else _) => destruct c end;
        [split; reflexivity | exact IH].
    + (* a dict *)
      unfold py_in, getitem. rewrite bind_ret_l.
      destruct (lookup package_type d) as [pkg_data |]; [| exact IH].
      rewrite bind_ret_l.
      destruct pkg_data as [| b | n | s | l | pd]; try exact IH.
      * destruct (startswith "http" s) eqn:Hs; [| exact IH].
        apply settled_ret. right. now apply startswith_http_truthy.
      * destruct (first_arch ["x86_64"; "arm64"] pd) as [u |] eqn:Hu;
          [| exact IH].
        apply settled_ret. right. exact (first_arch_truthy _ _ _ Hu).
Qed.

(** X18. What [get_windows_download_url] gives back: nothing is fetched;
    a returned value is [None] or a value that counts as true, so the
    caller's test [if not download_url] rejects [None] only; indexing
    never fails with a [KeyError]: the only exceptions are the
    [AttributeError] of [.get] on a value that is no dict and the
    [TypeError] of [in] or of the index on a value that is no dict. *)
Theorem get_windows_download_url_outcome (version : value) :
  trace (get_windows_download_url version) = []
  /\ match result (get_windows_download_url version) with
     | Ret v => v = JNull \/ truthy v = true
     | Raise e => e = AttributeError \/ e = TypeError
     end.
Proof.
  unfold get_windows_download_url.
  destruct (get_outcome version "downloads" (JDict [])) as [[dl ->] | ->];
    [| split; [reflexivity | now left]].
  change ([], Ret dl) with (@ret value dl). rewrite bind_ret_l.
  destruct (get_outcome dl "Windows" (JDict [])) as [[wd ->] | ->];
    [| split; [reflexivity | now left]].
  change ([], Ret wd) with (@ret value wd). rewrite bind_ret_l.
  destruct (truthy wd); cbn [negb].
  - destruct (first_package_settled ["exe"; "msi"; "msix"; "zip"] wd)
      as [Ht Hr].
    split; [exact Ht |].
    destruct (result (first_package ["exe"; "msi"; "msix"; "zip"] wd));
      [exact Hr | now right].
  - split; [reflexivity | now left].
Qed.

(** X19. The package types are tried in the order exe, msi, msix, zip, and
    the type comes before the architecture: when the exe entry is a dict
    with a usable architecture (x86_64 first, else arm64), that URL is
    returned whatever the other entries hold, so an arm64 exe is taken
    before an x86_64 msi. *)
Theorem exe_entry_is_taken_first
    (version downloads windows_downloads pkg_data : list (string * value))
    (u : value) :
  lookup "downloads" version = Some (JDict downloads) ->
  lookup "Windows" downloads = Some (JDict windows_downloads) ->
  lookup "exe" windows_downloads = Some (JDict pkg_data) ->
  first_arch ["x86_64"; "arm64"] pkg_data = Some u ->
  get_windows_download_url (JDict version) = ([], Ret u).
Proof.
  intros Hd Hw He Hu. unfold get_windows_download_url.
  rewrite get_dict, Hd, bind_ret_l, get_dict, Hw, bind_ret_l.
  destruct windows_downloads as [| entry rest]; [discriminate He |].
  cbn [truthy negb first_package py_in].
  rewrite He, bind_ret_l. unfold getitem. rewrite He, bind_ret_l, Hu.
  reflexivity.
Qed.

Lemma exe_entry_is_taken_first_witness :
  get_windows_download_url both_installers
  = ([], Ret (JStr "https://e/a.exe")).
Proof.
  apply (exe_entry_is_taken_first
           [("downloads",
             JDict [("Windows",
                     JDict [("msi", JDict [("x86_64", JStr "https://e/a.msi")]);
                            ("exe", JDict [("x86_64", JStr "");
                                           ("arm64", JStr "https://e/a.exe")])])])]
           [("Windows",
             JDict [("msi", JDict [("x86_64", JStr "https://e/a.msi")]);
                    ("exe", JDict [("x86_64", JStr "");
                                   ("arm64", JStr "https://e/a.exe")])])]
           [("msi", JDict [("x86_64", JStr "https://e/a.msi")]);
            ("exe", JDict [("x86_64", JStr "");
                           ("arm64", JStr "https://e/a.exe")])]
           [("x86_64", JStr ""); ("arm64", JStr "https://e/a.exe")]
           (JStr "https://e/a.exe"));
    reflexivity.
Defined.

(** *** AltStore categories and screenshots *)

Lemma existsb_eqb_In (s : string) (l : list string) :
  existsb (String.eqb s) l = true -> In s l.
Proof.
  intros H. apply existsb_exists in H as [x [Hx E]].
  apply String.eqb_eq in E. now subst x.
Qed.

Lemma map_category_valid (category : value) :
  In (_map_category category) valid_categories.
Proof.
  unfold _map_category. cbv zeta.
  destruct (existsb (String.eqb (replace " " "-" (lower (str category))))
              valid_categories) eqn:E.
  - now apply existsb_eqb_In.
  - vm_compute. tauto.
Qed.

(** X20. Every category comes out as one of the eight AltStore categories,
    whatever value the API holds (a string in any letter case, with spaces
    or hyphens, or a value that is no string), and mapping the result
    again leaves it as it is. *)
Theorem map_category_is_valid_and_stable (category : value) :
  In (_map_category category) valid_categories
  /\ _map_category (JStr (_map_category category)) = _map_category category.
Proof.
  split; [apply map_category_valid |].
  pose proof (map_category_valid category) as H.
  remember (_map_category category) as c eqn:E. clear E.
  repeat (destruct H as [<- | H]; [reflexivity |]). destruct H.
Qed.

Lemma firstn_In {A} (n : nat) (l : list A) (x : A) :
  In x (firstn n l) -> In x l.
Proof.
  revert l. induction n as [| n IH]; intros [| a l]; simpl; try tauto.
  intros [-> | H]; [now left | right; now apply IH].
Qed.

Lemma collect_screenshots_In (l : list value) (x : value) :
  In x (collect_screenshots l) -> exists shot, In shot l /\ shown_by x shot.
Proof.
  induction l as [| shot rest IH]; [intros [] |].
  assert (Hrest : In x (collect_screenshots rest) ->
                  exists s, In s (shot :: rest) /\ shown_by x s).
  { intros H. destruct (IH H) as [s [Hs Hx]]. exists s.
    split; [now right | exact Hx]. }
  cbn [collect_screenshots].
  destruct shot as [| b | n | s | l' | d]; try exact Hrest.
  - intros [<- | H]; [| now apply Hrest].
    exists (JStr s). split; [now left | reflexivity].
  - destruct (lookup "imageURL" d) as [v |] eqn:E; [| exact Hrest].
    intros [<- | H]; [| now apply Hrest].
    exists (JDict d). split; [now left | exact E].
Qed.

Lemma collect_screenshots_strings (urls : list string) :
  collect_screenshots (map JStr urls) = map JStr urls.
Proof.
  induction urls as [| u r IH]; [reflexivity |].
  cbn [map collect_screenshots]. now rewrite IH.
Qed.

(** X21. At most ten screenshots are kept, each
    one is a string of the list or the [imageURL] entry of a dict of the
    list, other elements are skipped, and a value that is no list gives an
    empty result. A list of up to ten plain URLs is passed on unchanged. *)
Theorem process_screenshots_keeps_ten (screenshots : value) :
  (List.length (_process_screenshots screenshots) <= 10)%nat
  /\ (forall x, In x (_process_screenshots screenshots) ->
        exists l shot,
          screenshots = JList l /\ In shot l /\ shown_by x shot)
  /\ (forall urls, screenshots = JList (map JStr urls) ->
        _process_screenshots screenshots = firstn 10 (map JStr urls)).
Proof.
  split; [| split].
  - destruct screenshots; try (cbn; lia).
    unfold _process_screenshots. rewrite length_firstn. lia.
  - intros x H. destruct screenshots as [| b | n | s | l | d];
      try (destruct H).
    apply firstn_In, collect_screenshots_In in H as [shot [Hs Hx]].
    exists l, shot. auto.
  - intros urls ->. unfold _process_screenshots.
    now rewrite collect_screenshots_strings.
Qed.
